(** * Diversity metrics of abc_merfish_analysis: a shallow embedding

    The development follows the two source files

      - [src/abc_merfish_analysis/diversity_metrics.py]
      - [src/abc_merfish_analysis/diversity_plots.py]

    Conventions of the embedding.

    - A category or region label is a [string]; missing values (NaN labels)
      are outside the model.
    - A pandas Series of labels is a record holding its values in row order
      and the categories declared by a categorical dtype (empty for a plain
      object column). [value_counts] reports declared categories that do not
      occur with count 0, which is why the source filters [c > 0].
    - Python integers are [nat] or [Z]; floating point numbers are modelled
      under exact rational arithmetic by [Np.float], the rationals extended
      with the two infinities and NaN, since numpy and pandas divide by zero
      without raising. Signed zeros are not distinguished.
    - Python exceptions are modelled by the error monad [Py.result].
    - Columns named by the arguments are present in the table; a row is a
      total map from column names to cells.
    - A frame without rows still has its columns and their dtypes: an
      aggregation over no group keeps the dtypes of the level columns, and
      an assignment of a Series to such a frame takes the index of the
      Series.
    - The index labels of a table are strings, like the names of its
      columns; pandas keeps them apart by position only.
    - [Pool().map] returns its results in the order of its arguments, so it
      is a map; the neighbour search of scikit-learn, [np.log2] and the
      palette provider of the atlas loader are parameters. *)

From Stdlib Require Import List String Ascii Bool Arith ZArith QArith.
From Stdlib Require Import Lia Lqa Permutation.
Import ListNotations.

Set Implicit Arguments.
Close Scope Q_scope.

(* ------------------------------------------------------------------ *)
(** ** Python: exceptions *)

Module Py.

Inductive exn : Type :=
| ZeroDivisionError
| ValueError
| TypeError
| IndexError.

Inductive result (A : Type) : Type :=
| Return (a : A)
| Raise (e : exn).
Arguments Return {A} a.
Arguments Raise {A} e.

Definition bind {A B : Type} (c : result A) (k : A -> result B) : result B :=
  match c with
  | Return a => k a
  | Raise e => Raise e
  end.

(** [[f(x) for x in xs]], stopping at the first exception. *)
Fixpoint mapM {A B : Type} (f : A -> result B) (xs : list A) : result (list B) :=
  match xs with
  | [] => Return []
  | x :: t =>
      bind (f x) (fun y => bind (mapM f t) (fun ys => Return (y :: ys)))
  end.

(** [try: c except e: handler] *)
Definition try_except {A : Type} (c : result A) (e : exn) (handler : result A)
  : result A :=
  match c with
  | Return a => Return a
  | Raise e' => if match e, e' with
                   | ZeroDivisionError, ZeroDivisionError
                   | ValueError, ValueError
                   | TypeError, TypeError
                   | IndexError, IndexError => true
                   | _, _ => false
                   end
                then handler else Raise e'
  end.

End Py.

Import Py.

Declare Scope py_scope.
Delimit Scope py_scope with py.
Notation "x <- c ;; k" := (Py.bind c (fun x => k))
  (at level 61, c at next level, right associativity) : py_scope.

(* ------------------------------------------------------------------ *)
(** ** numpy: float64 under exact arithmetic *)

Module Np.

Local Open Scope Q_scope.

Inductive float : Type :=
| Fin (q : Q)
| PInf
| NInf
| NaN.

Definition of_Z (z : Z) : float := Fin (inject_Z z).
Definition of_nat (n : nat) : float := of_Z (Z.of_nat n).

Definition add (a b : float) : float :=
  match a, b with
  | NaN, _ | _, NaN => NaN
  | Fin x, Fin y => Fin (x + y)
  | PInf, NInf | NInf, PInf => NaN
  | PInf, _ | _, PInf => PInf
  | NInf, _ | _, NInf => NInf
  end.

Definition mul (a b : float) : float :=
  match a, b with
  | NaN, _ | _, NaN => NaN
  | Fin x, Fin y => Fin (x * y)
  | PInf, Fin y | Fin y, PInf =>
      if Qeq_bool y 0 then NaN else if Qle_bool 0 y then PInf else NInf
  | NInf, Fin y | Fin y, NInf =>
      if Qeq_bool y 0 then NaN else if Qle_bool 0 y then NInf else PInf
  | PInf, PInf | NInf, NInf => PInf
  | PInf, NInf | NInf, PInf => NInf
  end.

(** Division never raises: [x / 0] is an infinity, [0 / 0] is NaN. *)
Definition div (a b : float) : float :=
  match a, b with
  | NaN, _ | _, NaN => NaN
  | Fin x, Fin y =>
      if Qeq_bool y 0
      then (if Qeq_bool x 0 then NaN else if Qle_bool 0 x then PInf else NInf)
      else Fin (x / y)
  | Fin _, (PInf | NInf) => Fin 0
  | PInf, Fin y => if Qle_bool 0 y then PInf else NInf
  | NInf, Fin y => if Qle_bool 0 y then NInf else PInf
  | (PInf | NInf), (PInf | NInf) => NaN
  end.

(** [a ** 2] *)
Definition square (a : float) : float := mul a a.

(** [a <= b]; every comparison with NaN is false. *)
Definition leb (a b : float) : bool :=
  match a, b with
  | NaN, _ | _, NaN => false
  | Fin x, Fin y => Qle_bool x y
  | NInf, _ | _, PInf => true
  | _, _ => false
  end.

(** [np.sum] of a one-dimensional array; the sum of nothing is 0. *)
Definition sum (l : list float) : float := fold_right add (Fin 0) l.

End Np.

(* ------------------------------------------------------------------ *)
(** ** pandas: Series of labels *)

Module Pd.

Definition label : Type := string.
Definition label_dec : forall a b : label, {a = b} + {a <> b} := string_dec.

Record Series : Type := mkSeries {
  values : list label;
  categories : list label
}.

(** [len(x)] *)
Definition len (x : Series) : nat := List.length (values x).

(** Distinct elements in order of first appearance. *)
Fixpoint distinct {A : Type} (dec : forall a b : A, {a = b} + {a <> b})
  (l : list A) : list A :=
  match l with
  | [] => []
  | a :: t => a :: remove dec a (distinct dec t)
  end.

(** [x.unique()]: the observed labels, each once. *)
Definition unique (x : Series) : list label := distinct label_dec (values x).

(** [x.value_counts()]: one entry per observed label and per declared
    category, with its number of occurrences. pandas orders the entries by
    decreasing count; the source only takes the length or a sum of the
    result, so the order kept here is that of first appearance. *)
Definition value_counts (x : Series) : list (label * nat) :=
  map (fun c => (c, count_occ label_dec (values x) c))
      (distinct label_dec (values x ++ categories x)).

(** [s.loc[lambda c: pred(c)]] on a Series of counts. *)
Definition loc_counts (pred : nat -> bool) (s : list (label * nat))
  : list (label * nat) :=
  filter (fun kv => pred (snd kv)) s.

(** *** Observation table *)

(** One row per cell: its index label, its categorical cells and its
    numeric cells, by column name. *)
Record Row : Type := mkRow {
  row_name : label;
  cell : string -> label;
  coord : string -> Q
}.

Record Table : Type := mkTable {
  rows : list Row;
  dtype_categories : string -> list label
}.

(** [obs[col]] *)
Definition column (obs : Table) (col : string) : Series :=
  mkSeries (map (fun r => cell r col) (rows obs)) (dtype_categories obs col).

(** Whether the dtype of [obs[col]] is categorical: it declares categories.
    A plain object column declares none. (A categorical dtype without any
    category, which only a column without values can have, is not told
    apart from object.) *)
Definition is_categorical (obs : Table) (col : string) : bool :=
  match dtype_categories obs col with
  | [] => false
  | _ :: _ => true
  end.

(** [obs.index] *)
Definition table_index (obs : Table) : list label := map row_name (rows obs).

(** [s.isin(values)], cell by cell *)
Definition isin (v : label) (vs : list label) : bool :=
  existsb (String.eqb v) vs.

(** [obs.loc[mask]] with a boolean mask computed row by row *)
Definition loc_rows (mask : Row -> bool) (obs : Table) : Table :=
  mkTable (filter mask (rows obs)) (dtype_categories obs).

(** [obs.iloc[positions]]: positional selection, out of range raises *)
Definition iloc (obs : Table) (positions : list nat) : Py.result Table :=
  (rs <- Py.mapM (fun j => match nth_error (rows obs) j with
                           | Some r => Return r
                           | None => Raise IndexError
                           end) positions ;;
   Return (mkTable rs (dtype_categories obs)))%py.

(** *** Tables of results *)

(** A DataFrame with a label index, named columns and row-major cells. *)
Record Frame (A : Type) : Type := mkFrame {
  index : list label;
  columns : list string;
  data : list (list A)
}.

Definition frame_map {A B : Type} (f : A -> B) (fr : Frame A) : Frame B :=
  mkFrame (index fr) (columns fr) (map (map f) (data fr)).

(** [fr.rename(columns=f)] *)
Definition rename_columns {A : Type} (f : string -> string) (fr : Frame A)
  : Frame A :=
  mkFrame (index fr) (map f (columns fr)) (data fr).

Fixpoint zip_with {A B C : Type} (f : A -> B -> C) (l : list A) (m : list B)
  : list C :=
  match l, m with
  | a :: l', b :: m' => f a b :: zip_with f l' m'
  | _, _ => []
  end.

(** Position of the first column called [c]. *)
Fixpoint position (c : string) (cols : list string) : option nat :=
  match cols with
  | [] => None
  | c' :: t => if String.eqb c c' then Some 0
               else option_map S (position c t)
  end.

(** The row labelled [r], if any. *)
Fixpoint assoc {A : Type} (r : label) (l : list (label * A)) : option A :=
  match l with
  | [] => None
  | (k, v) :: t => if String.eqb r k then Some v else assoc r t
  end.

Definition frame_row {A : Type} (fr : Frame A) (r : label) : option (list A) :=
  assoc r (combine (index fr) (data fr)).

(** [fr.loc[r, c]] *)
Definition frame_at {A : Type} (fr : Frame A) (r : label) (c : string)
  : option A :=
  match frame_row fr r, position c (columns fr) with
  | Some row, Some j => nth_error row j
  | _, _ => None
  end.

(** *** Grouping *)

Section Grouping.

(** Order of the group keys: that of the strings for an object column,
    that of the declared categories for a categorical one. *)
Variable leb : label -> label -> bool.

Fixpoint insert (a : label) (l : list label) : list label :=
  match l with
  | [] => [a]
  | b :: t => if leb a b then a :: l else b :: insert a t
  end.

Fixpoint sort (l : list label) : list label :=
  match l with
  | [] => []
  | a :: t => insert a (sort t)
  end.

(** Keys of [obs.groupby(by, observed=True)]: the labels that occur. *)
Definition group_keys (obs : Table) (key : string) : list label :=
  sort (distinct label_dec (map (fun r => cell r key) (rows obs))).

(** [obs.groupby(by, observed=True)]: every key with its rows. *)
Definition groupby (obs : Table) (key : string) : list (label * Table) :=
  map (fun k => (k, loc_rows (fun r => String.eqb (cell r key) k) obs))
      (group_keys obs key).

(** [groups[levels].aggregate(function)] *)
Definition aggregate {A : Type} (groups : list (label * Table))
  (levels : list string) (function : Series -> Py.result A)
  : Py.result (Frame A) :=
  (cells <- Py.mapM (fun g =>
             Py.mapM (fun lv => function (column (snd g) lv)) levels) groups ;;
   Return (mkFrame (map fst groups) levels cells))%py.

(** [obs.groupby([a, b], observed=True).size()]: the number of rows of
    every pair of labels that occurs. *)
Definition pair_dec : forall p q : label * label, {p = q} + {p <> q}.
Proof. decide equality; apply label_dec. Defined.

Definition groupby2_size (obs : Table) (a b : string)
  : list ((label * label) * Z) :=
  map (fun k => (k, Z.of_nat (List.length
                  (filter (fun r => String.eqb (cell r a) (fst k)
                                    && String.eqb (cell r b) (snd k))
                          (rows obs)))))
      (distinct pair_dec (map (fun r => (cell r a, cell r b)) (rows obs))).

Fixpoint assoc2 (r c : label) (l : list ((label * label) * Z)) : option Z :=
  match l with
  | [] => None
  | ((k1, k2), v) :: t =>
      if String.eqb r k1 && String.eqb c k2 then Some v else assoc2 r c t
  end.

(** [sizes.unstack(fill_value=fill)]: first key down the rows, second key
    across the columns. *)
Definition unstack (fill : Z) (sizes : list ((label * label) * Z)) : Frame Z :=
  let idx := sort (distinct label_dec (map (fun kv => fst (fst kv)) sizes)) in
  let cols := sort (distinct label_dec (map (fun kv => snd (fst kv)) sizes)) in
  mkFrame idx cols
    (map (fun r => map (fun c => match assoc2 r c sizes with
                                 | Some n => n
                                 | None => fill
                                 end) cols) idx).

End Grouping.

(** [pd.concat(frames, axis=1)]: rows are matched by label, a frame that
    lacks a row contributes NaN. *)
Definition concat_axis1 (frames : list (Frame Np.float)) : Frame Np.float :=
  let idx := distinct label_dec (List.concat (map (@index _) frames)) in
  mkFrame idx (List.concat (map (@columns _) frames))
    (map (fun r => List.concat (map (fun fr =>
            match frame_row fr r with
            | Some row => row
            | None => repeat Np.NaN (List.length (columns fr))
            end) frames)) idx).

(** [fr[name] = counts]: a new last column, aligned on the index of the
    frame. A frame without rows is the exception: given a Series that is not
    empty it takes the index of the Series, and its other columns are filled
    with NaN. (pandas lists the entries of [value_counts] by decreasing
    count; the rows taken from the Series are kept here in the order of
    [value_counts] above.) *)
Definition assign_counts (fr : Frame Np.float) (name : string)
  (counts : list (label * nat)) : Frame Np.float :=
  match index fr, counts with
  | [], _ :: _ =>
      mkFrame (map fst counts) (columns fr ++ [name])
        (map (fun kv => repeat Np.NaN (List.length (columns fr))
                        ++ [Np.of_nat (snd kv)]) counts)
  | _, _ =>
      mkFrame (index fr) (columns fr ++ [name])
        (zip_with (fun r row => row ++ [match assoc r counts with
                                        | Some n => Np.of_nat n
                                        | None => Np.NaN
                                        end]) (index fr) (data fr))
  end.

(** [l[keep]]: the items of [l] at the positions where [keep] holds. *)
Definition select {A : Type} (keep : list bool) (l : list A) : list A :=
  map snd (filter fst (combine keep l)).

(** *** Frames made from records *)

(** A row key of such a frame: a label, or the values of the fields that the
    index was built from. *)
Inductive index_key : Type :=
| Label (l : label)
| FieldValues (vs : list Np.float).

Record RecordsFrame : Type := mkRecordsFrame {
  rec_index : list index_key;
  rec_columns : list string;
  rec_data : list (list Np.float)
}.

Definition rename_records (f : string -> string) (fr : RecordsFrame)
  : RecordsFrame :=
  mkRecordsFrame (rec_index fr) (map f (rec_columns fr)) (rec_data fr).

(** The positions of the fields called [names], if all of them exist. *)
Fixpoint field_positions (names : list label) (cols : list string)
  : option (list nat) :=
  match names with
  | [] => Some []
  | l :: t =>
      match position l cols, field_positions t cols with
      | Some p, Some ps => Some (p :: ps)
      | _, _ => None
      end
  end.

(** [pd.DataFrame.from_records(results, index=idx)] for records that are
    Series over [cols]. The argument [index] is, in the words of pandas, a
    "field of array to use as the index, alternately a specific set of input
    labels to use": every item of [idx] is first looked up as a field. When
    all of them are fields, the index is built from the values of these
    fields, row by row, and the fields leave the columns. When some item is
    not a field, the lookup fails and [idx] labels the rows; it must then
    have one label per record. No records give no columns. *)
Definition from_records (results : list (list Np.float)) (idx : list label)
  (cols : list string) : Py.result RecordsFrame :=
  let cols := match results with [] => [] | _ :: _ => cols end in
  match idx, field_positions idx cols with
  | _ :: _, Some ps =>
      let keep := map (fun c => negb (isin c idx)) cols in
      Return (mkRecordsFrame
                (map (fun record =>
                        FieldValues (map (fun p => nth p record Np.NaN) ps))
                     results)
                (select keep cols)
                (map (select keep) results))
  | _, _ =>
      if Nat.eqb (List.length results) (List.length idx)
      then Return (mkRecordsFrame (map Label idx) cols results)
      else Raise ValueError
  end.

End Pd.

Import Pd.

(* ------------------------------------------------------------------ *)
(** ** diversity_metrics.py: statistic formulas *)

Module diversity_metrics.

Local Open Scope Q_scope.

(** [len(x.unique())] *)
Definition count_unique (x : Series) : nat := List.length (unique x).

(** [len(x.unique())/len(x)]: a division of Python integers, which raises
    on a zero divisor. *)
Definition count_unique_norm (x : Series) : Py.result Np.float :=
  if Nat.eqb (len x) 0%nat then Raise ZeroDivisionError
  else Return (Np.Fin (inject_Z (Z.of_nat (List.length (unique x)))
                       / inject_Z (Z.of_nat (len x)))).

(** [len(x.value_counts().loc[lambda c: c>5])] *)
Definition count_gt5 (x : Series) : nat :=
  List.length (loc_counts (fun c => (5 <? c)%nat) (value_counts x)).

(** [1/np.sum((x.value_counts().loc[lambda c: c>0]/len(x))**2)], in exact
    arithmetic: the value that float64 rounds. The rounding can move the
    result by a few units in the last place, so bounds are stated here
    only where the rounded value meets them as well. *)
Definition inverse_simpsons_index (x : Series) : Np.float :=
  let c := loc_counts (fun c => (0 <? c)%nat) (value_counts x) in
  let p := map (fun kv => Np.div (Np.of_nat (snd kv)) (Np.of_nat (len x))) c in
  Np.div (Np.Fin 1) (Np.sum (map Np.square p)).

Section Shannon.

(** [np.log2], left abstract. *)
Variable log2 : Np.float -> Np.float.

Definition shannon_index (x : Series) : Np.float :=
  let cateogory_counts := value_counts x in
  let cateogory_counts := loc_counts (fun c => (0 <? c)%nat) cateogory_counts in
  let total := Np.of_nat (list_sum (map snd cateogory_counts)) in
  let p := map (fun kv => Np.div (Np.of_nat (snd kv)) total) cateogory_counts in
  Np.mul (Np.of_Z (-1)) (Np.sum (map (fun pi => Np.mul pi (log2 pi)) p)).

End Shannon.

(** *** Region metric engine *)

(** What [aggregate] and [apply] call on a Series: it yields a number or
    raises. Counts are Python integers, stored as numbers in the frame. *)
Definition statistic : Type := Series -> Py.result Np.float.

Definition of_count (f : Series -> nat) : statistic :=
  fun x => Return (Np.of_nat (f x)).

Definition of_float (f : Series -> Np.float) : statistic :=
  fun x => Return (f x).

Definition default_ccf_label : string := "parcellation_structure_eroded".
Definition default_exclude : list label := ["unassigned"; "TH-unassigned"]%string.
Definition default_levels : list string := ["cluster"; "supertype"; "subclass"]%string.

Section Engines.

(** Order of the region labels in a grouped index. *)
Variable leb : label -> label -> bool.

(** [metric / norms[None,:]]: every row divided cell by cell. *)
Definition div_row_vector (metric : Frame Np.float) (norms : list Np.float)
  : Frame Np.float :=
  mkFrame (index metric) (columns metric)
          (map (fun row => zip_with Np.div row norms) (data metric)).

(** When no row is left after the exclusion there is no group, the
    statistic is not called, and the aggregated frame has no rows: its
    columns then keep the dtypes of the level columns of the observation
    table. *)
Definition get_region_metric (obs_ccf : Table) (function : statistic)
  (metric_name : string) (ccf_label : string) (exclude : list label)
  (norm_fcn : option statistic) (levels : list string)
  : Py.result (Frame Np.float) :=
  (metric <- aggregate
               (groupby leb
                  (loc_rows (fun r => negb (isin (cell r ccf_label) exclude)) obs_ccf)
                  ccf_label)
               levels function ;;
   let metric := rename_columns
                   (fun x => String.concat "_" [metric_name; x]) metric in
   match norm_fcn with
   | Some norm =>
       norms <- Py.mapM (fun lv => norm (column obs_ccf lv)) levels ;;
       (* a categorical column cannot be divided *)
       match index metric with
       | [] => if existsb (is_categorical obs_ccf) levels
               then Raise TypeError
               else Return (div_row_vector metric norms)
       | _ :: _ => Return (div_row_vector metric norms)
       end
   | None => Return metric
   end)%py.

Variable log2 : Np.float -> Np.float.

Definition calculate_diversity_metrics (obs_ccf : Table) (ccf_label : string)
  : Py.result (Frame Np.float) :=
  (m_count <- get_region_metric obs_ccf (of_count count_unique) "count"
                ccf_label default_exclude None default_levels ;;
   m_frac <- get_region_metric obs_ccf (of_count count_unique) "frac"
               ccf_label default_exclude (Some (of_count count_unique))
               default_levels ;;
   m_norm <- get_region_metric obs_ccf count_unique_norm "count_norm2cells"
               ccf_label default_exclude None default_levels ;;
   m_gt5 <- get_region_metric obs_ccf (of_count count_gt5) "count_gt5"
              ccf_label default_exclude None default_levels ;;
   m_frac_gt5 <- get_region_metric obs_ccf (of_count count_gt5) "frac_gt5"
                   ccf_label default_exclude (Some (of_count count_unique))
                   default_levels ;;
   m_simpson <- get_region_metric obs_ccf (of_float inverse_simpsons_index)
                  "inverse_simpsons" ccf_label default_exclude None
                  default_levels ;;
   m_shannon <- get_region_metric obs_ccf (of_float (shannon_index log2))
                  "shannon_index" ccf_label default_exclude None
                  default_levels ;;
   let ccf_metrics_df :=
     concat_axis1 [m_count; m_frac; m_norm; m_gt5; m_frac_gt5; m_simpson;
                   m_shannon] in
   Return (assign_counts ccf_metrics_df "count_cells"
             (value_counts (column obs_ccf ccf_label))))%py.

(** *** Local metric engine *)

(** [NearestNeighbors(n_neighbors).fit(X).kneighbors(X, n_neighbors,
    return_distance=False)] of scikit-learn: for every point the positions
    of its nearest points, or an exception. *)
Variable kneighbors : list (list Q) -> nat -> Py.result (list (list nat)).

Definition neigh_coords : list string := ["x_ccf"; "y_ccf"; "z_ccf"]%string.

(** [obs.iloc[neighbors[i]][levels].aggregate(function)]. The neighbour
    search returns at least one position for every cell; an empty list of
    positions, on which pandas does not call the statistic on the columns,
    is outside the model. *)
Definition calculate_function_locally (i : nat) (obs : Table)
  (neighbors : list (list nat)) (levels : list string) (function : statistic)
  : Py.result (list Np.float) :=
  (positions <- match nth_error neighbors i with
                | Some ps => Return ps
                | None => Raise IndexError
                end ;;
   near <- iloc obs positions ;;
   Py.mapM (fun lv => function (column near lv)) levels)%py.

(** [Pool().map] returns the results in the order of its arguments, so it is
    an ordinary map. *)
Definition calculate_local_diversity_metric (obs_ccf : Table)
  (function : statistic) (metric_name : string) (n_neighbors : nat)
  (levels : list string) : Py.result RecordsFrame :=
  (let X := map (fun r => map (coord r) neigh_coords) (rows obs_ccf) in
   neighbors <- kneighbors X n_neighbors ;;
   results <- Py.mapM (fun i => calculate_function_locally i obs_ccf neighbors
                                  levels function)
                      (seq 0 (List.length (rows obs_ccf))) ;;
   records <- from_records results (table_index obs_ccf) levels ;;
   Return (rename_records
             (fun x => String.concat "_" ["local"%string; metric_name; x])
             records))%py.

End Engines.

End diversity_metrics.

(* ------------------------------------------------------------------ *)
(** ** diversity_plots.py *)

Module diversity_plots.

(** *** Proportion aggregation *)

(** [df.sum(axis=1)] on integer counts *)
Definition sum_axis1 (fr : Frame Z) : list Z :=
  map (fun row => fold_right Z.add 0%Z row) (data fr).

(** [df.div(totals, axis=0)]: every row divided by its own total *)
Definition div_axis0 (fr : Frame Z) (totals : list Z) : Frame Np.float :=
  mkFrame (index fr) (columns fr)
    (zip_with (fun row t => map (fun c => Np.div (Np.of_Z c) (Np.of_Z t)) row)
              (data fr) totals).

(** [df[mask]]: cells outside the mask become NaN, written [None] *)
Definition where_mask (fr : Frame Z) (mask : Frame bool) : Frame (option Z) :=
  mkFrame (index fr) (columns fr)
    (zip_with (zip_with (fun c (m : bool) => if m then Some c else None))
              (data fr) (data mask)).

(** [df.sum(axis=1)] skipping NaN *)
Definition sum_axis1_skipna (fr : Frame (option Z)) : list Z :=
  map (fun row => fold_right (fun c acc => match c with
                                           | Some n => (n + acc)%Z
                                           | None => acc
                                           end) 0%Z row) (data fr).

(** [df.join(col.rename(name))]: a new last column; a column of that name
    already in the frame is an error. *)
Definition join_column (fr : Frame (option Z)) (name : string) (col : list Z)
  : Py.result (Frame (option Z)) :=
  if existsb (String.eqb name) (columns fr) then Raise ValueError
  else Return (mkFrame (index fr) (columns fr ++ [name])
                 (zip_with (fun row v => row ++ [Some v]) (data fr) col)).

(** [df.fillna(v)] *)
Definition fillna (v : Z) (fr : Frame (option Z)) : Frame Z :=
  frame_map (fun c => match c with Some n => n | None => v end) fr.

(** [mask.any(axis=0)]: for every column, whether some row holds [true] *)
Definition any_axis0 (mask : Frame bool) : list bool :=
  map (fun j => existsb (fun row => nth j row false) (data mask))
      (seq 0 (List.length (columns mask))).

(** [df.loc[:, keep]] *)
Definition loc_columns {A : Type} (keep : list bool) (fr : Frame A) : Frame A :=
  mkFrame (index fr) (select keep (columns fr)) (map (select keep) (data fr)).

Section Proportions.

Variable leb : label -> label -> bool.

(** With [min_count] the mask compares integer counts. Without it the mask
    compares the fraction of each cell with [min_frac], here in exact
    arithmetic. The code compares float64 values: the two agree except
    possibly on a cell whose fraction equals [min_frac] as a rational while
    one of the two is rounded (3 of 10 cells against 0.3); 5 of 10 cells
    against 0.5 is exact. *)
Definition calculate_level_proportions (obs : Table) (taxonomy_level : string)
  (ccf_label : string) (min_frac : Q) (min_count : option Z)
  : Py.result (Frame Np.float) :=
  (let counts_df :=
     unstack leb 0%Z (groupby2_size obs ccf_label taxonomy_level) in
   let to_other :=
     match min_count with
     | Some m => frame_map (fun c => (c <=? m)%Z) counts_df
     | None =>
         let total_counts := sum_axis1 counts_df in
         let fraction_df := div_axis0 counts_df total_counts in
         frame_map (fun f => Np.leb f (Np.Fin min_frac)) fraction_df
     end in
   let other_col_df := sum_axis1_skipna (where_mask counts_df to_other) in
   let counts_df := where_mask counts_df (frame_map negb to_other) in
   joined <- join_column counts_df "other" other_col_df ;;
   let counts_df := fillna 0%Z joined in
   let counts_df :=
     loc_columns (any_axis0 (frame_map (fun c => negb (c =? 0)%Z) counts_df))
                 counts_df in
   Return (div_axis0 counts_df (sum_axis1 counts_df)))%py.

End Proportions.

(** *** Palette of the stacked bar plot *)

(** A palette is a dict from category to colour, or a plain list of colours
    as the ones of colorcet. *)
Inductive palette : Type :=
| PaletteDict (d : list (string * string))
| PaletteList (l : list string).

(** [palette[k] = v]: a list cannot be indexed by a string. *)
Definition setitem (p : palette) (k v : string) : Py.result palette :=
  match p with
  | PaletteDict d =>
      Return (PaletteDict
                (if existsb (fun kv => String.eqb k (fst kv)) d
                 then map (fun kv => if String.eqb k (fst kv) then (k, v) else kv) d
                 else d ++ [(k, v)]))
  | PaletteList _ => Raise TypeError
  end.

Section Palette.

(** [abc.get_taxonomy_palette], of the atlas loader; it raises [ValueError]
    on a level that it does not know. *)
Variable get_taxonomy_palette : string -> Py.result palette.

(** The colours of [colorcet.glasbey_light], a list of hex strings. *)
Variable glasbey_colors : list string.

Definition glasbey_light : palette := PaletteList glasbey_colors.

(** Lines 127-135 of [barplot_stacked_proportions]: the palette that the
    plot is drawn with. *)
Definition barplot_stacked_proportions_palette (taxonomy_level : string)
  (palette_arg : option palette) : Py.result palette :=
  (chosen <- match palette_arg with
             | None => Py.try_except (get_taxonomy_palette taxonomy_level)
                                     ValueError (Return glasbey_light)
             | Some p => Return p
             end ;;
   setitem chosen "other" "lightgrey")%py.

End Palette.

(** *** Columns read by the plots of the table of metrics *)

(** Lines 24-25 of [barplot_dual_y_count_frac]: the column of counts, by
    which the regions are sorted, and the column of fractions. *)
Definition barplot_dual_y_count_frac_columns (taxonomy_level : string)
  (gt5_only : bool) : string * string :=
  (if gt5_only then "count_gt5_" ++ taxonomy_level
   else "count_" ++ taxonomy_level,
   if gt5_only then "frac_gt5_" ++ taxonomy_level
   else "frac_" ++ taxonomy_level)%string.

(** [l[0]] *)
Definition getitem0 {A : Type} (l : list A) : Py.result A :=
  match l with
  | [] => Raise IndexError
  | x :: _ => Return x
  end.

(** Lines 65-78 of [plot_metric_multiple_levels]: the column by which the
    regions are sorted, and the columns that are drawn, in the order of
    drawing. [taxonomy_levels] is [None] for a single metric. *)
Definition plot_metric_multiple_levels_columns (metric : string)
  (taxonomy_levels : option (list string)) : Py.result (string * list string) :=
  match taxonomy_levels with
  | None => Return (metric, [metric])
  | Some levels =>
      (first <- getitem0 levels ;;
       Return (String.concat "_" [metric; first],
               map (fun level => String.concat "_" [metric; level])
                   (rev levels)))%py
  end.

End diversity_plots.

(* ------------------------------------------------------------------ *)
Import diversity_metrics diversity_plots.

(* ------------------------------------------------------------------ *)
(** * Vocabulary of the properties *)

(** ** Counts of a Series *)

(** How often the label [c] occurs in [x]. *)
Definition occurrences (x : Series) (c : label) : nat :=
  count_occ label_dec (values x) c.

(** The categories of [x] that occur more than [t] times, each once. *)
Definition categories_over (t : nat) (x : Series) : list label :=
  filter (fun c => t <? occurrences x c) (unique x).

(** The positive counts of a Series. *)
Definition positive_counts (x : Series) : list nat :=
  map snd (loc_counts (fun c => 0 <? c) (value_counts x)).

(** The sum of the squares of a list of counts. *)
Definition sumsq (cs : list nat) : nat := list_sum (map (fun k => k * k) cs).

(** A count as a rational number. *)
Definition Qnat (n : nat) : Q := inject_Z (Z.of_nat n).

(** [Σ (k/n)²], the denominator of the inverse Simpson index. *)
Definition simpson_sum (cs : list nat) (n : nat) : Q :=
  fold_right Qplus 0%Q
    (map (fun k => (Qnat k / Qnat n) * (Qnat k / Qnat n))%Q cs).

(** ** The formulas as statistics *)

(** The five formulas, as the region engine calls them. *)
Inductive formula : Type :=
| Count_unique
| Count_unique_norm
| Count_gt5
| Inverse_simpsons_index
| Shannon_index.

Definition apply_formula (log2 : Np.float -> Np.float) (f : formula) : statistic :=
  match f with
  | Count_unique => of_count count_unique
  | Count_unique_norm => count_unique_norm
  | Count_gt5 => of_count count_gt5
  | Inverse_simpsons_index => of_float inverse_simpsons_index
  | Shannon_index => of_float (shannon_index log2)
  end.

(** The call ends in an exception. *)
Definition fails {A : Type} (r : Py.result A) : Prop := exists e, r = Raise e.

(** The statistic is defined on every non-empty sample. *)
Definition returns_on_samples (function : statistic) : Prop :=
  forall x : Series, values x <> [] -> exists v, function x = Return v.

(** ** Region tables *)

(** The name of the column of a metric at a level. *)
Definition column_name (metric_name level : string) : string :=
  String.concat "_" [metric_name; level].

(** The rows that [get_region_metric] keeps: region label not excluded. *)
Definition kept (obs : Table) (ccf_label : string) (exclude : list label)
  : Table :=
  loc_rows (fun r => negb (isin (cell r ccf_label) exclude)) obs.

(** The rows of the table that lie in region [r]. *)
Definition region_rows (obs : Table) (ccf_label : string) (r : label) : Table :=
  loc_rows (fun row => String.eqb (cell row ccf_label) r) obs.

(** What one cell of the result of [get_region_metric] holds, for region
    [r] and level [lv]. *)
Definition metric_cell (function : statistic) (norm_fcn : option statistic)
  (obs : Table) (ccf_label : string) (r : label) (lv : string) (v : Np.float)
  : Prop :=
  exists m, function (column (region_rows obs ccf_label r) lv) = Return m
            /\ match norm_fcn with
               | None => v = m
               | Some norm =>
                   exists n, norm (column obs lv) = Return n /\ v = Np.div m n
               end.

(** ** Rows of the proportion table *)

(** The total of a row of counts. *)
Definition Zsum (l : list Z) : Z := fold_right Z.add 0%Z l.

(** A cell under a mask, NaN outside of it. *)
Definition masked (m : bool) (c : Z) : option Z := if m then Some c else None.

(** The total of the cells that are not NaN. *)
Definition skipna_sum (l : list (option Z)) : Z :=
  fold_right (fun c acc => match c with
                           | Some n => (n + acc)%Z
                           | None => acc
                           end) 0%Z l.

(** NaN replaced by 0. *)
Definition fill0 (c : option Z) : Z :=
  match c with Some n => n | None => 0%Z end.

(** What the aggregation makes of one row of counts: the masked cells
    emptied, their total in a new last cell. *)
Definition consolidate_row (mask : list bool) (row : list Z) : list Z :=
  map fill0 (zip_with (fun c m => masked m c) row (map negb mask)
             ++ [Some (skipna_sum (zip_with (fun c m => masked m c) row mask))]).

(** The cells of a row of counts that go to the bucket [other]. *)
Definition mask_row (min_frac : Q) (min_count : option Z) (row : list Z)
  : list bool :=
  match min_count with
  | Some m => map (fun c => (c <=? m)%Z) row
  | None => map (fun c => Np.leb (Np.div (Np.of_Z c) (Np.of_Z (Zsum row)))
                                 (Np.Fin min_frac)) row
  end.

(** The table of counts by region and category. *)
Definition crosstab (leb : label -> label -> bool) (obs : Table)
  (ccf_label taxonomy_level : string) : Frame Z :=
  unstack leb 0%Z (groupby2_size obs ccf_label taxonomy_level).

(** ** Small observation tables *)

Local Open Scope string_scope.

(** Region under the default region column, one label for all three
    taxonomy levels, all cells at the origin. *)
Definition example_row (name region category : string) : Row :=
  mkRow name
        (fun col => if String.eqb col default_ccf_label then region else category)
        (fun _ => 0%Q).

(** Six cells in the regions A and B and in an excluded region. *)
Definition example_obs : Table :=
  mkTable [example_row "cell0" "A" "c1";
           example_row "cell1" "A" "c1";
           example_row "cell2" "A" "c2";
           example_row "cell3" "unassigned" "c3";
           example_row "cell4" "B" "c1";
           example_row "cell5" "unassigned" "c4"]
          (fun _ => []).

(** Two cells, both in an excluded region; the columns are plain object
    columns. *)
Definition excluded_obs : Table :=
  mkTable [example_row "cell0" "unassigned" "c1";
           example_row "cell1" "unassigned" "c2"]
          (fun _ => []).

(** Two cells in the two excluded regions; the level columns are
    categorical. *)
Definition categorical_obs : Table :=
  mkTable [example_row "cell0" "unassigned" "c1";
           example_row "cell1" "TH-unassigned" "c2"]
          (fun col => if String.eqb col default_ccf_label then []
                      else ["c1"; "c2"]).

(** One region with five cells of [c1], three of [c2] and two of [c3]. *)
Definition scenario_obs : Table :=
  mkTable [example_row "cell0" "R" "c1"; example_row "cell1" "R" "c1";
           example_row "cell2" "R" "c1"; example_row "cell3" "R" "c1";
           example_row "cell4" "R" "c1"; example_row "cell5" "R" "c2";
           example_row "cell6" "R" "c2"; example_row "cell7" "R" "c2";
           example_row "cell8" "R" "c3"; example_row "cell9" "R" "c3"]
          (fun _ => []).

(** The table that a call returned. *)
Definition frame_of (r : Py.result (Frame Np.float)) : Frame Np.float :=
  match r with
  | Return T => T
  | Raise _ => mkFrame [] [] []
  end.

Definition example_count : Frame Np.float :=
  Eval vm_compute in
    frame_of (get_region_metric String.leb example_obs (of_count count_unique)
                "count" default_ccf_label default_exclude None default_levels).

Definition example_frac : Frame Np.float :=
  Eval vm_compute in
    frame_of (get_region_metric String.leb example_obs (of_count count_unique)
                "frac" default_ccf_label default_exclude
                (Some (of_count count_unique)) default_levels).

Definition example_metrics : Frame Np.float :=
  Eval vm_compute in
    frame_of (calculate_diversity_metrics String.leb (fun v => v) example_obs
                default_ccf_label).

Definition example_proportions : Frame Np.float :=
  Eval vm_compute in
    frame_of (calculate_level_proportions String.leb example_obs "cluster"
                default_ccf_label (1 # 100) None).

(** A stand-in for the neighbour search: the first [k] positions. *)
Definition first_positions (X : list (list Q)) (k : nat)
  : Py.result (list (list nat)) :=
  Return (map (fun _ => seq 0 k) X).

(** The table of records that a call returned. *)
Definition records_of (r : Py.result RecordsFrame) : RecordsFrame :=
  match r with
  | Return T => T
  | Raise _ => mkRecordsFrame [] [] []
  end.

Definition example_local : RecordsFrame :=
  Eval vm_compute in
    records_of (calculate_local_diversity_metric first_positions example_obs
                  (of_count count_unique) "count" 2 default_levels).

(** Three cells whose index labels are the names of the three levels. *)
Definition fields_obs : Table :=
  mkTable [example_row "cluster" "A" "c1";
           example_row "supertype" "A" "c2";
           example_row "subclass" "B" "c1"]
          (fun _ => []).

Definition fields_local : RecordsFrame :=
  Eval vm_compute in
    records_of (calculate_local_diversity_metric first_positions fields_obs
                  (of_count count_unique) "count" 2 default_levels).

Local Close Scope string_scope.

(** ** Equality of numbers *)

(** Two numbers that are equal as rationals, or the same special value. *)
Definition float_eq (a b : Np.float) : Prop :=
  match a, b with
  | Np.Fin x, Np.Fin y => (x == y)%Q
  | Np.PInf, Np.PInf | Np.NInf, Np.NInf | Np.NaN, Np.NaN => True
  | _, _ => False
  end.

(** ** The table of all metrics *)

(** The seven tables that [calculate_diversity_metrics] concatenates: the
    name of the metric, its statistic and its normalisation. *)
Definition region_metrics (log2 : Np.float -> Np.float)
  : list (string * statistic * option statistic) :=
  [("count"%string, of_count count_unique, None);
   ("frac"%string, of_count count_unique, Some (of_count count_unique));
   ("count_norm2cells"%string, count_unique_norm, None);
   ("count_gt5"%string, of_count count_gt5, None);
   ("frac_gt5"%string, of_count count_gt5, Some (of_count count_unique));
   ("inverse_simpsons"%string, of_float inverse_simpsons_index, None);
   ("shannon_index"%string, of_float (shannon_index log2), None)].


(** The names of the columns of the table of all metrics, in order. *)
Definition metrics_columns : list string :=
  ["count_cluster"; "count_supertype"; "count_subclass";
   "frac_cluster"; "frac_supertype"; "frac_subclass";
   "count_norm2cells_cluster"; "count_norm2cells_supertype";
   "count_norm2cells_subclass";
   "count_gt5_cluster"; "count_gt5_supertype"; "count_gt5_subclass";
   "frac_gt5_cluster"; "frac_gt5_supertype"; "frac_gt5_subclass";
   "inverse_simpsons_cluster"; "inverse_simpsons_supertype";
   "inverse_simpsons_subclass";
   "shannon_index_cluster"; "shannon_index_supertype";
   "shannon_index_subclass"; "count_cells"]%string.

(** The number of rows of the table that lie in region [r]. *)
Definition cells_in_region (obs : Table) (ccf_label : string) (r : label)
  : nat :=
  List.length (rows (region_rows obs ccf_label r)).

(** ** Cells of the proportion table *)

(** The number of rows of the table in region [r] with category [c]. *)
Definition pair_count (obs : Table) (ccf_label taxonomy_level : string)
  (r c : label) : nat :=
  List.length (filter (fun row => String.eqb (cell row ccf_label) r
                                  && String.eqb (cell row taxonomy_level) c)
                      (rows obs)).

(* ------------------------------------------------------------------ *)
(** * Properties *)

(** ** Lists of distinct elements *)

Section Distinct.

Context {A : Type} (dec : forall a b : A, {a = b} + {a <> b}).

Lemma remove_NoDup (a : A) (l : list A) : NoDup l -> NoDup (remove dec a l).
Proof.
  induction 1 as [|b l Hb Hl IH]; simpl.
  - constructor.
  - destruct (dec a b); [assumption|].
    constructor; [|assumption].
    intros Hin. apply in_remove in Hin. tauto.
Qed.

Lemma distinct_In (a : A) (l : list A) : In a (distinct dec l) <-> In a l.
Proof.
  induction l as [|b l IH]; simpl; [tauto|].
  split.
  - intros [->|Hin]; [now left|].
    apply in_remove in Hin. right. tauto.
  - intros [->|Hin]; [now left|].
    destruct (dec b a) as [->|Hne]; [now left|].
    right. apply in_in_remove; [congruence | tauto].
Qed.

Lemma distinct_NoDup (l : list A) : NoDup (distinct dec l).
Proof.
  induction l as [|b l IH]; simpl; constructor.
  - apply remove_In.
  - now apply remove_NoDup.
Qed.

Lemma distinct_incl_length (l m : list A) :
  incl l m -> List.length (distinct dec l) <= List.length (distinct dec m).
Proof.
  intros Hlm. apply NoDup_incl_length; [apply distinct_NoDup|].
  intros a Ha. apply (proj2 (distinct_In a m)), Hlm.
  exact (proj1 (distinct_In a l) Ha).
Qed.

(** Filtering the distinct elements of a longer list by a predicate that
    only holds on the shorter one selects the same elements. *)
Lemma distinct_filter_perm (P : A -> bool) (l extra : list A) :
  (forall a, P a = true -> In a l) ->
  Permutation (filter P (distinct dec (l ++ extra))) (filter P (distinct dec l)).
Proof.
  intros HP. apply NoDup_Permutation.
  - apply NoDup_filter, distinct_NoDup.
  - apply NoDup_filter, distinct_NoDup.
  - intros a. rewrite !filter_In, !distinct_In, in_app_iff.
    split; intros [Hin Ha]; split; auto.
Qed.

(** Every occurrence in [l] is counted once by the distinct elements. *)
Lemma indicator_sum_one (a : A) (u : list A) :
  NoDup u -> In a u ->
  list_sum (map (fun c => if dec a c then 1 else 0) u) = 1.
Proof.
  induction 1 as [|b u Hb Hu IH]; simpl; [tauto|].
  intros [->|Hin].
  - destruct (dec a a); [|congruence].
    assert (Hz : list_sum (map (fun c => if dec a c then 1 else 0) u) = 0).
    { clear IH Hu. induction u as [|c u IHu]; simpl; [reflexivity|].
      destruct (dec a c) as [->|_]; [exfalso; apply Hb; now left|].
      apply IHu. intros H. apply Hb. now right. }
    lia.
  - destruct (dec a b) as [->|_]; [contradiction|]. now apply IH.
Qed.

Lemma count_occ_sum (l u : list A) :
  NoDup u -> incl l u ->
  list_sum (map (count_occ dec l) u) = List.length l.
Proof.
  intros Hu. induction l as [|a l IH]; intros Hl.
  - clear. induction u as [|c u IHu]; simpl; auto.
  - assert (Ha : In a u) by (apply Hl; now left).
    assert (Hl' : incl l u) by (intros b Hb; apply Hl; now right).
    specialize (IH Hl').
    pose proof (indicator_sum_one a Hu Ha) as Hone.
    assert (Hsplit : list_sum (map (count_occ dec (a :: l)) u)
                     = list_sum (map (fun c => if dec a c then 1 else 0) u)
                       + list_sum (map (count_occ dec l) u)).
    { clear. induction u as [|c u IHu]; simpl; [reflexivity|].
      simpl in IHu. destruct (dec a c); lia. }
    rewrite Hsplit, Hone, IH. reflexivity.
Qed.

End Distinct.

(** ** Counts of a Series *)

Lemma loc_counts_keys (pred : nat -> bool) (x : Series) :
  map fst (loc_counts pred (value_counts x))
  = filter (fun c => pred (occurrences x c))
           (distinct label_dec (values x ++ categories x)).
Proof.
  unfold loc_counts, value_counts, occurrences.
  induction (distinct label_dec (values x ++ categories x)) as [|c l IH];
    simpl; [reflexivity|].
  destruct (pred (count_occ label_dec (values x) c)); simpl; now rewrite IH.
Qed.

Lemma loc_counts_snd (pred : nat -> bool) (x : Series) :
  map snd (loc_counts pred (value_counts x))
  = map (occurrences x) (map fst (loc_counts pred (value_counts x))).
Proof.
  unfold loc_counts, value_counts, occurrences.
  induction (distinct label_dec (values x ++ categories x)) as [|c l IH];
    simpl; [reflexivity|].
  destruct (pred (count_occ label_dec (values x) c)); simpl; now rewrite IH.
Qed.

(** Declared categories that do not occur never pass a filter that rejects
    the count 0. *)
Lemma loc_counts_observed (pred : nat -> bool) (x : Series) :
  pred 0 = false ->
  Permutation (map fst (loc_counts pred (value_counts x)))
              (filter (fun c => pred (occurrences x c)) (unique x)).
Proof.
  intros H0. rewrite loc_counts_keys. apply distinct_filter_perm.
  intros c Hc. unfold occurrences in Hc.
  destruct (count_occ label_dec (values x) c) eqn:E; [congruence|].
  apply (count_occ_In label_dec). lia.
Qed.

(** ** Statistic formulas *)

Lemma count_gt5_length (x : Series) :
  count_gt5 x = List.length (categories_over 5 x).
Proof.
  unfold count_gt5. rewrite <- (length_map fst).
  apply Permutation_length.
  apply (loc_counts_observed (fun c => 5 <? c) x). reflexivity.
Qed.

Lemma categories_over_In (t : nat) (x : Series) (c : label) :
  In c (categories_over t x) <-> t < occurrences x c.
Proof.
  unfold categories_over. rewrite filter_In, Nat.ltb_lt.
  unfold unique. rewrite distinct_In. split; [tauto|].
  intros H. split; [|assumption].
  apply (count_occ_In label_dec). unfold occurrences in H. lia.
Qed.

(** C5: [count_gt5] is the number of distinct categories that occur strictly
    more than 5 times; a category with exactly 5 occurrences is not among
    the counted ones, a category with exactly 6 occurrences is. *)
Theorem count_gt5_counts_categories_over_5 (x : Series) :
  count_gt5 x = List.length (categories_over 5 x)
  /\ NoDup (categories_over 5 x)
  /\ (forall c, In c (categories_over 5 x) <-> 5 < occurrences x c)
  /\ (forall c, occurrences x c = 5 -> ~ In c (categories_over 5 x))
  /\ (forall c, occurrences x c = 6 -> In c (categories_over 5 x)).
Proof.
  split; [|split; [|split; [|split]]].
  - apply count_gt5_length.
  - apply NoDup_filter, distinct_NoDup.
  - intros c. apply categories_over_In.
  - intros c Hc Hin. apply categories_over_In in Hin. lia.
  - intros c Hc. apply categories_over_In. lia.
Qed.

Example count_gt5_exactly_5 :
  count_gt5 (mkSeries (repeat "c1"%string 5) []) = 0.
Proof. reflexivity. Qed.

Example count_gt5_exactly_6 :
  count_gt5 (mkSeries (repeat "c1"%string 6 ++ repeat "c2"%string 5) []) = 1.
Proof. reflexivity. Qed.

(** *** Sums of squares of positive counts *)

Lemma sumsq_le_square (cs : list nat) : sumsq cs <= list_sum cs * list_sum cs.
Proof.
  induction cs as [|k cs IH]; unfold sumsq in *; simpl; [lia|]. nia.
Qed.

Lemma sumsq_eq_square (cs : list nat) :
  Forall (fun k => 0 < k) cs ->
  (sumsq cs = list_sum cs * list_sum cs <-> List.length cs <= 1).
Proof.
  intros Hpos. destruct cs as [|k1 [|k2 cs]].
  - unfold sumsq. simpl. lia.
  - unfold sumsq. simpl. split; [lia | nia].
  - inversion Hpos as [|? ? H1 Hpos']; subst.
    inversion Hpos' as [|? ? H2 _]; subst.
    pose proof (sumsq_le_square cs) as Hle.
    unfold sumsq in *. simpl. split; [nia | lia].
Qed.

Lemma filter_all {A : Type} (f : A -> bool) (l : list A) :
  (forall a, In a l -> f a = true) -> filter f l = l.
Proof.
  induction l as [|a l IH]; simpl; intros H; [reflexivity|].
  rewrite (H a (or_introl eq_refl)). f_equal. apply IH. auto.
Qed.

Lemma positive_counts_perm (x : Series) :
  Permutation (positive_counts x) (map (occurrences x) (unique x)).
Proof.
  unfold positive_counts. rewrite loc_counts_snd.
  apply Permutation_map.
  etransitivity; [apply (loc_counts_observed (fun c => 0 <? c) x); reflexivity|].
  rewrite filter_all; [reflexivity|].
  intros c Hc. apply Nat.ltb_lt. unfold unique in Hc.
  apply distinct_In in Hc. now apply (count_occ_In label_dec).
Qed.

Lemma positive_counts_pos (x : Series) :
  Forall (fun k => 0 < k) (positive_counts x).
Proof.
  unfold positive_counts, loc_counts. apply Forall_forall. intros k Hk.
  apply in_map_iff in Hk. destruct Hk as [[c k'] [<- Hin]].
  apply filter_In in Hin. simpl in *. now apply Nat.ltb_lt.
Qed.

Lemma positive_counts_sum (x : Series) :
  list_sum (positive_counts x) = len x.
Proof.
  rewrite (Permutation_list_sum (positive_counts_perm x)).
  unfold occurrences, unique, len. apply count_occ_sum.
  - apply distinct_NoDup.
  - intros a Ha. now apply distinct_In.
Qed.

Lemma positive_counts_length (x : Series) :
  List.length (positive_counts x) = count_unique x.
Proof.
  rewrite (Permutation_length (positive_counts_perm x)).
  unfold count_unique. apply length_map.
Qed.

Lemma count_unique_le_1 (x : Series) :
  count_unique x <= 1 <->
  (forall a b, In a (values x) -> In b (values x) -> a = b).
Proof.
  unfold count_unique, unique.
  pose proof (distinct_NoDup label_dec (values x)) as Hnd.
  pose proof (fun a => distinct_In label_dec a (values x)) as Hin.
  destruct (distinct label_dec (values x)) as [|c1 [|c2 u]]; simpl.
  - split; [|lia]. intros _ a b Ha. apply Hin in Ha. destruct Ha.
  - split; [|lia]. intros _ a b Ha Hb. apply Hin in Ha, Hb.
    simpl in *. intuition congruence.
  - split; [lia|]. intros Heq. exfalso.
    inversion Hnd as [|? ? Hc1 _]; subst. apply Hc1.
    rewrite (Heq c1 c2); [now left| |]; apply Hin; simpl; auto.
Qed.

(** *** Finite arithmetic of [Np.float] *)

Local Open Scope Q_scope.

Lemma Qnat_pos (n : nat) : (0 < n)%nat -> 0 < Qnat n.
Proof.
  intros H. unfold Qnat. change 0 with (inject_Z 0).
  rewrite <- Zlt_Qlt. lia.
Qed.

Lemma Qnat_le (a b : nat) : (a <= b)%nat <-> Qnat a <= Qnat b.
Proof. unfold Qnat. rewrite <- Zle_Qle. lia. Qed.

Lemma Qnat_eq (a b : nat) : a = b <-> Qnat a == Qnat b.
Proof. unfold Qnat. rewrite inject_Z_injective. lia. Qed.

Lemma Qnat_mul (a b : nat) : Qnat (a * b) == Qnat a * Qnat b.
Proof. unfold Qnat. now rewrite Nat2Z.inj_mul, inject_Z_mult. Qed.

Lemma Qnat_add (a b : nat) : Qnat (a + b) == Qnat a + Qnat b.
Proof. unfold Qnat. now rewrite Nat2Z.inj_add, inject_Z_plus. Qed.

Lemma Qeq_bool_false (q : Q) : ~ q == 0 -> Qeq_bool q 0 = false.
Proof.
  intros H. destruct (Qeq_bool q 0) eqn:E; [|reflexivity].
  apply Qeq_bool_iff in E. contradiction.
Qed.

Lemma div_fin (a b : Q) : ~ b == 0 -> Np.div (Np.Fin a) (Np.Fin b) = Np.Fin (a / b).
Proof. intros H. simpl. now rewrite Qeq_bool_false. Qed.

Lemma div_of_nat (a b : nat) :
  (0 < b)%nat -> Np.div (Np.of_nat a) (Np.of_nat b) = Np.Fin (Qnat a / Qnat b).
Proof.
  intros H. apply div_fin. pose proof (Qnat_pos H). lra.
Qed.

Lemma sum_fin (qs : list Q) :
  Np.sum (map Np.Fin qs) = Np.Fin (fold_right Qplus 0 qs).
Proof.
  unfold Np.sum.
  induction qs as [|q qs IH]; simpl; [reflexivity|].
  now rewrite IH.
Qed.

Lemma simpson_sum_scaled (cs : list nat) (n : nat) :
  (0 < n)%nat ->
  simpson_sum cs n * (Qnat n * Qnat n) == Qnat (sumsq cs).
Proof.
  intros Hn. pose proof (Qnat_pos Hn) as HN.
  induction cs as [|k cs IH]; unfold simpson_sum, sumsq in *; simpl.
  - unfold Qnat. simpl. ring.
  - rewrite Qnat_add, Qnat_mul, <- IH. field. lra.
Qed.

Lemma inverse_simpsons_index_unfold (x : Series) :
  (0 < len x)%nat ->
  inverse_simpsons_index x
  = Np.div (Np.Fin 1) (Np.Fin (simpson_sum (positive_counts x) (len x))).
Proof.
  intros Hn. unfold inverse_simpsons_index, simpson_sum, positive_counts.
  f_equal. rewrite <- sum_fin. f_equal.
  rewrite !map_map. apply map_ext. intros [c k]. cbn [snd].
  rewrite div_of_nat by assumption. reflexivity.
Qed.

(** C1: on a non-empty sample the inverse Simpson index is a finite number,
    at least 1, and it is 1 exactly when all items are of one category. *)
Theorem inverse_simpsons_index_ge_1 (x : Series) :
  values x <> [] ->
  exists q : Q,
    inverse_simpsons_index x = Np.Fin q
    /\ 1 <= q
    /\ (q == 1 <->
        forall a b : label, In a (values x) -> In b (values x) -> a = b).
Proof.
  intros Hne.
  assert (Hn : (0 < len x)%nat).
  { unfold len. destruct (values x); [congruence | simpl; lia]. }
  pose proof (Qnat_pos Hn) as HN.
  pose proof (simpson_sum_scaled (positive_counts x) Hn) as Hs.
  pose proof (sumsq_le_square (positive_counts x)) as Hle.
  pose proof (sumsq_eq_square (positive_counts_pos x)) as Heq.
  rewrite positive_counts_sum in Hle, Heq.
  rewrite positive_counts_length in Heq.
  assert (Hpos : (0 < sumsq (positive_counts x))%nat).
  { pose proof (positive_counts_pos x) as Hp.
    pose proof (positive_counts_sum x) as Hsum.
    destruct (positive_counts x) as [|k cs']; [simpl in Hsum; lia|].
    inversion Hp; subst. unfold sumsq. simpl. nia. }
  set (s := simpson_sum (positive_counts x) (len x)) in *.
  apply Qnat_pos in Hpos. apply Qnat_le in Hle. rewrite Qnat_mul in Hle.
  assert (HNN : 0 < Qnat (len x) * Qnat (len x)) by nra.
  assert (Hs0 : 0 < s) by nra.
  assert (Hs1 : s <= 1) by nra.
  exists (1 / s). split; [|split].
  - rewrite inverse_simpsons_index_unfold by assumption.
    apply div_fin. lra.
  - apply Qle_shift_div_l; lra.
  - rewrite <- count_unique_le_1, <- Heq, Qnat_eq, Qnat_mul, <- Hs.
    split; intros H.
    + assert (Hs' : s == 1).
      { pose proof (Qmult_div_r 1 s) as E. rewrite H in E. lra. }
      rewrite Hs'. ring.
    + assert (Hs' : s == 1).
      { apply (Qmult_inj_r s 1 (Qnat (len x) * Qnat (len x))); [lra|].
        rewrite H. ring. }
      rewrite Hs'. reflexivity.
Qed.

Lemma inverse_simpsons_index_ge_1_witness :
  values (mkSeries ["c1"; "c1"; "c2"]%string []) <> []
  /\ exists q : Q,
       inverse_simpsons_index (mkSeries ["c1"; "c1"; "c2"]%string []) = Np.Fin q
       /\ 1 <= q
       /\ (q == 1 <->
           forall a b : label,
             In a (values (mkSeries ["c1"; "c1"; "c2"]%string [])) ->
             In b (values (mkSeries ["c1"; "c1"; "c2"]%string [])) -> a = b).
Proof.
  split; [discriminate|].
  apply (inverse_simpsons_index_ge_1 (mkSeries ["c1"; "c1"; "c2"]%string []));
    discriminate.
Defined.

(** *** The formulas on an empty sample *)

Lemma no_positive_count_of_empty (cats : list label) :
  loc_counts (fun c => (0 <? c)%nat) (value_counts (mkSeries [] cats)) = [].
Proof.
  unfold loc_counts, value_counts. simpl.
  induction (distinct label_dec cats) as [|c l IH]; simpl; auto.
Qed.

Lemma no_count_gt5_of_empty (cats : list label) :
  loc_counts (fun c => (5 <? c)%nat) (value_counts (mkSeries [] cats)) = [].
Proof.
  unfold loc_counts, value_counts. simpl.
  induction (distinct label_dec cats) as [|c l IH]; simpl; auto.
Qed.

(** C8, as the code has it: on an empty sample, whatever categories its
    dtype declares, only [count_unique_norm] fails, on the division of one
    Python integer by zero. [count_unique] and [count_gt5] return 0,
    [shannon_index] returns the empty sum 0 and [inverse_simpsons_index]
    returns infinity, as numpy divides by zero without raising. *)
Theorem empty_sample_only_count_unique_norm_fails
  (log2 : Np.float -> Np.float) (cats : list label) :
  (forall f : formula,
      fails (apply_formula log2 f (mkSeries [] cats)) <-> f = Count_unique_norm)
  /\ count_unique_norm (mkSeries [] cats) = Raise ZeroDivisionError
  /\ count_unique (mkSeries [] cats) = 0%nat
  /\ count_gt5 (mkSeries [] cats) = 0%nat
  /\ inverse_simpsons_index (mkSeries [] cats) = Np.PInf
  /\ exists q : Q, shannon_index log2 (mkSeries [] cats) = Np.Fin q /\ q == 0.
Proof.
  assert (Hisi : inverse_simpsons_index (mkSeries [] cats) = Np.PInf).
  { unfold inverse_simpsons_index. rewrite no_positive_count_of_empty.
    reflexivity. }
  assert (Hsh : shannon_index log2 (mkSeries [] cats)
                = Np.Fin (inject_Z (-1) * 0)).
  { unfold shannon_index. rewrite no_positive_count_of_empty. reflexivity. }
  assert (Hgt : count_gt5 (mkSeries [] cats) = 0%nat).
  { unfold count_gt5. now rewrite no_count_gt5_of_empty. }
  split; [|split; [|split; [|split; [|split]]]]; try assumption;
    try reflexivity.
  - intros f. unfold fails. split.
    + intros [e He]. destruct f; simpl in He;
        unfold of_count, of_float in He; try discriminate. reflexivity.
    + intros ->. exists ZeroDivisionError. reflexivity.
  - exists (inject_Z (-1) * 0). split; [assumption | reflexivity].
Qed.

(** C8, as the claim states it, does not hold: [count_unique] of the empty
    sample returns 0. *)
Lemma empty_sample_not_always_error :
  ~ (forall f : formula,
       fails (apply_formula (fun v => v) f (mkSeries [] []))).
Proof.
  intros H. destruct (H Count_unique) as [e He]. discriminate He.
Qed.

Local Close Scope Q_scope.

(** ** Exceptions and lists *)

Lemma mapM_inv {A B : Type} (f : A -> Py.result B) (xs : list A) (ys : list B) :
  Py.mapM f xs = Return ys -> Forall2 (fun x y => f x = Return y) xs ys.
Proof.
  revert ys. induction xs as [|x xs IH]; simpl; intros ys H.
  - injection H as <-. constructor.
  - destruct (f x) as [y|e] eqn:Ex; simpl in H; [|discriminate].
    destruct (Py.mapM f xs) as [ys'|e] eqn:Exs; simpl in H; [|discriminate].
    injection H as <-. constructor; auto.
Qed.

Lemma mapM_returns {A B : Type} (f : A -> Py.result B) (xs : list A) :
  (forall x, In x xs -> exists y, f x = Return y) ->
  exists ys, Py.mapM f xs = Return ys.
Proof.
  induction xs as [|x xs IH]; simpl; intros H.
  - now exists [].
  - destruct (H x (or_introl eq_refl)) as [y ->].
    destruct IH as [ys ->]; [auto|]. simpl. now exists (y :: ys).
Qed.

Lemma Forall2_nth_error_l {A B : Type} (P : A -> B -> Prop) (l : list A)
  (m : list B) (j : nat) (a : A) :
  Forall2 P l m -> nth_error l j = Some a ->
  exists b, nth_error m j = Some b /\ P a b.
Proof.
  intros H. revert j. induction H as [|x y l m Hxy _ IH]; intros [|j]; simpl;
    try discriminate.
  - intros [= <-]. eauto.
  - apply IH.
Qed.

Lemma Forall2_length_eq {A B : Type} (P : A -> B -> Prop) (l : list A)
  (m : list B) : Forall2 P l m -> List.length l = List.length m.
Proof. induction 1; simpl; congruence. Qed.

Lemma Forall2_zip_with {A B C D : Type} (f : B -> C -> D)
  (P : A -> B -> Prop) (R : A -> C -> Prop) (l : list A) (m : list B)
  (n : list C) :
  Forall2 P l m -> Forall2 R l n ->
  Forall2 (fun a d => exists b c, P a b /\ R a c /\ d = f b c) l (zip_with f m n).
Proof.
  intros H. revert n. induction H as [|a b l m Hab _ IH]; intros n Hn;
    inversion Hn; subst; simpl; constructor; eauto.
Qed.

(** ** Frames *)

Lemma assoc_Forall2 {A : Type} (P : label -> A -> Prop) (idx : list label)
  (rows : list A) (r : label) :
  Forall2 P idx rows -> In r idx ->
  exists v, assoc r (combine idx rows) = Some v /\ P r v.
Proof.
  induction 1 as [|k v idx rows Hkv _ IH]; simpl; [tauto|].
  intros Hin. destruct (String.eqb_spec r k) as [->|Hne]; [eauto|].
  apply IH. destruct Hin; congruence.
Qed.

Lemma assoc_In {A : Type} (idx : list label) (rows : list A) (r : label)
  (v : A) : assoc r (combine idx rows) = Some v -> In r idx /\ In v rows.
Proof.
  revert rows. induction idx as [|k idx IH]; intros [|w rows]; simpl;
    try discriminate.
  destruct (String.eqb_spec r k) as [->|Hne].
  - intros [= <-]. auto.
  - intros H. apply IH in H. tauto.
Qed.

Lemma position_nth_error (c : string) (cols : list string) (j : nat) :
  position c cols = Some j -> nth_error cols j = Some c.
Proof.
  revert j. induction cols as [|c' cols IH]; simpl; [discriminate|].
  intros j. destruct (String.eqb_spec c c') as [->|Hne].
  - intros [= <-]. reflexivity.
  - destruct (position c cols) as [j'|]; simpl; [|discriminate].
    intros [= <-]. simpl. now apply IH.
Qed.

Lemma position_In (c : string) (cols : list string) :
  In c cols -> exists j, position c cols = Some j.
Proof.
  induction cols as [|c' cols IH]; simpl; [tauto|].
  intros Hin. destruct (String.eqb_spec c c') as [->|Hne]; [eauto|].
  destruct IH as [j ->]; [destruct Hin; congruence|]. simpl. eauto.
Qed.

Lemma append_inj_l (s a b : string) : (s ++ a = s ++ b)%string -> a = b.
Proof.
  induction s as [|ch s IH]; simpl; [auto|]. intros [= H]. auto.
Qed.

Lemma column_name_inj (metric_name a b : string) :
  column_name metric_name a = column_name metric_name b -> a = b.
Proof.
  unfold column_name. simpl. intros H.
  apply append_inj_l in H. now injection H.
Qed.

(** A cell of a frame whose rows and columns are described position by
    position can be read by its labels. *)
Lemma frame_at_Forall2 {A : Type} (P : label -> string -> A -> Prop)
  (g : string -> string) (keys : list string) (T : Frame A) :
  (forall a b, g a = g b -> a = b) ->
  columns T = map g keys ->
  Forall2 (fun r row => Forall2 (P r) keys row) (index T) (data T) ->
  forall r k, In r (index T) -> In k keys ->
  exists v, frame_at T r (g k) = Some v /\ P r k v.
Proof.
  intros Hinj Hcols Hdata r k Hr Hk.
  destruct (@assoc_Forall2 _ _ _ _ r Hdata Hr) as [row [Hrow Hcells]].
  destruct (position_In (g k) (map g keys)) as [j Hj].
  { now apply in_map. }
  pose proof (@position_nth_error _ _ _ Hj) as Hnth.
  rewrite nth_error_map in Hnth.
  destruct (nth_error keys j) as [k'|] eqn:Ek; [|discriminate].
  injection Hnth as Hg. apply Hinj in Hg. subst k'.
  destruct (@Forall2_nth_error_l _ _ _ _ _ j _ Hcells Ek) as [v [Hv HP]].
  exists v. split; [|assumption].
  unfold frame_at, frame_row. now rewrite Hrow, Hcols, Hj.
Qed.

(** ** Sorting keeps the labels *)

Section Sorting.

Variable leb : label -> label -> bool.

Lemma insert_perm (a : label) (l : list label) :
  Permutation (insert leb a l) (a :: l).
Proof.
  induction l as [|b l IH]; simpl; [reflexivity|].
  destruct (leb a b); [reflexivity|].
  rewrite IH. apply perm_swap.
Qed.

Lemma sort_perm (l : list label) : Permutation (sort leb l) l.
Proof.
  induction l as [|a l IH]; simpl; [reflexivity|].
  rewrite insert_perm. now constructor.
Qed.

Lemma group_keys_In (obs : Table) (key : string) (r : label) :
  In r (group_keys leb obs key) <-> In r (values (column obs key)).
Proof.
  unfold group_keys. simpl. split; intros H.
  - apply (Permutation_in _ (sort_perm _)) in H. now apply distinct_In in H.
  - apply (Permutation_in _ (Permutation_sym (sort_perm _))).
    now apply distinct_In.
Qed.

Lemma group_keys_NoDup (obs : Table) (key : string) :
  NoDup (group_keys leb obs key).
Proof.
  unfold group_keys.
  apply (Permutation_NoDup (Permutation_sym (sort_perm _))).
  apply distinct_NoDup.
Qed.

End Sorting.

(** ** Region metric engine *)

Lemma Forall2_map_l {A B C : Type} (P : B -> C -> Prop) (h : A -> B)
  (l : list A) (m : list C) :
  Forall2 P (map h l) m -> Forall2 (fun a c => P (h a) c) l m.
Proof.
  revert m. induction l as [|a l IH]; simpl; intros m H; inversion H; subst;
    constructor; auto.
Qed.

Lemma Forall2_weaken {A B : Type} (P Q : A -> B -> Prop) (l : list A)
  (m : list B) :
  (forall a b, P a b -> Q a b) -> Forall2 P l m -> Forall2 Q l m.
Proof. intros HPQ. induction 1; constructor; auto. Qed.

Lemma filter_filter_implied {A : Type} (f g : A -> bool) (l : list A) :
  (forall a, f a = true -> g a = true) ->
  filter f (filter g l) = filter f l.
Proof.
  intros Hfg. induction l as [|a l IH]; simpl; [reflexivity|].
  destruct (g a) eqn:Eg; simpl.
  - now rewrite IH.
  - destruct (f a) eqn:Ef; [|assumption].
    apply Hfg in Ef. congruence.
Qed.

Lemma isin_In (v : label) (vs : list label) : isin v vs = true <-> In v vs.
Proof.
  unfold isin. rewrite existsb_exists. split.
  - intros [w [Hw Heq]]. apply String.eqb_eq in Heq. now subst.
  - intros H. exists v. split; [assumption | apply String.eqb_refl].
Qed.

Lemma region_rows_kept (obs : Table) (ccf_label : string)
  (exclude : list label) (r : label) :
  ~ In r exclude ->
  region_rows (kept obs ccf_label exclude) ccf_label r
  = region_rows obs ccf_label r.
Proof.
  intros Hr. unfold region_rows, kept, loc_rows. simpl. f_equal.
  apply filter_filter_implied. intros row Hrow.
  apply String.eqb_eq in Hrow. subst r.
  destruct (isin (cell row ccf_label) exclude) eqn:E; [|reflexivity].
  apply isin_In in E. contradiction.
Qed.

(** The division by the row of norms: it gives the divided frame when it
    gives a frame at all. *)
Lemma norm_division_inv {A : Type} (idx : list label) (b : bool) (X T : A) :
  match idx with
  | [] => if b then Raise TypeError else Return X
  | _ :: _ => Return X
  end = Return T ->
  X = T.
Proof. destruct idx; [destruct b|]; congruence. Qed.

Section RegionEngine.

Variable leb : label -> label -> bool.

Lemma kept_keys_In (obs : Table) (ccf_label : string) (exclude : list label)
  (r : label) :
  In r (group_keys leb (kept obs ccf_label exclude) ccf_label)
  <-> In r (values (column obs ccf_label)) /\ ~ In r exclude.
Proof.
  rewrite group_keys_In. unfold kept, column, loc_rows. simpl.
  rewrite !in_map_iff. split.
  - intros [row [<- Hrow]]. apply filter_In in Hrow. destruct Hrow as [Hin Hex].
    split; [eauto|]. intros Hc. apply isin_In in Hc.
    rewrite Hc in Hex. discriminate.
  - intros [[row [<- Hin]] Hex]. exists row. split; [reflexivity|].
    apply filter_In. split; [assumption|].
    destruct (isin (cell row ccf_label) exclude) eqn:E; [|reflexivity].
    apply isin_In in E. contradiction.
Qed.

Lemma get_region_metric_inv (obs : Table) (function : statistic)
  (metric_name ccf_label : string) (exclude : list label)
  (norm_fcn : option statistic) (levels : list string) (T : Frame Np.float) :
  get_region_metric leb obs function metric_name ccf_label exclude norm_fcn
                    levels = Return T ->
  index T = group_keys leb (kept obs ccf_label exclude) ccf_label
  /\ columns T = map (column_name metric_name) levels
  /\ Forall2 (fun r row =>
                Forall2 (metric_cell function norm_fcn obs ccf_label r)
                        levels row)
             (index T) (data T).
Proof.
  unfold get_region_metric, aggregate. fold (kept obs ccf_label exclude).
  destruct (Py.mapM _ (groupby leb (kept obs ccf_label exclude) ccf_label))
    as [cells|e] eqn:Ecells; simpl; [|discriminate].
  apply mapM_inv in Ecells. unfold groupby in Ecells.
  apply Forall2_map_l in Ecells. simpl in Ecells.
  assert (Hbase : Forall2 (fun r row =>
             Forall2 (metric_cell function None obs ccf_label r) levels row)
             (group_keys leb (kept obs ccf_label exclude) ccf_label) cells).
  { assert (Hall : Forall (fun r => ~ In r exclude)
               (group_keys leb (kept obs ccf_label exclude) ccf_label)).
    { apply Forall_forall. intros r Hr. now apply kept_keys_In in Hr. }
    revert Hall Ecells.
    generalize (group_keys leb (kept obs ccf_label exclude) ccf_label) as ks.
    intros ks Hall Ecells.
    induction Ecells as [|r row keys cells' Hrow _ IH]; constructor.
    - inversion Hall as [|? ? Hr _]; subst.
      apply mapM_inv in Hrow.
      fold (region_rows (kept obs ccf_label exclude) ccf_label r) in Hrow.
      rewrite (@region_rows_kept obs ccf_label exclude r Hr) in Hrow.
      eapply Forall2_weaken; [|exact Hrow].
      intros lv v Hv. exists v. split; [exact Hv | reflexivity].
    - apply IH. now inversion Hall. }
  clear Ecells.
  assert (Hkeys : map fst (groupby leb (kept obs ccf_label exclude) ccf_label)
                  = group_keys leb (kept obs ccf_label exclude) ccf_label).
  { unfold groupby. rewrite map_map. simpl. apply map_id. }
  destruct norm_fcn as [norm|].
  - destruct (Py.mapM _ levels) as [norms|e] eqn:Enorms; simpl; [|discriminate].
    intros Hret. apply norm_division_inv in Hret. subst T.
    simpl. rewrite Hkeys. split; [reflexivity|].
    split; [reflexivity|].
    apply mapM_inv in Enorms.
    clear Hkeys. induction Hbase as [|r row keys cells' Hrow _ IH];
      simpl; constructor; [|exact IH].
    eapply Forall2_weaken;
      [|exact (Forall2_zip_with Np.div Hrow Enorms)].
    intros lv v [m [n [[m' [Hm ->]] [Hn ->]]]].
    exists m'. split; [exact Hm|]. exists n. split; [exact Hn | reflexivity].
  - intros [= <-]. simpl. rewrite Hkeys. auto.
Qed.

(** C2: the index of the table returned by [get_region_metric] lists,
    without repetition, exactly the region labels that occur in the
    observation table and are not excluded; no excluded label is in it. *)
Theorem get_region_metric_index (obs : Table) (function : statistic)
  (metric_name ccf_label : string) (exclude : list label)
  (norm_fcn : option statistic) (levels : list string) (T : Frame Np.float) :
  get_region_metric leb obs function metric_name ccf_label exclude norm_fcn
                    levels = Return T ->
  NoDup (index T)
  /\ (forall r, In r (index T)
                <-> In r (values (column obs ccf_label)) /\ ~ In r exclude)
  /\ (forall r, In r exclude -> ~ In r (index T)).
Proof.
  intros H. apply get_region_metric_inv in H. destruct H as [Hidx _].
  rewrite Hidx. split; [apply group_keys_NoDup|].
  split.
  - intros r. apply kept_keys_In.
  - intros r Hex Hin. apply kept_keys_In in Hin. tauto.
Qed.

End RegionEngine.

(** ** Normalisation *)

Section Normalisation.

Variable leb : label -> label -> bool.

(** C6: with a normalisation function, the cell of region [r] at level [lv]
    is the metric of the rows of region [r], divided by the normalisation
    function applied to the column [lv] of the whole observation table,
    which holds one value for each row of the table, excluded regions
    included. *)
Theorem get_region_metric_normalized_by_whole_column (obs : Table)
  (function norm : statistic) (metric_name ccf_label : string)
  (exclude : list label) (levels : list string) (T : Frame Np.float)
  (r : label) (lv : string) :
  get_region_metric leb obs function metric_name ccf_label exclude (Some norm)
                    levels = Return T ->
  In r (index T) -> In lv levels ->
  values (column obs lv) = map (fun row => cell row lv) (rows obs)
  /\ exists m n,
       function (column (region_rows obs ccf_label r) lv) = Return m
       /\ norm (column obs lv) = Return n
       /\ frame_at T r (column_name metric_name lv) = Some (Np.div m n).
Proof.
  intros H Hr Hlv. split; [reflexivity|].
  apply get_region_metric_inv in H. destruct H as [_ [Hcols Hdata]].
  destruct (@frame_at_Forall2 _ _ (column_name metric_name) levels T
              (@column_name_inj metric_name) Hcols Hdata r lv Hr Hlv)
    as [v [Hv [m [Hm [n [Hn ->]]]]]].
  exists m, n. auto.
Qed.

End Normalisation.

(** ** Fractions of all categories *)

Lemma count_unique_monotone (x y : Series) :
  incl (values x) (values y) -> count_unique x <= count_unique y.
Proof. intros H. unfold count_unique, unique. now apply distinct_incl_length. Qed.

Lemma count_gt5_le_count_unique (x : Series) : count_gt5 x <= count_unique x.
Proof.
  rewrite count_gt5_length.
  unfold categories_over, count_unique. apply filter_length_le.
Qed.

Lemma region_rows_incl (obs : Table) (ccf_label : string) (r : label)
  (lv : string) :
  incl (values (column (region_rows obs ccf_label r) lv))
       (values (column obs lv)).
Proof.
  unfold column, region_rows, loc_rows. simpl. intros c Hc.
  apply in_map_iff in Hc. destruct Hc as [row [<- Hrow]].
  apply filter_In in Hrow.
  apply (in_map (fun row0 => cell row0 lv)). tauto.
Qed.

(** A metric that never exceeds [count_unique], normalised by the
    [count_unique] of the whole column, lies between 0 and 1. *)
Lemma frac_cell_le_1 (f : Series -> nat) (obs : Table) (ccf_label : string)
  (r : label) (lv : string) (v : Np.float) :
  (forall x, f x <= count_unique x) ->
  In r (values (column obs ccf_label)) ->
  metric_cell (of_count f) (Some (of_count count_unique)) obs ccf_label r lv v ->
  exists q, v = Np.Fin q /\ (0 <= q)%Q /\ (q <= 1)%Q.
Proof.
  intros Hf Hr [m [Hm [n [Hn ->]]]].
  unfold of_count in Hm, Hn. injection Hm as <-. injection Hn as <-.
  set (a := f (column (region_rows obs ccf_label r) lv)).
  set (b := count_unique (column obs lv)).
  assert (Hab : a <= b).
  { unfold a, b. etransitivity; [apply Hf|].
    apply count_unique_monotone, region_rows_incl. }
  assert (Hb : 0 < b).
  { unfold b, count_unique, unique, column. simpl in *.
    apply in_map_iff in Hr. destruct Hr as [row [_ Hrow]].
    destruct (rows obs) as [|row0 rs]; [destruct Hrow|]. simpl. lia. }
  exists (Qnat a / Qnat b)%Q. split; [now apply div_of_nat|].
  pose proof (Qnat_pos Hb) as HB.
  apply Qnat_le in Hab.
  assert (Ha : (0 <= Qnat a)%Q).
  { unfold Qnat. change 0%Q with (inject_Z 0). rewrite <- Zle_Qle. lia. }
  split.
  - apply Qle_shift_div_l; [assumption|]. lra.
  - apply Qle_shift_div_r; [assumption|]. lra.
Qed.

Lemma assoc_map {A : Type} (h : label -> A) (idx : list label) (r : label) :
  In r idx -> assoc r (combine idx (map h idx)) = Some (h r).
Proof.
  induction idx as [|k idx IH]; simpl; [tauto|].
  intros Hin. destruct (String.eqb_spec r k) as [->|Hne]; [reflexivity|].
  apply IH. destruct Hin; congruence.
Qed.

Lemma zip_with_map_r {A B C : Type} (f : A -> B -> C) (h : A -> B)
  (l : list A) : zip_with f l (map h l) = map (fun a => f a (h a)) l.
Proof. induction l as [|a l IH]; simpl; congruence. Qed.

Section DiversityMetrics.

Variable leb : label -> label -> bool.
Variable log2 : Np.float -> Np.float.

(** A frame that has rows keeps them when a column of counts is added. *)
Lemma assign_counts_rows (fr : Frame Np.float) (name : string)
  (counts : list (label * nat)) :
  index fr <> [] ->
  assign_counts fr name counts
  = mkFrame (index fr) (columns fr ++ [name])
      (zip_with (fun r row => row ++ [match assoc r counts with
                                      | Some n => Np.of_nat n
                                      | None => Np.NaN
                                      end]) (index fr) (data fr)).
Proof.
  intros Hne. unfold assign_counts.
  destruct (index fr) as [|k ks]; [congruence | reflexivity].
Qed.


Lemma assign_counts_columns (fr : Frame Np.float) (name : string)
  (counts : list (label * nat)) :
  columns (assign_counts fr name counts) = columns fr ++ [name].
Proof.
  unfold assign_counts. destruct (index fr); [destruct counts|]; reflexivity.
Qed.



(** When every row is excluded there is no group. *)
Lemma kept_keys_nil (obs : Table) (ccf_label : string)
  (exclude : list label) :
  (forall r, In r (values (column obs ccf_label)) -> In r exclude) ->
  group_keys leb (kept obs ccf_label exclude) ccf_label = [].
Proof.
  intros Hall.
  destruct (group_keys leb (kept obs ccf_label exclude) ccf_label)
    as [|k ks] eqn:E; [reflexivity|]. exfalso.
  assert (Hk : In k (group_keys leb (kept obs ccf_label exclude) ccf_label))
    by (rewrite E; now left).
  apply kept_keys_In in Hk. destruct Hk as [Hocc Hex]. auto.
Qed.

(** Without a group the frame has no rows; the division by the norms then
    goes through only on level columns that are not categorical. *)
Lemma get_region_metric_no_row (obs : Table) (function : statistic)
  (metric_name ccf_label : string) (exclude : list label)
  (norm_fcn : option statistic) (levels : list string) :
  group_keys leb (kept obs ccf_label exclude) ccf_label = [] ->
  (forall norm lv, norm_fcn = Some norm ->
                   exists v, norm (column obs lv) = Return v) ->
  norm_fcn = None \/ existsb (is_categorical obs) levels = false ->
  get_region_metric leb obs function metric_name ccf_label exclude norm_fcn
                    levels
  = Return (mkFrame [] (map (column_name metric_name) levels) []).
Proof.
  intros HK Hn Hc. unfold get_region_metric, aggregate.
  fold (kept obs ccf_label exclude). unfold groupby. rewrite HK. simpl.
  destruct norm_fcn as [norm|]; [|reflexivity].
  destruct (@mapM_returns _ _ (fun lv => norm (column obs lv)) levels)
    as [norms ->].
  { intros lv _. now apply (Hn norm). }
  simpl. destruct Hc as [Hc|Hc]; [discriminate|]. rewrite Hc. reflexivity.
Qed.

Lemma get_region_metric_type_error (obs : Table) (function norm : statistic)
  (metric_name ccf_label : string) (exclude : list label)
  (levels : list string) :
  group_keys leb (kept obs ccf_label exclude) ccf_label = [] ->
  (forall lv, exists v, norm (column obs lv) = Return v) ->
  existsb (is_categorical obs) levels = true ->
  get_region_metric leb obs function metric_name ccf_label exclude
                    (Some norm) levels
  = Raise TypeError.
Proof.
  intros HK Hn Hc. unfold get_region_metric, aggregate.
  fold (kept obs ccf_label exclude). unfold groupby. rewrite HK. simpl.
  destruct (@mapM_returns _ _ (fun lv => norm (column obs lv)) levels)
    as [norms ->].
  { intros lv _. apply Hn. }
  simpl. rewrite Hc. reflexivity.
Qed.




End DiversityMetrics.

(** ** The engines return *)

Section Totality.

Variable leb : label -> label -> bool.
Variable log2 : Np.float -> Np.float.

(** No group of a [groupby] is empty. *)
Lemma group_sample_nonempty (T : Table) (key : string) (k : label)
  (lv : string) :
  In k (group_keys leb T key) ->
  values (column (loc_rows (fun r => String.eqb (cell r key) k) T) lv) <> [].
Proof.
  intros Hk. apply group_keys_In in Hk.
  destruct T as [rs cats]. unfold column, loc_rows in *. simpl in *.
  apply in_map_iff in Hk. destruct Hk as [row [Hrow Hin]].
  assert (Hmem : In row (filter (fun r => String.eqb (cell r key) k) rs)).
  { apply filter_In. split; [assumption|]. rewrite Hrow.
    apply String.eqb_refl. }
  destruct (filter _ rs); [now simpl in Hmem | discriminate].
Qed.

(** Hence a statistic that is defined on non-empty samples never stops
    the engine. The division by the norms stops it only on a frame without
    rows whose level columns are categorical. *)
Lemma get_region_metric_returns (obs : Table) (function : statistic)
  (metric_name ccf_label : string) (exclude : list label)
  (norm_fcn : option statistic) (levels : list string) :
  returns_on_samples function ->
  (forall norm x, norm_fcn = Some norm -> exists v, norm x = Return v) ->
  norm_fcn = None
  \/ (exists r, In r (values (column obs ccf_label)) /\ ~ In r exclude)
  \/ existsb (is_categorical obs) levels = false ->
  exists T, get_region_metric leb obs function metric_name ccf_label exclude
                              norm_fcn levels = Return T.
Proof.
  intros Hf Hn Hrows. unfold get_region_metric, aggregate.
  fold (kept obs ccf_label exclude).
  destruct (@mapM_returns _ _
              (fun g => Py.mapM (fun lv => function (column (snd g) lv)) levels)
              (groupby leb (kept obs ccf_label exclude) ccf_label))
    as [cells ->].
  { intros [k g] Hg. unfold groupby in Hg. apply in_map_iff in Hg.
    destruct Hg as [k' [[= <- <-] Hk]]. simpl.
    apply mapM_returns. intros lv _. apply Hf.
    now apply group_sample_nonempty. }
  simpl. destruct norm_fcn as [norm|]; [|eauto].
  destruct (@mapM_returns _ _ (fun lv => norm (column obs lv)) levels)
    as [norms ->].
  { intros lv _. now apply Hn. }
  simpl. unfold groupby. rewrite map_map. simpl. rewrite map_id.
  destruct (group_keys leb (kept obs ccf_label exclude) ccf_label)
    as [|k ks] eqn:EK; [|eauto].
  destruct Hrows as [Hnone|[[r [Hocc Hex]]|Hcat]].
  - discriminate.
  - exfalso.
    assert (Hk : In r (group_keys leb (kept obs ccf_label exclude) ccf_label))
      by (apply kept_keys_In; auto).
    rewrite EK in Hk. exact Hk.
  - rewrite Hcat. eauto.
Qed.

Lemma of_count_returns (f : Series -> nat) : returns_on_samples (of_count f).
Proof. intros x _. unfold of_count. eauto. Qed.

Lemma of_float_returns (f : Series -> Np.float) :
  returns_on_samples (of_float f).
Proof. intros x _. unfold of_float. eauto. Qed.

Lemma count_unique_norm_returns : returns_on_samples count_unique_norm.
Proof.
  intros x Hx. unfold count_unique_norm, len.
  destruct (values x); [congruence|]. simpl. eauto.
Qed.

(** The table of all metrics is returned whenever some row is not excluded,
    and also when no level column is categorical. *)
Lemma calculate_diversity_metrics_returns (obs : Table) (ccf_label : string) :
  (exists r, In r (values (column obs ccf_label)) /\ ~ In r default_exclude)
  \/ existsb (is_categorical obs) default_levels = false ->
  exists T, calculate_diversity_metrics leb log2 obs ccf_label = Return T.
Proof.
  intros Hrows. unfold calculate_diversity_metrics.
  assert (Hnone : forall (norm : statistic) (x : Series),
             @None statistic = Some norm -> exists v, norm x = Return v)
    by discriminate.
  assert (Hsome : forall (norm : statistic) (x : Series),
             Some (of_count count_unique) = Some norm ->
             exists v, norm x = Return v).
  { intros norm x [= <-]. unfold of_count. eauto. }
  assert (Hdiv : forall nf : option statistic,
             nf = None
             \/ (exists r, In r (values (column obs ccf_label))
                           /\ ~ In r default_exclude)
             \/ existsb (is_categorical obs) default_levels = false)
    by (intros nf; tauto).
  destruct (@get_region_metric_returns obs (of_count count_unique) "count"
              ccf_label default_exclude None default_levels
              (of_count_returns count_unique) Hnone (Hdiv _)) as [m1 ->].
  destruct (@get_region_metric_returns obs (of_count count_unique) "frac"
              ccf_label default_exclude (Some (of_count count_unique))
              default_levels (of_count_returns count_unique) Hsome (Hdiv _))
    as [m2 ->].
  destruct (@get_region_metric_returns obs count_unique_norm
              "count_norm2cells" ccf_label default_exclude None
              default_levels count_unique_norm_returns Hnone (Hdiv _))
    as [m3 ->].
  destruct (@get_region_metric_returns obs (of_count count_gt5) "count_gt5"
              ccf_label default_exclude None default_levels
              (of_count_returns count_gt5) Hnone (Hdiv _)) as [m4 ->].
  destruct (@get_region_metric_returns obs (of_count count_gt5) "frac_gt5"
              ccf_label default_exclude (Some (of_count count_unique))
              default_levels (of_count_returns count_gt5) Hsome (Hdiv _))
    as [m5 ->].
  destruct (@get_region_metric_returns obs
              (of_float inverse_simpsons_index) "inverse_simpsons" ccf_label
              default_exclude None default_levels
              (of_float_returns inverse_simpsons_index) Hnone (Hdiv _))
    as [m6 ->].
  destruct (@get_region_metric_returns obs (of_float (shannon_index log2))
              "shannon_index" ccf_label default_exclude None default_levels
              (of_float_returns (shannon_index log2)) Hnone (Hdiv _))
    as [m7 ->].
  simpl. eauto.
Qed.

End Totality.

(** ** Local metric engine *)

Lemma position_None (c : string) (cols : list string) :
  ~ In c cols -> position c cols = None.
Proof.
  induction cols as [|c' cols IH]; simpl; [reflexivity|].
  intros Hn. destruct (String.eqb_spec c c') as [->|Hne]; [tauto|].
  rewrite IH; [reflexivity | tauto].
Qed.

Lemma field_positions_None (names : list label) (cols : list string)
  (l : label) :
  In l names -> ~ In l cols -> field_positions names cols = None.
Proof.
  intros Hl Hn. induction names as [|l' names IH]; simpl; [destruct Hl|].
  destruct Hl as [->|Hl].
  - now rewrite (position_None _ _ Hn).
  - rewrite (IH Hl). now destruct (position l' cols).
Qed.

Lemma field_positions_Some (names : list label) (cols : list string) :
  (forall l, In l names -> In l cols) ->
  exists ps, field_positions names cols = Some ps.
Proof.
  induction names as [|l names IH]; simpl; intros H; [eauto|].
  destruct (position_In l cols) as [p ->]; [auto|].
  destruct IH as [ps ->]; [auto|]. eauto.
Qed.

(** With an index label that is no field, [from_records] labels the rows. *)
Lemma from_records_labels (results : list (list Np.float)) (idx : list label)
  (cols : list string) (l : label) (T : RecordsFrame) :
  In l idx -> ~ In l cols ->
  from_records results idx cols = Return T ->
  rec_index T = map Label idx /\ rec_data T = results.
Proof.
  intros Hl Hn. unfold from_records. cbv zeta.
  set (cols' := match results with [] => [] | _ :: _ => cols end).
  assert (Hn' : ~ In l cols') by (unfold cols'; destruct results; auto).
  pose proof (field_positions_None _ _ _ Hl Hn') as Hpos.
  destruct idx as [|l0 idx]; [destruct Hl|]. rewrite Hpos.
  destruct (Nat.eqb _ _); [|discriminate]. intros [= <-]. auto.
Qed.

(** With index labels that are all fields, [from_records] builds the index
    from the records and no label of [idx] is left in it. *)
Lemma from_records_fields (results : list (list Np.float)) (idx : list label)
  (cols : list string) (T : RecordsFrame) :
  results <> [] -> idx <> [] -> (forall l, In l idx -> In l cols) ->
  from_records results idx cols = Return T ->
  Forall (fun k => exists vs, k = FieldValues vs) (rec_index T)
  /\ List.length (rec_index T) = List.length results.
Proof.
  intros Hres Hidx Hall. unfold from_records. cbv zeta.
  destruct results as [|record results]; [congruence|].
  destruct (field_positions_Some idx cols Hall) as [ps Hps].
  destruct idx as [|l idx]; [congruence|]. rewrite Hps.
  intros [= <-]. cbn [rec_index].
  split; [|simpl; now rewrite length_map].
  apply Forall_forall. intros k [<-|Hk]; [eauto|].
  apply in_map_iff in Hk. destruct Hk as [rec0 [<- _]]. eauto.
Qed.

Lemma from_records_returns (results : list (list Np.float)) (idx : list label)
  (cols : list string) :
  List.length results = List.length idx ->
  exists T, from_records results idx cols = Return T.
Proof.
  intros Hlen. unfold from_records. cbv zeta. rewrite Hlen, Nat.eqb_refl.
  destruct idx; [eauto|]. destruct (field_positions _ _); eauto.
Qed.

Section LocalEngine.

Variable kneighbors : list (list Q) -> nat -> Py.result (list (list nat)).

(** The records that the pool collects: one per cell, in the order of the
    cells. *)
Lemma calculate_local_diversity_metric_inv (obs : Table)
  (function : statistic) (metric_name : string) (n_neighbors : nat)
  (levels : list string) (T : RecordsFrame) :
  calculate_local_diversity_metric kneighbors obs function metric_name
                                   n_neighbors levels = Return T ->
  exists neighbors results records,
    kneighbors (map (fun r => map (coord r) neigh_coords) (rows obs))
               n_neighbors = Return neighbors
    /\ List.length results = List.length (rows obs)
    /\ (forall i row,
          nth_error results i = Some row ->
          calculate_function_locally i obs neighbors levels function
          = Return row)
    /\ from_records results (table_index obs) levels = Return records
    /\ rec_index T = rec_index records /\ rec_data T = rec_data records.
Proof.
  unfold calculate_local_diversity_metric.
  destruct (kneighbors _ n_neighbors) as [neighbors|e]; simpl; [|discriminate].
  destruct (Py.mapM _ (seq 0 (List.length (rows obs)))) as [results|e] eqn:Eres;
    simpl; [|discriminate].
  destruct (from_records results (table_index obs) levels) as [records|e]
    eqn:Erec; simpl; [|discriminate].
  intros [= <-]. exists neighbors, results, records.
  apply mapM_inv in Eres.
  pose proof (Forall2_length_eq Eres) as Hlen. rewrite length_seq in Hlen.
  repeat split; auto.
  intros i row Hrow.
  assert (Hi : i < List.length (rows obs)).
  { rewrite Hlen. apply nth_error_Some. congruence. }
  assert (Hseq : nth_error (seq 0 (List.length (rows obs))) i = Some i).
  { rewrite nth_error_seq. apply Nat.ltb_lt in Hi. now rewrite Hi. }
  destruct (@Forall2_nth_error_l _ _ _ _ _ i _ Eres Hseq) as [row' [Hrow' Hcalc]].
  congruence.
Qed.

(** When some index label of the observation table is not the name of a
    level, the returned table has the index of the observation table, label
    by label in the same order, one row per row of the observation table,
    and its row at position [i] is the record computed for the cell at
    position [i]. *)
Lemma calculate_local_diversity_metric_index_of_labels (obs : Table)
  (function : statistic) (metric_name : string) (n_neighbors : nat)
  (levels : list string) (T : RecordsFrame) (l : label) :
  In l (table_index obs) -> ~ In l levels ->
  calculate_local_diversity_metric kneighbors obs function metric_name
                                   n_neighbors levels = Return T ->
  rec_index T = map Label (table_index obs)
  /\ List.length (rec_data T) = List.length (rows obs)
  /\ exists neighbors,
       kneighbors (map (fun r => map (coord r) neigh_coords) (rows obs))
                  n_neighbors = Return neighbors
       /\ forall i row,
            nth_error (rec_data T) i = Some row ->
            calculate_function_locally i obs neighbors levels function
            = Return row.
Proof.
  intros Hl Hn H. apply calculate_local_diversity_metric_inv in H.
  destruct H as [neighbors [results [records [Hk [Hlen [Hrows [Hrec [Hi Hd]]]]]]]].
  destruct (@from_records_labels _ _ _ l _ Hl Hn Hrec) as [Hidx Hdata].
  rewrite Hi, Hd, Hidx, Hdata. split; [reflexivity|]. split; [assumption|].
  exists neighbors. split; assumption.
Qed.

(** C7 fails on the code for an observation table whose index labels are
    all names of levels: [from_records] then takes the labels for fields,
    and the returned table is indexed by the values of the metric, not by
    the labels of the observation table. *)
Theorem calculate_local_diversity_metric_index_from_fields (obs : Table)
  (function : statistic) (metric_name : string) (n_neighbors : nat)
  (levels : list string) (T : RecordsFrame) :
  rows obs <> [] ->
  (forall l, In l (table_index obs) -> In l levels) ->
  calculate_local_diversity_metric kneighbors obs function metric_name
                                   n_neighbors levels = Return T ->
  rec_index T <> map Label (table_index obs)
  /\ Forall (fun k => exists vs, k = FieldValues vs) (rec_index T)
  /\ List.length (rec_index T) = List.length (rows obs).
Proof.
  intros Hne Hall H. apply calculate_local_diversity_metric_inv in H.
  destruct H as [neighbors [results [records [Hk [Hlen [Hrows [Hrec [Hi Hd]]]]]]]].
  assert (Hres : results <> []).
  { destruct results; [|discriminate]. destruct (rows obs); simpl in *;
      congruence. }
  assert (Hidx : table_index obs <> []).
  { unfold table_index. destruct (rows obs); [congruence | discriminate]. }
  destruct (@from_records_fields _ _ _ _ Hres Hidx Hall Hrec) as [Hkeys Hlenk].
  rewrite Hi. split; [|split; [assumption | congruence]].
  intros Heq. rewrite Heq in Hkeys.
  destruct (table_index obs) as [|l0 idx]; [congruence|].
  inversion Hkeys as [|? ? [vs Hvs] _]. discriminate Hvs.
Qed.

(** The engine returns when the neighbour search does, with one list of
    valid positions per cell, and the statistic is defined on the
    neighbourhoods. *)
Lemma calculate_local_diversity_metric_returns (obs : Table)
  (function : statistic) (metric_name : string) (n_neighbors : nat)
  (levels : list string) (neighbors : list (list nat)) :
  kneighbors (map (fun r => map (coord r) neigh_coords) (rows obs))
             n_neighbors = Return neighbors ->
  List.length neighbors = List.length (rows obs) ->
  Forall (Forall (fun j => j < List.length (rows obs))) neighbors ->
  (forall x, exists v, function x = Return v) ->
  exists T, calculate_local_diversity_metric kneighbors obs function
              metric_name n_neighbors levels = Return T.
Proof.
  intros Hk Hlen Hvalid Hf. unfold calculate_local_diversity_metric.
  rewrite Hk. simpl.
  destruct (@mapM_returns _ _
              (fun i => calculate_function_locally i obs neighbors levels function)
              (seq 0 (List.length (rows obs)))) as [results Hres].
  { intros i Hi. apply in_seq in Hi. unfold calculate_function_locally.
    destruct (nth_error neighbors i) as [ps|] eqn:Eps.
    - simpl. unfold iloc.
      destruct (@mapM_returns _ _
                  (fun j => match nth_error (rows obs) j with
                            | Some r => Return r
                            | None => Raise IndexError
                            end) ps) as [rs ->].
      { intros j Hj.
        assert (Hjlt : j < List.length (rows obs)).
        { apply nth_error_In in Eps.
          rewrite Forall_forall in Hvalid. specialize (Hvalid ps Eps).
          rewrite Forall_forall in Hvalid. now apply Hvalid. }
        apply nth_error_Some in Hjlt.
        destruct (nth_error (rows obs) j); [eauto | congruence]. }
      simpl. apply mapM_returns. intros lv _. apply Hf.
    - apply nth_error_None in Eps. lia. }
  rewrite Hres. simpl.
  apply mapM_inv, Forall2_length_eq in Hres. rewrite length_seq in Hres.
  destruct (@from_records_returns results (table_index obs) levels) as [T ->].
  { unfold table_index. now rewrite length_map. }
  simpl. eauto.
Qed.

End LocalEngine.

(** ** Proportion aggregation *)

Lemma consolidate_row_sum (row : list Z) (mask : list bool) :
  List.length mask = List.length row ->
  Zsum (consolidate_row mask row) = Zsum row.
Proof.
  unfold consolidate_row. revert mask.
  induction row as [|c row IH]; intros [|m mask] Hlen; simpl in *;
    try discriminate; [reflexivity|].
  injection Hlen as Hlen. specialize (IH mask Hlen).
  rewrite map_app in *. unfold Zsum in *. rewrite fold_right_app in *.
  simpl in *. destruct m; simpl.
  - rewrite <- IH. clear.
    generalize (skipna_sum (zip_with (fun c m => masked m c) row mask)) as s.
    intros s.
    induction (map fill0 (zip_with (fun c m => masked m c) row (map negb mask)))
      as [|x l IHl]; simpl; lia.
  - rewrite <- IH. reflexivity.
Qed.

Lemma consolidate_row_length (row : list Z) (mask : list bool) :
  List.length mask = List.length row ->
  List.length (consolidate_row mask row) = S (List.length row).
Proof.
  unfold consolidate_row. rewrite length_map, length_app. simpl.
  revert mask. induction row as [|c row IH]; intros [|m mask] Hlen;
    simpl in *; try discriminate; [reflexivity|].
  injection Hlen as Hlen. specialize (IH mask Hlen). lia.
Qed.

(** Dropping columns that hold 0 in a row keeps the total of the row. *)
Lemma select_sum (keep : list bool) (row : list Z) :
  List.length keep = List.length row ->
  (forall j, j < List.length row -> nth j keep true = false ->
             nth j row 0%Z = 0%Z) ->
  Zsum (select keep row) = Zsum row.
Proof.
  unfold select, Zsum. revert keep.
  induction row as [|c row IH]; intros [|k keep] Hlen Hz; simpl in *;
    try discriminate; [reflexivity|].
  injection Hlen as Hlen.
  assert (IH' := IH keep Hlen (fun j Hj => Hz (S j) (proj1 (Nat.succ_lt_mono _ _) Hj))).
  destruct k; simpl.
  - now rewrite IH'.
  - rewrite IH'. rewrite (Hz 0); [reflexivity | lia | reflexivity].
Qed.

Lemma any_axis0_false (fr : Frame Z) (row : list Z) (j : nat) :
  In row (data fr) -> j < List.length (columns fr) ->
  nth j (any_axis0 (frame_map (fun c => negb (c =? 0)%Z) fr)) true = false ->
  nth j row 0%Z = 0%Z.
Proof.
  intros Hrow Hj. unfold any_axis0, frame_map. simpl.
  set (F := fun j0 => existsb (fun r => nth j0 r false)
                        (map (map (fun c => negb (c =? 0)%Z)) (data fr))).
  rewrite (nth_indep _ true (F 0)) by now rewrite length_map, length_seq.
  rewrite (map_nth F (seq 0 _) 0 j).
  rewrite seq_nth by assumption. unfold F. simpl. intros Hex.
  destruct (Z.eqb_spec (nth j row 0%Z) 0%Z) as [|Hne]; [assumption|].
  exfalso. apply Bool.not_true_iff_false in Hex. apply Hex.
  apply existsb_exists. exists (map (fun c => negb (c =? 0)%Z) row).
  split; [now apply in_map|].
  change (nth j (map (fun c => negb (c =? 0)%Z) row)
                ((fun c => negb (c =? 0)%Z) 0%Z) = true).
  rewrite map_nth. apply Z.eqb_neq in Hne. now rewrite Hne.
Qed.

(** A row divided by its own non-zero total sums to 1. *)
Lemma div_by_total_sum (t : Z) (l : list Z) :
  t <> 0%Z ->
  exists q, Np.sum (map (fun c => Np.div (Np.of_Z c) (Np.of_Z t)) l) = Np.Fin q
            /\ (q == inject_Z (Zsum l) / inject_Z t)%Q.
Proof.
  intros Ht.
  assert (HT : ~ (inject_Z t == 0)%Q).
  { change 0%Q with (inject_Z 0). rewrite inject_Z_injective. assumption. }
  induction l as [|c l [q [Hq Heq]]].
  - exists 0%Q. split; [reflexivity|]. unfold Zsum. simpl. field. assumption.
  - exists (inject_Z c / inject_Z t + q)%Q. split.
    + unfold Np.sum in *. cbn [map fold_right]. rewrite Hq.
      unfold Np.of_Z. rewrite div_fin by assumption. reflexivity.
    + rewrite Heq. unfold Zsum. cbn [fold_right]. rewrite inject_Z_plus.
      field. assumption.
Qed.

Lemma Zsum_pos (l : list Z) (x : Z) :
  Forall (fun c => (0 <= c)%Z) l -> In x l -> (0 < x)%Z -> (0 < Zsum l)%Z.
Proof.
  unfold Zsum. induction 1 as [|c l Hc Hl IH]; simpl; [tauto|].
  assert (Hnn : (0 <= fold_right Z.add 0 l)%Z).
  { clear IH. induction Hl; simpl; lia. }
  intros [->|Hin] Hx; [lia|]. specialize (IH Hin Hx). lia.
Qed.

Lemma assoc2_map_In (F : label * label -> Z) (keys : list (label * label))
  (r c : label) :
  In (r, c) keys -> assoc2 r c (map (fun k => (k, F k)) keys) = Some (F (r, c)).
Proof.
  induction keys as [|[k1 k2] keys IH]; simpl; [tauto|].
  destruct (String.eqb_spec r k1) as [->|H1];
    destruct (String.eqb_spec c k2) as [->|H2]; simpl; try reflexivity;
    intros [Heq|Hin]; try (injection Heq; intros; congruence); auto.
Qed.

Lemma assoc2_map_Some (F : label * label -> Z) (keys : list (label * label))
  (r c : label) (v : Z) :
  assoc2 r c (map (fun k => (k, F k)) keys) = Some v -> v = F (r, c).
Proof.
  induction keys as [|[k1 k2] keys IH]; simpl; [discriminate|].
  destruct (String.eqb_spec r k1) as [->|H1];
    destruct (String.eqb_spec c k2) as [->|H2]; simpl; auto.
  intros [= <-]. reflexivity.
Qed.

Section Crosstab.

Variable leb : label -> label -> bool.

Lemma crosstab_index_In (obs : Table) (ccf_label taxonomy_level : string)
  (r : label) :
  In r (index (crosstab leb obs ccf_label taxonomy_level))
  <-> In r (values (column obs ccf_label)).
Proof.
  unfold crosstab, unstack, groupby2_size, column. simpl.
  rewrite map_map. simpl. split; intros H.
  - apply (Permutation_in _ (sort_perm leb _)) in H.
    apply distinct_In, in_map_iff in H. destruct H as [[a b] [<- Hk]].
    apply distinct_In, in_map_iff in Hk. destruct Hk as [row [[= <- <-] Hrow]].
    simpl. now apply (in_map (fun r0 => cell r0 ccf_label)).
  - apply (Permutation_in _ (Permutation_sym (sort_perm leb _))).
    apply distinct_In. apply in_map_iff in H. destruct H as [row [<- Hrow]].
    apply in_map_iff. exists (cell row ccf_label, cell row taxonomy_level).
    split; [reflexivity|]. apply distinct_In.
    now apply (in_map (fun r0 => (cell r0 ccf_label, cell r0 taxonomy_level))).
Qed.

(** Every region of the table has a row of counts that are not negative
    and not all zero. *)
Lemma crosstab_row (obs : Table) (ccf_label taxonomy_level : string) :
  exists h : label -> list Z,
    data (crosstab leb obs ccf_label taxonomy_level)
    = map h (index (crosstab leb obs ccf_label taxonomy_level))
    /\ forall r, In r (index (crosstab leb obs ccf_label taxonomy_level)) ->
         List.length (h r)
         = List.length (columns (crosstab leb obs ccf_label taxonomy_level))
         /\ (0 < Zsum (h r))%Z.
Proof.
  unfold crosstab, unstack. cbn [index columns data].
  set (sizes := groupby2_size obs ccf_label taxonomy_level).
  set (cols := sort leb (distinct label_dec (map (fun kv => snd (fst kv)) sizes))).
  set (idx := sort leb (distinct label_dec (map (fun kv => fst (fst kv)) sizes))).
  exists (fun r => map (fun c => match assoc2 r c sizes with
                                 | Some n => n
                                 | None => 0%Z
                                 end) cols).
  split; [reflexivity|]. intros r Hr. split; [apply length_map|].
  unfold idx in Hr. apply (Permutation_in _ (sort_perm leb _)) in Hr.
  apply distinct_In, in_map_iff in Hr. destruct Hr as [[[a b] n] [Ha Hk]].
  simpl in Ha. subst a.
  unfold sizes, groupby2_size in Hk. apply in_map_iff in Hk.
  destruct Hk as [[a b'] [[= -> -> <-] Hk]].
  set (F := fun k : label * label =>
              Z.of_nat (List.length
                (filter (fun r0 => String.eqb (cell r0 ccf_label) (fst k)
                                   && String.eqb (cell r0 taxonomy_level) (snd k))
                        (rows obs)))).
  assert (Hb : In b cols).
  { unfold cols. apply (Permutation_in _ (Permutation_sym (sort_perm leb _))).
    apply distinct_In. unfold sizes, groupby2_size. rewrite map_map. simpl.
    apply in_map_iff. exists (r, b). auto. }
  apply Zsum_pos with (x := F (r, b)).
  - apply Forall_forall. intros x Hx. apply in_map_iff in Hx.
    destruct Hx as [c [<- _]].
    destruct (assoc2 r c sizes) as [v|] eqn:Ev; [|lia].
    apply (assoc2_map_Some F) in Ev. subst v. unfold F. lia.
  - apply in_map_iff. exists b. split; [|assumption].
    unfold sizes, groupby2_size. fold F. now rewrite assoc2_map_In.
  - apply distinct_In, in_map_iff in Hk. destruct Hk as [row [[= Hr Hb'] Hrow]].
    unfold F. simpl.
    assert (Hmem : In row (filter (fun r0 => String.eqb (cell r0 ccf_label) r
                                    && String.eqb (cell r0 taxonomy_level) b)
                                  (rows obs))).
    { apply filter_In. split; [assumption|].
      rewrite Hr, Hb', !String.eqb_refl. reflexivity. }
    destruct (filter _ (rows obs)); [now simpl in Hmem | simpl; lia].
Qed.

End Crosstab.

Section Proportions.
Variable leb : label -> label -> bool.

Lemma zip_with_map_map {A B C D : Type} (f : B -> C -> D) (g : A -> B)
  (h : A -> C) (l : list A) :
  zip_with f (map g l) (map h l) = map (fun a => f (g a) (h a)) l.
Proof. induction l as [|a l IH]; simpl; congruence. Qed.

(** [calculate_level_proportions], row by row. *)
Lemma calculate_level_proportions_unfold (obs : Table)
  (taxonomy_level ccf_label : string) (min_frac : Q) (min_count : option Z) :
  let counts := crosstab leb obs ccf_label taxonomy_level in
  let rows2 := map (fun row => consolidate_row (mask_row min_frac min_count row) row)
                   (data counts) in
  let counts2 := mkFrame (index counts) (columns counts ++ ["other"%string]) rows2 in
  let keep := any_axis0 (frame_map (fun c => negb (c =? 0)%Z) counts2) in
  calculate_level_proportions leb obs taxonomy_level ccf_label min_frac min_count
  = if existsb (String.eqb "other") (columns counts) then Raise ValueError
    else Return (mkFrame (index counts) (select keep (columns counts2))
                   (map (fun row => map (fun c => Np.div (Np.of_Z c)
                                                    (Np.of_Z (Zsum (select keep row))))
                                        (select keep row)) rows2)).
Proof.
  intros counts rows2 counts2 keep.
  unfold calculate_level_proportions. fold (crosstab leb obs ccf_label taxonomy_level).
  fold counts. clearbody counts.
  set (to_other := match min_count with Some m => _ | None => _ end).
  assert (Hmask : data to_other = map (mask_row min_frac min_count) (data counts)).
  { unfold to_other, mask_row, frame_map, div_axis0, sum_axis1.
    destruct min_count as [m|]; cbn [data]; [reflexivity|].
    rewrite zip_with_map_r, map_map. apply map_ext. intros row.
    now rewrite map_map. }
  assert (Hcols : columns to_other = columns counts).
  { unfold to_other. destruct min_count; reflexivity. }
  assert (Hidx : index to_other = index counts).
  { unfold to_other. destruct min_count; reflexivity. }
  clearbody to_other.
  unfold join_column, where_mask. cbn [index columns data].
  destruct (existsb (String.eqb "other") (columns counts)); [reflexivity|].
  cbn [Py.bind].
  match goal with
  | |- context [fillna 0%Z ?joined] =>
      assert (Hc2 : fillna 0%Z joined = counts2)
  end.
  { unfold fillna, frame_map, sum_axis1_skipna, counts2, rows2.
    cbn [index columns data]. f_equal.
    rewrite Hmask, !map_map, !zip_with_map_r, !map_map, zip_with_map_map,
      map_map.
    apply map_ext. intros row. reflexivity. }
  rewrite Hc2. fold keep.
  unfold loc_columns, div_axis0, sum_axis1. cbn [index columns data].
  rewrite zip_with_map_r, map_map. reflexivity.
Qed.

Lemma mask_row_length (min_frac : Q) (min_count : option Z) (row : list Z) :
  List.length (mask_row min_frac min_count row) = List.length row.
Proof. unfold mask_row. destruct min_count; apply length_map. Qed.

(** C3: in the table returned by [calculate_level_proportions], with an
    absolute threshold [min_count] or with the fraction [min_frac], the row
    of every region sums to 1. *)
Theorem calculate_level_proportions_rows_sum_to_1 (obs : Table)
  (taxonomy_level ccf_label : string) (min_frac : Q) (min_count : option Z)
  (T : Frame Np.float) (r : label) :
  calculate_level_proportions leb obs taxonomy_level ccf_label min_frac
                              min_count = Return T ->
  In r (index T) ->
  exists row q, frame_row T r = Some row /\ Np.sum row = Np.Fin q /\ (q == 1)%Q.
Proof.
  intros H Hr. rewrite calculate_level_proportions_unfold in H.
  destruct (crosstab_row leb obs ccf_label taxonomy_level) as [h [Hdata Hrows]].
  set (counts := crosstab leb obs ccf_label taxonomy_level) in *.
  clearbody counts.
  destruct (existsb _ _); [discriminate|]. injection H as <-.
  cbn [index] in Hr.
  destruct (Hrows r Hr) as [Hlen Hpos].
  set (row2 := consolidate_row (mask_row min_frac min_count (h r)) (h r)).
  set (rows2 := map (fun row => consolidate_row (mask_row min_frac min_count row) row)
                    (data counts)).
  set (counts2 := mkFrame (index counts) (columns counts ++ ["other"%string]) rows2).
  set (keep := any_axis0 (frame_map (fun c => negb (c =? 0)%Z) counts2)).
  assert (Hin2 : In row2 (data counts2)).
  { unfold counts2, rows2, row2. cbn [data]. rewrite Hdata, map_map.
    now apply (in_map (fun r0 => consolidate_row
                                   (mask_row min_frac min_count (h r0)) (h r0))). }
  assert (Hlen2 : List.length row2 = List.length (columns counts2)).
  { unfold row2, counts2. cbn [columns].
    rewrite consolidate_row_length by apply mask_row_length.
    rewrite length_app, Hlen. simpl. lia. }
  assert (Hsel : Zsum (select keep row2) = Zsum (h r)).
  { rewrite select_sum.
    - apply consolidate_row_sum, mask_row_length.
    - unfold keep, any_axis0. rewrite length_map, length_seq.
      unfold frame_map. cbn [columns]. now rewrite Hlen2.
    - intros j Hj Hk. apply (any_axis0_false counts2); try assumption.
      now rewrite <- Hlen2. }
  destruct (@div_by_total_sum (Zsum (select keep row2)) (select keep row2))
    as [q [Hq Heq]]; [lia|].
  exists (map (fun c => Np.div (Np.of_Z c) (Np.of_Z (Zsum (select keep row2))))
              (select keep row2)), q.
  split; [|split].
  - unfold frame_row. cbn [index data]. fold rows2 counts2 keep.
    unfold rows2. rewrite Hdata, !map_map.
    now rewrite (@assoc_map _ (fun r0 => map _ (select keep _)) _ r Hr).
  - exact Hq.
  - rewrite Heq. field.
    change 0%Q with (inject_Z 0). rewrite inject_Z_injective. lia.
Qed.

(** The rows of the returned table are the regions of the observation
    table. *)
Lemma calculate_level_proportions_index (obs : Table)
  (taxonomy_level ccf_label : string) (min_frac : Q) (min_count : option Z)
  (T : Frame Np.float) (r : label) :
  calculate_level_proportions leb obs taxonomy_level ccf_label min_frac
                              min_count = Return T ->
  (In r (index T) <-> In r (values (column obs ccf_label))).
Proof.
  intros H. rewrite calculate_level_proportions_unfold in H.
  destruct (existsb _ _); [discriminate|]. injection H as <-.
  apply crosstab_index_In.
Qed.

Lemma crosstab_columns_In (obs : Table) (ccf_label taxonomy_level : string)
  (c : label) :
  In c (columns (crosstab leb obs ccf_label taxonomy_level))
  -> In c (values (column obs taxonomy_level)).
Proof.
  unfold crosstab, unstack, groupby2_size, column. simpl.
  rewrite map_map. simpl. intros H.
  apply (Permutation_in _ (sort_perm leb _)) in H.
  apply distinct_In, in_map_iff in H. destruct H as [[a b] [<- Hk]].
  apply distinct_In, in_map_iff in Hk. destruct Hk as [row [[= <- <-] Hrow]].
  simpl. now apply (in_map (fun r0 => cell r0 taxonomy_level)).
Qed.

(** The aggregation returns a table unless a category is itself called
    [other], in which case the join of the new column is refused. *)
Lemma calculate_level_proportions_returns (obs : Table)
  (taxonomy_level ccf_label : string) (min_frac : Q) (min_count : option Z) :
  ~ In "other"%string (values (column obs taxonomy_level)) ->
  exists T, calculate_level_proportions leb obs taxonomy_level ccf_label
              min_frac min_count = Return T.
Proof.
  intros Hno. rewrite calculate_level_proportions_unfold.
  destruct (existsb _ _) eqn:E; [|eauto].
  exfalso. apply Hno. apply existsb_exists in E. destruct E as [c [Hc Heq]].
  apply String.eqb_eq in Heq. subst c. now apply crosstab_columns_In in Hc.
Qed.

End Proportions.

(** ** The palette of the stacked bar plot *)

(** C9 fails on the code: when no palette is given and the provider raises
    [ValueError], the error is caught and [glasbey_light] is substituted,
    but [glasbey_light] is a list of colours, so the next statement,
    [palette['other'] = 'lightgrey'], raises [TypeError] and nothing is
    drawn. *)
Theorem barplot_fallback_palette_raises
  (get_taxonomy_palette : string -> Py.result palette)
  (glasbey_colors : list string) (taxonomy_level : string) :
  get_taxonomy_palette taxonomy_level = Raise ValueError ->
  barplot_stacked_proportions_palette get_taxonomy_palette glasbey_colors
                                      taxonomy_level None
  = Raise TypeError.
Proof.
  intros H. unfold barplot_stacked_proportions_palette. now rewrite H.
Qed.

Lemma barplot_fallback_palette_raises_witness :
  (fun _ : string => @Raise palette ValueError) "neurotransmitter"%string
  = Raise ValueError
  /\ barplot_stacked_proportions_palette
       (fun _ : string => @Raise palette ValueError)
       ["#d60000"; "#8c3bff"; "#018700"]%string "neurotransmitter"%string None
     = Raise TypeError.
Proof.
  split; [reflexivity|].
  apply (barplot_fallback_palette_raises
           (fun _ : string => @Raise palette ValueError)
           ["#d60000"; "#8c3bff"; "#018700"]%string "neurotransmitter"%string).
  reflexivity.
Defined.

(** With a palette that the provider knows, or one that the caller passes
    as a dict, the grey of [other] is added and the plot goes on. *)
Lemma barplot_palette_of_dict
  (get_taxonomy_palette : string -> Py.result palette)
  (glasbey_colors : list string) (taxonomy_level : string)
  (d : list (string * string)) :
  get_taxonomy_palette taxonomy_level = Return (PaletteDict d) ->
  exists d',
    barplot_stacked_proportions_palette get_taxonomy_palette glasbey_colors
                                        taxonomy_level None
    = Return (PaletteDict d')
    /\ In ("other", "lightgrey")%string d'.
Proof.
  intros H. unfold barplot_stacked_proportions_palette. rewrite H. simpl.
  eexists. split; [reflexivity|].
  destruct (existsb _ d) eqn:E.
  - apply existsb_exists in E. destruct E as [[k v] [Hin Hk]]. simpl in Hk.
    apply in_map_iff. exists (k, v). simpl. rewrite Hk. auto.
  - apply in_or_app. right. now left.
Qed.

(** ** Concrete runs *)

Local Open Scope string_scope.

Lemma get_region_metric_index_witness :
  get_region_metric String.leb example_obs (of_count count_unique) "count"
                    default_ccf_label default_exclude None default_levels
  = Return example_count
  /\ (NoDup (index example_count)
      /\ (forall r, In r (index example_count)
                    <-> In r (values (column example_obs default_ccf_label))
                        /\ ~ In r default_exclude)
      /\ (forall r, In r default_exclude -> ~ In r (index example_count))).
Proof.
  split; [vm_compute; reflexivity|].
  apply (get_region_metric_index String.leb example_obs (of_count count_unique)
           "count" default_ccf_label default_exclude None default_levels).
  vm_compute. reflexivity.
Defined.

Example example_count_index : index example_count = ["A"; "B"].
Proof. reflexivity. Qed.

Lemma get_region_metric_normalized_by_whole_column_witness :
  (get_region_metric String.leb example_obs (of_count count_unique) "frac"
                     default_ccf_label default_exclude
                     (Some (of_count count_unique)) default_levels
   = Return example_frac
   /\ In "A" (index example_frac) /\ In "cluster" default_levels)
  /\ (values (column example_obs "cluster")
      = map (fun row => cell row "cluster") (rows example_obs)
      /\ exists m n,
           of_count count_unique
             (column (region_rows example_obs default_ccf_label "A") "cluster")
           = Return m
           /\ of_count count_unique (column example_obs "cluster") = Return n
           /\ frame_at example_frac "A" (column_name "frac" "cluster")
              = Some (Np.div m n)).
Proof.
  split; [split; [vm_compute; reflexivity | simpl; auto]|].
  apply (get_region_metric_normalized_by_whole_column String.leb example_obs
           (of_count count_unique) (of_count count_unique) "frac"
           default_ccf_label default_exclude default_levels "A" "cluster").
  - vm_compute. reflexivity.
  - simpl. auto.
  - simpl. auto.
Defined.

(** Region A holds 2 of the 4 categories of the whole table; two of the
    four only occur in excluded rows and still count in the divisor. *)
Example example_frac_of_region_A :
  frame_at example_frac "A" "frac_cluster" = Some (Np.Fin (2 # 4)).
Proof. reflexivity. Qed.


(** The table of the two excluded cells: one row, for the excluded region,
    with NaN in the 21 columns of the metrics and 2 cells. *)
Example excluded_obs_table :
  calculate_diversity_metrics String.leb (fun v => v) excluded_obs
                              default_ccf_label
  = Return (mkFrame ["unassigned"] metrics_columns
                    [(repeat Np.NaN 21 ++ [Np.of_nat 2])%list]).
Proof. vm_compute. reflexivity. Qed.

Lemma calculate_local_diversity_metric_index_from_fields_witness :
  (rows fields_obs <> []
   /\ (forall l, In l (table_index fields_obs) -> In l default_levels)
   /\ calculate_local_diversity_metric first_positions fields_obs
        (of_count count_unique) "count" 2 default_levels = Return fields_local)
  /\ (rec_index fields_local <> map Label (table_index fields_obs)
      /\ Forall (fun k => exists vs, k = FieldValues vs) (rec_index fields_local)
      /\ List.length (rec_index fields_local) = List.length (rows fields_obs)).
Proof.
  assert (Hall : forall l, In l (table_index fields_obs) -> In l default_levels).
  { simpl. intros l [<-|[<-|[<-|[]]]]; auto. }
  split; [split; [discriminate | split; [exact Hall | vm_compute; reflexivity]]|].
  apply (@calculate_local_diversity_metric_index_from_fields first_positions
           fields_obs (of_count count_unique) "count" 2 default_levels
           fields_local).
  - discriminate.
  - exact Hall.
  - vm_compute. reflexivity.
Defined.

(** The table of the three cells: no column is left, and the rows are keyed
    by the counts computed for the three levels. *)
Example fields_local_value :
  fields_local
  = mkRecordsFrame
      [FieldValues [Np.of_nat 2; Np.of_nat 2; Np.of_nat 2];
       FieldValues [Np.of_nat 2; Np.of_nat 2; Np.of_nat 2];
       FieldValues [Np.of_nat 2; Np.of_nat 2; Np.of_nat 2]]
      [] [[]; []; []].
Proof. reflexivity. Qed.

(** On the table of the six cells the labels are no fields, and the index
    is kept. *)
Example example_local_index :
  rec_index example_local
  = map Label ["cell0"; "cell1"; "cell2"; "cell3"; "cell4"; "cell5"].
Proof. reflexivity. Qed.

Lemma calculate_level_proportions_rows_sum_to_1_witness :
  (calculate_level_proportions String.leb example_obs "cluster"
     default_ccf_label (1 # 100) None = Return example_proportions
   /\ In "A" (index example_proportions))
  /\ exists row q,
       frame_row example_proportions "A" = Some row
       /\ Np.sum row = Np.Fin q /\ (q == 1)%Q.
Proof.
  split; [split; [vm_compute; reflexivity | simpl; auto]|].
  apply (@calculate_level_proportions_rows_sum_to_1 String.leb example_obs
           "cluster" default_ccf_label (1 # 100) None example_proportions "A").
  - vm_compute. reflexivity.
  - simpl. auto.
Defined.

(** ** The scenario of one region with counts 5, 3 and 2 *)

(** C4, as the claim states it, does not hold: with [min_frac = 0.5] the
    returned row has no cell for [c1]. *)
Lemma scenario_min_frac_half_keeps_no_c1 :
  ~ (exists (T : Frame Np.float) (q1 q2 : Q),
        calculate_level_proportions String.leb scenario_obs "cluster"
          default_ccf_label (1 # 2) None = Return T
        /\ frame_at T "R" "c1" = Some (Np.Fin q1) /\ (q1 == 1 # 2)%Q
        /\ frame_at T "R" "other" = Some (Np.Fin q2) /\ (q2 == 1 # 2)%Q).
Proof.
  intros [T [q1 [q2 [HT [H1 _]]]]].
  vm_compute in HT. injection HT as <-.
  vm_compute in H1. discriminate H1.
Qed.

(** C4, as the code has it: the fraction 0.5 of [c1] is not above the
    threshold 0.5, so [c1], [c2] and [c3] all go to [other]; the emptied
    columns are dropped and the row of the region is the single cell
    [other], with proportion 1. *)
Theorem scenario_min_frac_half_all_other :
  exists (T : Frame Np.float) (q : Q),
    calculate_level_proportions String.leb scenario_obs "cluster"
      default_ccf_label (1 # 2) None = Return T
    /\ index T = ["R"] /\ columns T = ["other"] /\ data T = [[Np.Fin q]]
    /\ (q == 1)%Q
    /\ frame_at T "R" "other" = Some (Np.Fin q)
    /\ frame_at T "R" "c1" = None.
Proof.
  exists (mkFrame ["R"] ["other"] [[Np.Fin (10 # 10)]]), (10 # 10)%Q.
  split; [vm_compute; reflexivity|].
  repeat split; reflexivity.
Qed.

(** With a threshold below one half, [c1] is kept: at [min_frac = 0.3] the
    row is [c1] at 0.5 and [other] at 0.5. *)
Example scenario_min_frac_three_tenths :
  calculate_level_proportions String.leb scenario_obs "cluster"
    default_ccf_label (3 # 10) None
  = Return (mkFrame ["R"] ["c1"; "other"] [[Np.Fin (5 # 10); Np.Fin (5 # 10)]]).
Proof. vm_compute. reflexivity. Qed.

(* ------------------------------------------------------------------ *)
(** * Further properties of the statistic formulas *)

Local Close Scope string_scope.

Lemma distinct_nil_iff {A : Type} (dec : forall a b : A, {a = b} + {a <> b})
  (l : list A) : distinct dec l = [] <-> l = [].
Proof. destruct l; simpl; split; congruence. Qed.

Lemma distinct_length_le {A : Type} (dec : forall a b : A, {a = b} + {a <> b})
  (l : list A) : List.length (distinct dec l) <= List.length l.
Proof.
  apply NoDup_incl_length; [apply distinct_NoDup|].
  intros a Ha. now apply distinct_In in Ha.
Qed.

Lemma distinct_length_NoDup {A : Type}
  (dec : forall a b : A, {a = b} + {a <> b}) (l : list A) :
  List.length (distinct dec l) = List.length l <-> NoDup l.
Proof.
  split; intros H.
  - apply (NoDup_incl_NoDup (distinct_NoDup dec l)); [lia|].
    intros a Ha. now apply distinct_In in Ha.
  - apply Nat.le_antisymm; [apply distinct_length_le|].
    apply NoDup_incl_length; [assumption|].
    intros a Ha. now apply distinct_In.
Qed.

(** X1: [count_unique] never exceeds the size of the sample, and it is 0
    only on the empty sample. *)
Theorem count_unique_bounds (x : Series) :
  count_unique x <= len x /\ (count_unique x = 0 <-> values x = []).
Proof.
  unfold count_unique, unique, len. split; [apply distinct_length_le|].
  rewrite length_zero_iff_nil. apply distinct_nil_iff.
Qed.

Lemma count_unique_pos (x : Series) : values x <> [] -> 0 < count_unique x.
Proof.
  intros Hne. unfold count_unique, unique.
  destruct (distinct label_dec (values x)) eqn:E; [|simpl; lia].
  apply distinct_nil_iff in E. contradiction.
Qed.

(** X2: on a non-empty sample [count_unique_norm] returns a number in
    (0, 1], and 1 exactly when no label occurs twice. *)
Theorem count_unique_norm_range (x : Series) :
  values x <> [] ->
  exists q : Q,
    count_unique_norm x = Return (Np.Fin q)
    /\ (0 < q)%Q /\ (q <= 1)%Q /\ ((q == 1)%Q <-> NoDup (values x)).
Proof.
  intros Hne.
  assert (Hn : 0 < len x).
  { unfold len. destruct (values x); [congruence | simpl; lia]. }
  pose proof (count_unique_pos x Hne) as Hu.
  assert (Hle : count_unique x <= len x).
  { unfold count_unique, unique, len. apply distinct_length_le. }
  exists (Qnat (count_unique x) / Qnat (len x))%Q.
  pose proof (Qnat_pos Hn) as HN. pose proof (Qnat_pos Hu) as HU.
  apply Qnat_le in Hle.
  split; [|split; [|split]].
  - unfold count_unique_norm. destruct (Nat.eqb_spec (len x) 0); [lia|].
    reflexivity.
  - apply Qlt_shift_div_l; [assumption|]. lra.
  - apply Qle_shift_div_r; [assumption|]. lra.
  - rewrite <- (distinct_length_NoDup label_dec). fold (unique x).
    fold (count_unique x). fold (len x). rewrite Qnat_eq. split; intros H.
    + pose proof (Qmult_div_r (Qnat (count_unique x)) (Qnat (len x))) as E.
      rewrite H in E. rewrite <- E; [ring | lra].
    + rewrite H. field. lra.
Qed.

Lemma count_unique_norm_range_witness :
  values (mkSeries ["c1"; "c2"; "c1"]%string []) <> []
  /\ exists q : Q,
       count_unique_norm (mkSeries ["c1"; "c2"; "c1"]%string [])
       = Return (Np.Fin q)
       /\ (0 < q)%Q /\ (q <= 1)%Q
       /\ ((q == 1)%Q <-> NoDup (values (mkSeries ["c1"; "c2"; "c1"]%string []))).
Proof.
  split; [discriminate|].
  apply (count_unique_norm_range (mkSeries ["c1"; "c2"; "c1"]%string [])).
  discriminate.
Defined.

Lemma list_sum_filter_le {A : Type} (f : A -> nat) (p : A -> bool)
  (l : list A) : list_sum (map f (filter p l)) <= list_sum (map f l).
Proof.
  induction l as [|a l IH]; simpl; [lia|]. destruct (p a); simpl; lia.
Qed.

Lemma list_sum_at_least {A : Type} (f : A -> nat) (k : nat) (l : list A) :
  Forall (fun a => k <= f a) l -> k * List.length l <= list_sum (map f l).
Proof. induction 1 as [|a l Ha _ IH]; simpl; lia. Qed.

Lemma occurrences_sum (x : Series) :
  list_sum (map (occurrences x) (unique x)) = len x.
Proof.
  unfold occurrences, unique, len. apply count_occ_sum.
  - apply distinct_NoDup.
  - intros a Ha. now apply distinct_In.
Qed.

Lemma six_count_gt5_le_len (x : Series) : 6 * count_gt5 x <= len x.
Proof.
  rewrite count_gt5_length, <- occurrences_sum.
  etransitivity; [|apply (list_sum_filter_le (occurrences x)
                           (fun c => 5 <? occurrences x c))].
  apply list_sum_at_least. apply Forall_forall. intros c Hc.
  apply categories_over_In in Hc. lia.
Qed.

(** X3: every category that [count_gt5] counts takes at least 6 items of
    the sample, so six times the result never exceeds the sample size, and
    the result never exceeds [count_unique]. *)
Theorem count_gt5_bounds (x : Series) :
  6 * count_gt5 x <= len x /\ count_gt5 x <= count_unique x.
Proof.
  split; [apply six_count_gt5_le_len | apply count_gt5_le_count_unique].
Qed.

(** The square of a sum is at most the number of summands times the sum of
    the squares. *)
Lemma square_sum_le (cs : list nat) :
  list_sum cs * list_sum cs <= List.length cs * sumsq cs.
Proof.
  unfold sumsq.
  induction cs as [|a cs IH]; simpl; [lia|].
  set (S := list_sum cs) in *. set (Q := list_sum (map (fun k => k * k) cs)) in *.
  set (k := List.length cs) in *.
  assert (H2 : 2 * a * S <= k * (a * a) + Q).
  { destruct k as [|k'].
    - assert (S = 0) by nia. subst S. nia.
    - assert (Hsq : (0 <= (Z.of_nat (Datatypes.S k') * Z.of_nat a - Z.of_nat S)
                          * (Z.of_nat (Datatypes.S k') * Z.of_nat a - Z.of_nat S))%Z)
        by apply Z.square_nonneg.
      nia. }
  nia.
Qed.

(** *** The formulas read a sample as a multiset *)

Lemma unique_perm (x y : Series) :
  Permutation (values x) (values y) -> Permutation (unique x) (unique y).
Proof.
  intros H. unfold unique. apply NoDup_Permutation; try apply distinct_NoDup.
  intros c. rewrite !distinct_In. split; apply Permutation_in;
    [assumption | now apply Permutation_sym].
Qed.

Lemma occurrences_perm (x y : Series) (c : label) :
  Permutation (values x) (values y) -> occurrences x c = occurrences y c.
Proof.
  intros H. unfold occurrences.
  now apply (proj1 (Permutation_count_occ label_dec _ _) H).
Qed.

Lemma positive_counts_of_perm (x y : Series) :
  Permutation (values x) (values y) ->
  Permutation (positive_counts x) (positive_counts y).
Proof.
  intros H.
  rewrite (positive_counts_perm x), (positive_counts_perm y).
  rewrite (map_ext (occurrences x) (occurrences y))
    by (intros c; now apply occurrences_perm).
  now apply Permutation_map, unique_perm.
Qed.

Lemma sumsq_perm (cs cs' : list nat) :
  Permutation cs cs' -> sumsq cs = sumsq cs'.
Proof.
  intros H. unfold sumsq. now apply Permutation_list_sum, Permutation_map.
Qed.

(** X5: the formulas depend on the multiset of labels only: neither the
    order of the items nor the categories that the dtype declares change
    [count_unique], [count_unique_norm], [count_gt5] or
    [inverse_simpsons_index]. *)
Theorem formulas_of_permuted_sample (x y : Series) :
  Permutation (values x) (values y) ->
  count_unique x = count_unique y
  /\ count_unique_norm x = count_unique_norm y
  /\ count_gt5 x = count_gt5 y
  /\ float_eq (inverse_simpsons_index x) (inverse_simpsons_index y).
Proof.
  intros H.
  assert (Hu : count_unique x = count_unique y).
  { unfold count_unique. now apply Permutation_length, unique_perm. }
  assert (Hl : len x = len y) by (unfold len; now apply Permutation_length).
  split; [assumption|]. split; [|split].
  - unfold count_unique_norm. fold (count_unique x). fold (count_unique y).
    now rewrite Hu, Hl.
  - rewrite !count_gt5_length. unfold categories_over.
    apply Permutation_length.
    rewrite (filter_ext (fun c => 5 <? occurrences x c)
                        (fun c => 5 <? occurrences y c))
      by (intros c; now rewrite (occurrences_perm x y c H)).
    apply NoDup_Permutation; try (apply NoDup_filter, distinct_NoDup).
    intros c. rewrite !filter_In. unfold unique. rewrite !distinct_In.
    split; intros [Hin Hc]; split; try assumption;
      [apply (Permutation_in _ H Hin)
      | apply (Permutation_in _ (Permutation_sym H) Hin)].
  - destruct (values x) as [|a vx] eqn:Ex.
    + apply Permutation_nil in H.
      destruct x as [vx cx], y as [vy cy]. simpl in *. subst vx vy.
      unfold inverse_simpsons_index. rewrite !no_positive_count_of_empty.
      exact I.
    + assert (Hnx : 0 < len x) by (unfold len; rewrite Ex; simpl; lia).
      assert (Hny : 0 < len y) by lia.
      rewrite <- Ex in H.
      pose proof (simpson_sum_scaled (positive_counts x) Hnx) as Hsx.
      pose proof (simpson_sum_scaled (positive_counts y) Hny) as Hsy.
      rewrite <- Hl, <- (sumsq_perm (positive_counts_of_perm x y H)) in Hsy.
      pose proof (Qnat_pos Hnx) as HN.
      assert (Hpos : 0 < sumsq (positive_counts x)).
      { pose proof (square_sum_le (positive_counts x)) as Hcs.
        rewrite positive_counts_sum in Hcs. nia. }
      apply Qnat_pos in Hpos.
      rewrite !inverse_simpsons_index_unfold by assumption. rewrite <- Hl.
      set (sx := simpson_sum (positive_counts x) (len x)) in *.
      set (sy := simpson_sum (positive_counts y) (len x)) in *.
      assert (HNN : (0 < Qnat (len x) * Qnat (len x))%Q) by nra.
      assert (Hsx0 : (0 < sx)%Q) by nra.
      assert (Hsy0 : (0 < sy)%Q) by nra.
      assert (Heq : (sx == sy)%Q).
      { apply (Qmult_inj_r sx sy (Qnat (len x) * Qnat (len x))); [lra|].
        now rewrite Hsx, Hsy. }
      rewrite !div_fin by lra. simpl. now rewrite Heq.
Qed.

Lemma formulas_of_permuted_sample_witness :
  Permutation (values (mkSeries ["c1"; "c2"; "c1"]%string []))
              (values (mkSeries ["c2"; "c1"; "c1"]%string ["c9"]%string))
  /\ (count_unique (mkSeries ["c1"; "c2"; "c1"]%string [])
      = count_unique (mkSeries ["c2"; "c1"; "c1"]%string ["c9"]%string)
      /\ count_unique_norm (mkSeries ["c1"; "c2"; "c1"]%string [])
         = count_unique_norm (mkSeries ["c2"; "c1"; "c1"]%string ["c9"]%string)
      /\ count_gt5 (mkSeries ["c1"; "c2"; "c1"]%string [])
         = count_gt5 (mkSeries ["c2"; "c1"; "c1"]%string ["c9"]%string)
      /\ float_eq
           (inverse_simpsons_index (mkSeries ["c1"; "c2"; "c1"]%string []))
           (inverse_simpsons_index
              (mkSeries ["c2"; "c1"; "c1"]%string ["c9"]%string))).
Proof.
  split; [simpl; apply perm_swap|].
  apply (formulas_of_permuted_sample
           (mkSeries ["c1"; "c2"; "c1"]%string [])
           (mkSeries ["c2"; "c1"; "c1"]%string ["c9"]%string)).
  simpl. apply perm_swap.
Defined.

(** X6: a non-empty sample of a single category has Shannon index 0, for
    every logarithm with [log2 1 = 0]. *)
Theorem shannon_index_single_category (log2 : Np.float -> Np.float)
  (x : Series) :
  values x <> [] ->
  (forall a b : label, In a (values x) -> In b (values x) -> a = b) ->
  (forall q : Q, (q == 1)%Q -> log2 (Np.Fin q) = Np.Fin 0) ->
  exists q : Q, shannon_index log2 x = Np.Fin q /\ (q == 0)%Q.
Proof.
  intros Hne Hone Hlog.
  assert (Hn : 0 < len x).
  { unfold len. destruct (values x); [congruence | simpl; lia]. }
  assert (Hk : List.length (positive_counts x) = 1).
  { rewrite positive_counts_length.
    pose proof (count_unique_pos x Hne).
    apply count_unique_le_1 in Hone. lia. }
  pose proof (positive_counts_sum x) as Hsum.
  unfold shannon_index. unfold positive_counts in Hk, Hsum.
  destruct (loc_counts _ (value_counts x)) as [|[c n] [|kv cc]];
    simpl in Hk; try discriminate.
  simpl in Hsum. assert (Hnx : n = len x) by lia. clear Hsum Hk.
  cbn [map snd]. replace (list_sum [n]) with (len x) by (simpl; lia).
  rewrite Hnx. rewrite div_of_nat by assumption.
  assert (H1 : (Qnat (len x) / Qnat (len x) == 1)%Q).
  { pose proof (Qnat_pos Hn). field. lra. }
  rewrite (Hlog _ H1). simpl.
  eexists. split; [reflexivity|]. ring.
Qed.

Lemma shannon_index_single_category_witness :
  (values (mkSeries ["c1"; "c1"; "c1"]%string []) <> []
   /\ (forall a b : label,
          In a (values (mkSeries ["c1"; "c1"; "c1"]%string [])) ->
          In b (values (mkSeries ["c1"; "c1"; "c1"]%string [])) -> a = b)
   /\ (forall q : Q, (q == 1)%Q -> (fun _ : Np.float => Np.Fin 0) (Np.Fin q)
                                   = Np.Fin 0))
  /\ exists q : Q,
       shannon_index (fun _ : Np.float => Np.Fin 0)
                     (mkSeries ["c1"; "c1"; "c1"]%string []) = Np.Fin q
       /\ (q == 0)%Q.
Proof.
  assert (Hone : forall a b : label,
             In a (values (mkSeries ["c1"; "c1"; "c1"]%string [])) ->
             In b (values (mkSeries ["c1"; "c1"; "c1"]%string [])) -> a = b).
  { simpl. intros a b Ha Hb.
    assert (a = "c1"%string) by intuition congruence.
    assert (b = "c1"%string) by intuition congruence.
    congruence. }
  split; [split; [discriminate | split; [exact Hone | reflexivity]]|].
  apply (shannon_index_single_category (fun _ : Np.float => Np.Fin 0)
           (mkSeries ["c1"; "c1"; "c1"]%string [])).
  - discriminate.
  - exact Hone.
  - reflexivity.
Defined.

(* ------------------------------------------------------------------ *)
(** * Further properties of the region metric engine *)

Section RegionEngineMore.

Variable leb : label -> label -> bool.

(** X7: the engine never hands an empty sample to the statistic, since
    every group of the [groupby] has a row. A statistic that is defined on
    non-empty samples, as [count_unique_norm] is, therefore never stops the
    engine, and a table is returned. *)
Theorem get_region_metric_never_aggregates_empty_group (obs : Table)
  (function : statistic) (metric_name ccf_label : string)
  (exclude : list label) (levels : list string) :
  returns_on_samples function ->
  exists T, get_region_metric leb obs function metric_name ccf_label exclude
                              None levels = Return T.
Proof.
  intros Hf.
  apply get_region_metric_returns;
    [assumption | discriminate | left; reflexivity].
Qed.

(** X8: the columns of the returned table are named
    ["<metric_name>_<level>"], in the order of the levels, and the table has
    one row per index label and one cell per level in every row. *)
Theorem get_region_metric_shape (obs : Table) (function : statistic)
  (metric_name ccf_label : string) (exclude : list label)
  (norm_fcn : option statistic) (levels : list string) (T : Frame Np.float) :
  get_region_metric leb obs function metric_name ccf_label exclude norm_fcn
                    levels = Return T ->
  columns T = map (fun lv => (metric_name ++ "_" ++ lv)%string) levels
  /\ List.length (data T) = List.length (index T)
  /\ Forall (fun row => List.length row = List.length levels) (data T).
Proof.
  intros H. apply get_region_metric_inv in H.
  destruct H as [_ [Hcols Hdata]]. split; [exact Hcols|].
  split; [symmetry; exact (Forall2_length_eq Hdata)|].
  induction Hdata as [|r row idx rows Hrow _ IH]; constructor; [|exact IH].
  symmetry. exact (Forall2_length_eq Hrow).
Qed.

(** X9: without a normalisation function, the cell of region [r] at level
    [lv] is the statistic of the labels, at that level, of the rows of the
    observation table that lie in region [r]. *)
Theorem get_region_metric_cell (obs : Table) (function : statistic)
  (metric_name ccf_label : string) (exclude : list label)
  (levels : list string) (T : Frame Np.float) (r : label) (lv : string) :
  get_region_metric leb obs function metric_name ccf_label exclude None
                    levels = Return T ->
  In r (index T) -> In lv levels ->
  exists m,
    function (column (region_rows obs ccf_label r) lv) = Return m
    /\ frame_at T r (metric_name ++ "_" ++ lv)%string = Some m.
Proof.
  intros H Hr Hlv.
  apply get_region_metric_inv in H. destruct H as [_ [Hcols Hdata]].
  destruct (@frame_at_Forall2 _ _ (column_name metric_name) levels T
              (@column_name_inj metric_name) Hcols Hdata r lv Hr Hlv)
    as [v [Hv [m [Hm ->]]]].
  exists m. auto.
Qed.

Lemma kept_idempotent (obs : Table) (ccf_label : string)
  (exclude : list label) :
  kept (kept obs ccf_label exclude) ccf_label exclude
  = kept obs ccf_label exclude.
Proof.
  unfold kept, loc_rows. simpl. f_equal.
  apply filter_filter_implied. auto.
Qed.

(** X10: without a normalisation function the rows of excluded regions
    have no influence: dropping them from the observation table beforehand
    gives the same result, table or exception. *)
Theorem get_region_metric_ignores_excluded_rows (obs : Table)
  (function : statistic) (metric_name ccf_label : string)
  (exclude : list label) (levels : list string) :
  get_region_metric leb (kept obs ccf_label exclude) function metric_name
                    ccf_label exclude None levels
  = get_region_metric leb obs function metric_name ccf_label exclude None
                      levels.
Proof.
  unfold get_region_metric.
  fold (kept obs ccf_label exclude).
  fold (kept (kept obs ccf_label exclude) ccf_label exclude).
  now rewrite kept_idempotent.
Qed.

(** X11: an exception of the statistic is not caught: if it raises on the
    sample of some region that is not excluded, at some level, then
    [get_region_metric] raises and returns no table. *)
Theorem get_region_metric_propagates_exception (obs : Table)
  (function : statistic) (metric_name ccf_label : string)
  (exclude : list label) (norm_fcn : option statistic)
  (levels : list string) (r : label) (lv : string) (e : Py.exn) :
  In r (values (column obs ccf_label)) -> ~ In r exclude -> In lv levels ->
  function (column (region_rows obs ccf_label r) lv) = Raise e ->
  fails (get_region_metric leb obs function metric_name ccf_label exclude
                           norm_fcn levels).
Proof.
  intros Hr Hex Hlv Hraise.
  destruct (get_region_metric leb obs function metric_name ccf_label exclude
              norm_fcn levels) as [T|e'] eqn:E; [|now exists e'].
  exfalso. apply get_region_metric_inv in E.
  destruct E as [Hidx [Hcols Hdata]].
  assert (HrT : In r (index T)).
  { rewrite Hidx. apply kept_keys_In. auto. }
  destruct (@frame_at_Forall2 _ _ (column_name metric_name) levels T
              (@column_name_inj metric_name) Hcols Hdata r lv HrT Hlv)
    as [v [_ [m [Hm _]]]].
  congruence.
Qed.

End RegionEngineMore.

(* ------------------------------------------------------------------ *)
(** * Further properties of the table of all metrics *)

Lemma assoc_pairs {A : Type} (F : label -> A) (l : list label) (r : label) :
  In r l -> assoc r (map (fun c => (c, F c)) l) = Some (F r).
Proof.
  induction l as [|k l IH]; simpl; [tauto|].
  intros Hin. destruct (String.eqb_spec r k) as [->|Hne]; [reflexivity|].
  apply IH. destruct Hin; congruence.
Qed.

Lemma count_occ_region (obs : Table) (ccf_label : string) (r : label) :
  occurrences (column obs ccf_label) r = cells_in_region obs ccf_label r.
Proof.
  unfold occurrences, cells_in_region, region_rows, loc_rows, column. simpl.
  induction (rows obs) as [|row rs IH]; simpl; [reflexivity|].
  destruct (label_dec (cell row ccf_label) r) as [Heq|Hne].
  - rewrite (proj2 (String.eqb_eq _ _) Heq). simpl. now rewrite IH.
  - rewrite (proj2 (String.eqb_neq _ _) Hne). exact IH.
Qed.

Lemma region_sample_length (obs : Table) (ccf_label : string) (r : label)
  (lv : string) :
  len (column (region_rows obs ccf_label r) lv) = cells_in_region obs ccf_label r.
Proof. unfold len, column, cells_in_region. simpl. apply length_map. Qed.

Lemma cells_in_region_pos (obs : Table) (ccf_label : string) (r : label) :
  In r (values (column obs ccf_label)) -> 0 < cells_in_region obs ccf_label r.
Proof.
  intros H. rewrite <- count_occ_region. unfold occurrences.
  now apply (count_occ_In label_dec).
Qed.

Section AllMetrics.

Variable leb : label -> label -> bool.
Variable log2 : Np.float -> Np.float.

(** The seven tables behind a table of all metrics. *)
Lemma diversity_metrics_frames (obs : Table) (ccf_label : string)
  (T : Frame Np.float) :
  calculate_diversity_metrics leb log2 obs ccf_label = Return T ->
  exists m1 m2 m3 m4 m5 m6 m7,
    (get_region_metric leb obs (of_count count_unique) "count" ccf_label
                       default_exclude None default_levels = Return m1
     /\ get_region_metric leb obs (of_count count_unique) "frac" ccf_label
                          default_exclude (Some (of_count count_unique))
                          default_levels = Return m2
     /\ get_region_metric leb obs count_unique_norm "count_norm2cells"
                          ccf_label default_exclude None default_levels
        = Return m3
     /\ get_region_metric leb obs (of_count count_gt5) "count_gt5" ccf_label
                          default_exclude None default_levels = Return m4
     /\ get_region_metric leb obs (of_count count_gt5) "frac_gt5" ccf_label
                          default_exclude (Some (of_count count_unique))
                          default_levels = Return m5
     /\ get_region_metric leb obs (of_float inverse_simpsons_index)
                          "inverse_simpsons" ccf_label default_exclude None
                          default_levels = Return m6
     /\ get_region_metric leb obs (of_float (shannon_index log2))
                          "shannon_index" ccf_label default_exclude None
                          default_levels = Return m7)
    /\ T = assign_counts
             (concat_axis1 [m1; m2; m3; m4; m5; m6; m7]) "count_cells"
             (value_counts (column obs ccf_label)).
Proof.
  intros H. unfold calculate_diversity_metrics in H.
  destruct (get_region_metric leb obs (of_count count_unique) "count" _ _ _ _)
    as [m1|] eqn:E1; cbn [Py.bind] in H; [|discriminate].
  destruct (get_region_metric leb obs (of_count count_unique) "frac" _ _ _ _)
    as [m2|] eqn:E2; cbn [Py.bind] in H; [|discriminate].
  destruct (get_region_metric leb obs count_unique_norm _ _ _ _ _)
    as [m3|] eqn:E3; cbn [Py.bind] in H; [|discriminate].
  destruct (get_region_metric leb obs (of_count count_gt5) "count_gt5" _ _ _ _)
    as [m4|] eqn:E4; cbn [Py.bind] in H; [|discriminate].
  destruct (get_region_metric leb obs (of_count count_gt5) "frac_gt5" _ _ _ _)
    as [m5|] eqn:E5; cbn [Py.bind] in H; [|discriminate].
  destruct (get_region_metric leb obs (of_float inverse_simpsons_index) _ _ _ _ _)
    as [m6|] eqn:E6; cbn [Py.bind] in H; [|discriminate].
  destruct (get_region_metric leb obs (of_float (shannon_index log2)) _ _ _ _ _)
    as [m7|] eqn:E7; cbn [Py.bind] in H; [|discriminate].
  injection H as <-.
  exists m1, m2, m3, m4, m5, m6, m7. repeat split; reflexivity.
Qed.

(** The columns of a table of all metrics, whatever its rows. *)
Lemma diversity_metrics_columns (obs : Table) (ccf_label : string)
  (T : Frame Np.float) :
  calculate_diversity_metrics leb log2 obs ccf_label = Return T ->
  columns T = metrics_columns.
Proof.
  intros H.
  destruct (@diversity_metrics_frames _ _ _ H)
    as (m1 & m2 & m3 & m4 & m5 & m6 & m7
        & (E1 & E2 & E3 & E4 & E5 & E6 & E7) & ->).
  pose proof (@get_region_metric_inv leb _ _ _ _ _ _ _ _ E1) as [_ [C1 _]].
  pose proof (@get_region_metric_inv leb _ _ _ _ _ _ _ _ E2) as [_ [C2 _]].
  pose proof (@get_region_metric_inv leb _ _ _ _ _ _ _ _ E3) as [_ [C3 _]].
  pose proof (@get_region_metric_inv leb _ _ _ _ _ _ _ _ E4) as [_ [C4 _]].
  pose proof (@get_region_metric_inv leb _ _ _ _ _ _ _ _ E5) as [_ [C5 _]].
  pose proof (@get_region_metric_inv leb _ _ _ _ _ _ _ _ E6) as [_ [C6 _]].
  pose proof (@get_region_metric_inv leb _ _ _ _ _ _ _ _ E7) as [_ [C7 _]].
  rewrite assign_counts_columns. unfold concat_axis1.
  cbn [columns map List.concat].
  rewrite C1, C2, C3, C4, C5, C6, C7. reflexivity.
Qed.

(** The row of a region that is not excluded in the table of all metrics:
    the rows of the seven tables one after the other, then the number of
    cells. *)
Lemma diversity_metrics_row (obs : Table) (ccf_label : string)
  (T : Frame Np.float) (r : label) :
  calculate_diversity_metrics leb log2 obs ccf_label = Return T ->
  In r (values (column obs ccf_label)) -> ~ In r default_exclude ->
  In r (index T)
  /\ columns T = metrics_columns
  /\ exists rows7 : list (list Np.float),
       Forall2 (fun spec row =>
                  Forall2 (metric_cell (snd (fst spec)) (snd spec) obs
                                       ccf_label r)
                          default_levels row)
               (region_metrics log2) rows7
       /\ frame_row T r
          = Some (List.concat rows7
                  ++ [Np.of_nat (cells_in_region obs ccf_label r)]).
Proof.
  intros H Hocc Hex.
  pose proof (@diversity_metrics_columns _ _ _ H) as Hcols.
  destruct (@diversity_metrics_frames _ _ _ H)
    as (m1 & m2 & m3 & m4 & m5 & m6 & m7
        & (E1 & E2 & E3 & E4 & E5 & E6 & E7) & HT).
  pose proof (@get_region_metric_inv leb _ _ _ _ _ _ _ _ E1) as [I1 [C1 D1]].
  pose proof (@get_region_metric_inv leb _ _ _ _ _ _ _ _ E2) as [I2 [C2 D2]].
  pose proof (@get_region_metric_inv leb _ _ _ _ _ _ _ _ E3) as [I3 [C3 D3]].
  pose proof (@get_region_metric_inv leb _ _ _ _ _ _ _ _ E4) as [I4 [C4 D4]].
  pose proof (@get_region_metric_inv leb _ _ _ _ _ _ _ _ E5) as [I5 [C5 D5]].
  pose proof (@get_region_metric_inv leb _ _ _ _ _ _ _ _ E6) as [I6 [C6 D6]].
  pose proof (@get_region_metric_inv leb _ _ _ _ _ _ _ _ E7) as [I7 [C7 D7]].
  set (K := group_keys leb (kept obs ccf_label default_exclude) ccf_label) in *.
  assert (HK : In r K) by (apply kept_keys_In; auto).
  assert (Hr : In r (index (concat_axis1 [m1; m2; m3; m4; m5; m6; m7]))).
  { unfold concat_axis1. cbn [index map List.concat].
    apply distinct_In. rewrite I1. apply in_or_app. now left. }
  rewrite assign_counts_rows in HT
    by (intros Heq; rewrite Heq in Hr; exact Hr).
  split; [rewrite HT; exact Hr|]. split; [exact Hcols|]. clear Hcols.
  subst T.
  rewrite <- I1 in HK.
  destruct (@assoc_Forall2 _ _ _ _ r D1 HK) as [r1 [R1 F1]].
  rewrite I1, <- I2 in HK.
  destruct (@assoc_Forall2 _ _ _ _ r D2 HK) as [r2 [R2 F2]].
  rewrite I2, <- I3 in HK.
  destruct (@assoc_Forall2 _ _ _ _ r D3 HK) as [r3 [R3 F3]].
  rewrite I3, <- I4 in HK.
  destruct (@assoc_Forall2 _ _ _ _ r D4 HK) as [r4 [R4 F4]].
  rewrite I4, <- I5 in HK.
  destruct (@assoc_Forall2 _ _ _ _ r D5 HK) as [r5 [R5 F5]].
  rewrite I5, <- I6 in HK.
  destruct (@assoc_Forall2 _ _ _ _ r D6 HK) as [r6 [R6 F6]].
  rewrite I6, <- I7 in HK.
  destruct (@assoc_Forall2 _ _ _ _ r D7 HK) as [r7 [R7 F7]].
  exists [r1; r2; r3; r4; r5; r6; r7]. split.
  { unfold region_metrics. repeat constructor; assumption. }
  unfold frame_row at 1.
  unfold concat_axis1. cbn [index columns data].
  rewrite zip_with_map_r.
  rewrite assoc_map by exact Hr.
  cbn [map List.concat]. fold (frame_row m1 r). fold (frame_row m2 r).
  fold (frame_row m3 r). fold (frame_row m4 r). fold (frame_row m5 r).
  fold (frame_row m6 r). fold (frame_row m7 r).
  unfold frame_row. rewrite R1, R2, R3, R4, R5, R6, R7.
  unfold value_counts.
  rewrite (assoc_pairs (fun c => count_occ label_dec
                                   (values (column obs ccf_label)) c))
    by (apply distinct_In, in_or_app; now left).
  fold (occurrences (column obs ccf_label) r). rewrite count_occ_region.
  reflexivity.
Qed.

End AllMetrics.

Ltac invert_rows :=
  repeat match goal with
         | H : Forall2 _ (_ :: _) _ |- _ => inversion H; subst; clear H
         | H : Forall2 _ [] _ |- _ => inversion H; subst; clear H
         end.

Section AllMetricsCells.

Variable leb : label -> label -> bool.
Variable log2 : Np.float -> Np.float.

Lemma diversity_metrics_index (obs : Table) (ccf_label : string)
  (T : Frame Np.float) :
  calculate_diversity_metrics leb log2 obs ccf_label = Return T ->
  (exists r, In r (values (column obs ccf_label))
             /\ ~ In r default_exclude) ->
  NoDup (index T)
  /\ List.length (data T) = List.length (index T)
  /\ forall r, In r (index T)
               <-> In r (values (column obs ccf_label))
                   /\ ~ In r default_exclude.
Proof.
  intros H [r0 [Hocc Hex]].
  destruct (@diversity_metrics_frames leb log2 _ _ _ H)
    as (m1 & m2 & m3 & m4 & m5 & m6 & m7
        & (E1 & E2 & E3 & E4 & E5 & E6 & E7) & ->).
  pose proof (@get_region_metric_inv leb _ _ _ _ _ _ _ _ E1) as [I1 _].
  pose proof (@get_region_metric_inv leb _ _ _ _ _ _ _ _ E2) as [I2 _].
  pose proof (@get_region_metric_inv leb _ _ _ _ _ _ _ _ E3) as [I3 _].
  pose proof (@get_region_metric_inv leb _ _ _ _ _ _ _ _ E4) as [I4 _].
  pose proof (@get_region_metric_inv leb _ _ _ _ _ _ _ _ E5) as [I5 _].
  pose proof (@get_region_metric_inv leb _ _ _ _ _ _ _ _ E6) as [I6 _].
  pose proof (@get_region_metric_inv leb _ _ _ _ _ _ _ _ E7) as [I7 _].
  assert (Hr0 : In r0 (index (concat_axis1 [m1; m2; m3; m4; m5; m6; m7]))).
  { unfold concat_axis1. cbn [index map List.concat].
    apply distinct_In. rewrite I1. apply in_or_app. left.
    apply kept_keys_In. auto. }
  rewrite assign_counts_rows by (intros Heq; rewrite Heq in Hr0; exact Hr0).
  clear Hr0. unfold concat_axis1. cbn [index columns data map List.concat].
  split; [apply distinct_NoDup|].
  split; [rewrite zip_with_map_r; now rewrite !length_map|].
  intros r. rewrite distinct_In, I1, I2, I3, I4, I5, I6, I7.
  rewrite <- (kept_keys_In leb obs ccf_label default_exclude r).
  rewrite !in_app_iff. simpl. tauto.
Qed.

(** X12: on an observation table with a row that is not excluded,
    [calculate_diversity_metrics] returns a table. Its columns are the 21
    columns ["<metric>_<level>"] followed by [count_cells], and its index
    lists, each once, the regions of the observation table other than
    [unassigned] and [TH-unassigned], one row for each. *)
Theorem calculate_diversity_metrics_table (obs : Table) (ccf_label : string) :
  (exists r, In r (values (column obs ccf_label))
             /\ r <> "unassigned"%string /\ r <> "TH-unassigned"%string) ->
  exists T,
    calculate_diversity_metrics leb log2 obs ccf_label = Return T
    /\ columns T = metrics_columns
    /\ NoDup (index T)
    /\ List.length (data T) = List.length (index T)
    /\ forall r, In r (index T)
                 <-> In r (values (column obs ccf_label))
                     /\ r <> "unassigned"%string
                     /\ r <> "TH-unassigned"%string.
Proof.
  intros [r0 [Hocc [Hu Ht]]].
  assert (Hkept : exists r, In r (values (column obs ccf_label))
                            /\ ~ In r default_exclude).
  { exists r0. split; [exact Hocc|]. unfold default_exclude. simpl.
    intuition congruence. }
  destruct (@calculate_diversity_metrics_returns leb log2 obs ccf_label
              (or_introl Hkept)) as [T HT].
  exists T. split; [exact HT|].
  split; [exact (@diversity_metrics_columns leb log2 _ _ _ HT)|].
  destruct (@diversity_metrics_index _ _ _ HT Hkept) as [Hn [Hl Hi]].
  repeat (split; [assumption|]).
  intros r. rewrite Hi. unfold default_exclude. simpl.
  intuition congruence.
Qed.

Lemma diversity_metrics_cell (obs : Table) (ccf_label : string)
  (T : Frame Np.float) (r : label) (lv metric_name : string)
  (function : statistic) (norm_fcn : option statistic) :
  calculate_diversity_metrics leb log2 obs ccf_label = Return T ->
  In r (values (column obs ccf_label)) -> ~ In r default_exclude ->
  In (metric_name, function, norm_fcn) (region_metrics log2) ->
  In lv default_levels ->
  exists v,
    frame_at T r (metric_name ++ "_" ++ lv)%string = Some v
    /\ metric_cell function norm_fcn obs ccf_label r lv v.
Proof.
  intros H Hocc Hex Hm Hlv.
  destruct (@diversity_metrics_row leb log2 _ _ _ _ H Hocc Hex)
    as [_ [Hcols [rows7 [Hrows Hrow]]]].
  unfold frame_at. rewrite Hrow, Hcols. clear Hrow Hcols H Hocc Hex.
  unfold region_metrics, default_levels in *.
  invert_rows. cbn [fst snd] in *.
  simpl in Hm, Hlv.
  repeat (destruct Hm as [Hm|Hm]; [injection Hm as <- <- <-|]);
    try contradiction;
    (destruct Hlv as [<-|[<-|[<-|[]]]];
     (eexists; split; [reflexivity | eassumption])).
Qed.

Lemma diversity_metrics_count_cells (obs : Table) (ccf_label : string)
  (T : Frame Np.float) (r : label) :
  calculate_diversity_metrics leb log2 obs ccf_label = Return T ->
  In r (values (column obs ccf_label)) -> ~ In r default_exclude ->
  frame_at T r "count_cells"
  = Some (Np.of_nat (cells_in_region obs ccf_label r)).
Proof.
  intros H Hocc Hex.
  destruct (@diversity_metrics_row leb log2 _ _ _ _ H Hocc Hex)
    as [_ [Hcols [rows7 [Hrows Hrow]]]].
  unfold frame_at. rewrite Hrow, Hcols. clear Hrow Hcols H Hocc Hex.
  unfold region_metrics, default_levels in *.
  invert_rows. reflexivity.
Qed.

(** X13: in the table of [calculate_diversity_metrics], every metric cell
    of a region that occurs in the observation table and is not excluded
    is the statistic of its column applied to the labels of the rows of
    the region at its level, divided, for the two [frac] metrics, by
    [count_unique] of the whole column of the level. *)
Theorem calculate_diversity_metrics_cell (obs : Table) (ccf_label : string)
  (T : Frame Np.float) (r : label) (lv metric_name : string)
  (function : statistic) (norm_fcn : option statistic) :
  calculate_diversity_metrics leb log2 obs ccf_label = Return T ->
  In r (values (column obs ccf_label)) -> ~ In r default_exclude ->
  In (metric_name, function, norm_fcn) (region_metrics log2) ->
  In lv default_levels ->
  exists m,
    function (column (region_rows obs ccf_label r) lv) = Return m
    /\ match norm_fcn with
       | None => frame_at T r (metric_name ++ "_" ++ lv)%string = Some m
       | Some norm =>
           exists n, norm (column obs lv) = Return n
                     /\ frame_at T r (metric_name ++ "_" ++ lv)%string
                        = Some (Np.div m n)
       end.
Proof.
  intros H Hocc Hex Hm Hlv.
  destruct (@diversity_metrics_cell _ _ _ _ _ _ _ _ H Hocc Hex Hm Hlv)
    as [v [Hv [m [Hf Hn]]]].
  exists m. split; [exact Hf|].
  destruct norm_fcn as [norm|].
  - destruct Hn as [n [Hn ->]]. eauto.
  - now subst v.
Qed.

End AllMetricsCells.

Section AllMetricsBounds.

Variable leb : label -> label -> bool.
Variable log2 : Np.float -> Np.float.

Lemma region_sample_nonempty (obs : Table) (ccf_label : string) (r : label)
  (lv : string) :
  In r (values (column obs ccf_label)) ->
  values (column (region_rows obs ccf_label r) lv) <> [].
Proof.
  intros Hr. pose proof (cells_in_region_pos _ _ _ Hr) as Hpos.
  rewrite <- (region_sample_length obs ccf_label r lv) in Hpos.
  unfold len in Hpos. intros Heq. rewrite Heq in Hpos. simpl in Hpos. lia.
Qed.

(** X14: in the row of a region that occurs in the observation table and
    is not excluded, [count_cells] is the number of cells of the region,
    which is at least 1; [count_<level>] lies between 1 and [count_cells];
    six times [count_gt5_<level>] is at most [count_cells]; and
    [count_norm2cells_<level>] is [count_<level>] divided by
    [count_cells]. *)
Theorem calculate_diversity_metrics_counts (obs : Table) (ccf_label : string)
  (T : Frame Np.float) (r : label) (lv : string) :
  calculate_diversity_metrics leb log2 obs ccf_label = Return T ->
  In r (values (column obs ccf_label)) -> ~ In r default_exclude ->
  In lv default_levels ->
  exists (u g : nat) (q : Q),
    frame_at T r "count_cells"
    = Some (Np.of_nat (cells_in_region obs ccf_label r))
    /\ 1 <= cells_in_region obs ccf_label r
    /\ frame_at T r ("count_" ++ lv)%string = Some (Np.of_nat u)
    /\ 1 <= u /\ u <= cells_in_region obs ccf_label r
    /\ frame_at T r ("count_gt5_" ++ lv)%string = Some (Np.of_nat g)
    /\ 6 * g <= cells_in_region obs ccf_label r
    /\ frame_at T r ("count_norm2cells_" ++ lv)%string = Some (Np.Fin q)
    /\ (q == Qnat u / Qnat (cells_in_region obs ccf_label r))%Q.
Proof.
  intros H Hobs Hex Hlv.
  set (x := column (region_rows obs ccf_label r) lv).
  pose proof (region_sample_length obs ccf_label r lv) as Hlen. fold x in Hlen.
  pose proof (region_sample_nonempty obs ccf_label r lv Hobs) as Hne.
  fold x in Hne.
  destruct (@diversity_metrics_cell leb log2 _ _ _ r lv "count"
              (of_count count_unique) None H Hobs Hex) as [v1 [A1 [m1 [F1 ->]]]];
    [simpl; auto | assumption |].
  destruct (@diversity_metrics_cell leb log2 _ _ _ r lv "count_gt5"
              (of_count count_gt5) None H Hobs Hex) as [v2 [A2 [m2 [F2 ->]]]];
    [simpl; auto 10 | assumption |].
  destruct (@diversity_metrics_cell leb log2 _ _ _ r lv "count_norm2cells"
              count_unique_norm None H Hobs Hex) as [v3 [A3 [m3 [F3 ->]]]];
    [simpl; auto 10 | assumption |].
  fold x in F1, F2, F3.
  unfold of_count in F1, F2. injection F1 as <-. injection F2 as <-.
  exists (count_unique x), (count_gt5 x),
         (Qnat (count_unique x) / Qnat (len x))%Q.
  split; [exact (@diversity_metrics_count_cells leb log2 _ _ _ r H Hobs Hex)|].
  split; [exact (cells_in_region_pos _ _ _ Hobs)|].
  split; [exact A1|].
  split; [exact (count_unique_pos x Hne)|].
  split; [rewrite <- Hlen; unfold count_unique, unique, len;
          apply distinct_length_le|].
  split; [exact A2|].
  split; [rewrite <- Hlen; apply six_count_gt5_le_len|].
  split; [|now rewrite Hlen].
  etransitivity; [exact A3|]. f_equal.
  unfold count_unique_norm in F3.
  destruct (Nat.eqb_spec (len x) 0) as [Hz|_]; [|now injection F3 as <-].
  pose proof (cells_in_region_pos _ _ _ Hobs). lia.
Qed.

(** X31: [count_unique] is monotone under inclusion of samples, and in the
    row of a region that occurs in the observation table and is not
    excluded, the cells of the columns [frac_<level>] and
    [frac_gt5_<level>], which are normalised by [count_unique] of the whole
    column, are finite numbers between 0 and 1. *)
Theorem calculate_diversity_metrics_frac_bounds (obs : Table)
  (ccf_label : string) (T : Frame Np.float) (r : label) (lv : string) :
  calculate_diversity_metrics leb log2 obs ccf_label = Return T ->
  In r (values (column obs ccf_label)) -> ~ In r default_exclude ->
  In lv default_levels ->
  (forall x y : Series,
      incl (values x) (values y) -> count_unique x <= count_unique y)
  /\ exists q1 q2 : Q,
       frame_at T r ("frac_" ++ lv)%string = Some (Np.Fin q1)
       /\ (0 <= q1)%Q /\ (q1 <= 1)%Q
       /\ frame_at T r ("frac_gt5_" ++ lv)%string = Some (Np.Fin q2)
       /\ (0 <= q2)%Q /\ (q2 <= 1)%Q.
Proof.
  intros H Hobs Hex Hlv. split; [exact count_unique_monotone|].
  destruct (@diversity_metrics_cell leb log2 _ _ _ r lv "frac"
              (of_count count_unique) (Some (of_count count_unique))
              H Hobs Hex) as [v1 [A1 M1]];
    [simpl; auto | assumption |].
  destruct (@diversity_metrics_cell leb log2 _ _ _ r lv "frac_gt5"
              (of_count count_gt5) (Some (of_count count_unique))
              H Hobs Hex) as [v2 [A2 M2]];
    [simpl; auto 10 | assumption |].
  assert (Hle : forall x, count_unique x <= count_unique x)
    by (intros; lia).
  destruct (@frac_cell_le_1 count_unique _ _ _ _ _ Hle Hobs M1)
    as [q1 [-> [L1 U1]]].
  destruct (@frac_cell_le_1 count_gt5 _ _ _ _ _ count_gt5_le_count_unique
              Hobs M2) as [q2 [-> [L2 U2]]].
  exists q1, q2. repeat split; assumption.
Qed.

(** X32: when every row of the observation table lies in an excluded
    region and the three level columns are categorical,
    [calculate_diversity_metrics] raises [TypeError]: the frame of the
    metric [frac] has no rows, its columns are categorical, and they cannot
    be divided by the norms. *)
Theorem calculate_diversity_metrics_type_error (obs : Table)
  (ccf_label : string) :
  (forall r, In r (values (column obs ccf_label)) -> In r default_exclude) ->
  (forall lv, In lv default_levels -> is_categorical obs lv = true) ->
  calculate_diversity_metrics leb log2 obs ccf_label = Raise TypeError.
Proof.
  intros Hall Hcat.
  pose proof (@kept_keys_nil leb obs ccf_label default_exclude Hall) as HK.
  unfold calculate_diversity_metrics.
  rewrite (@get_region_metric_no_row leb obs (of_count count_unique) "count"
             ccf_label default_exclude None default_levels HK);
    [| discriminate | left; reflexivity].
  rewrite (@get_region_metric_type_error leb obs (of_count count_unique)
             (of_count count_unique) "frac" ccf_label default_exclude
             default_levels HK).
  - reflexivity.
  - intros lv. eexists. reflexivity.
  - unfold default_levels. cbn [existsb].
    rewrite (Hcat "cluster"%string) by (simpl; auto). reflexivity.
Qed.

End AllMetricsBounds.

(* ------------------------------------------------------------------ *)
(** * Further properties of the local metric engine *)

Lemma mapM_all_return {A B : Type} (f : A -> Py.result B) (g : A -> B)
  (l : list A) :
  (forall a, In a l -> f a = Return (g a)) -> Py.mapM f l = Return (map g l).
Proof.
  induction l as [|a l IH]; simpl; intros H; [reflexivity|].
  rewrite (H a (or_introl eq_refl)). simpl. rewrite IH by auto. reflexivity.
Qed.

Lemma mapM_fails {A B : Type} (f : A -> Py.result B) (l : list A) (a : A)
  (e : Py.exn) :
  In a l -> f a = Raise e -> fails (Py.mapM f l).
Proof.
  intros Hin Ha. destruct (Py.mapM f l) as [ys|e'] eqn:E; [|now exists e'].
  apply mapM_inv in E. destruct (In_nth_error _ _ Hin) as [j Hj].
  destruct (@Forall2_nth_error_l _ _ _ _ _ j _ E Hj) as [y [_ Hy]]. congruence.
Qed.

Lemma mapM_raises_only {A B : Type} (f : A -> Py.result B) (l : list A)
  (a : A) (e : Py.exn) :
  (forall x e', f x = Raise e' -> e' = e) ->
  In a l -> f a = Raise e -> Py.mapM f l = Raise e.
Proof.
  intros Honly Hin Ha. induction l as [|b l IH]; simpl; [destruct Hin|].
  destruct (f b) as [y|e'] eqn:Eb; simpl.
  - destruct Hin as [->|Hin]; [congruence|]. now rewrite (IH Hin).
  - f_equal. eapply Honly. exact Eb.
Qed.

Lemma iloc_rows (obs : Table) (positions : list nat) :
  (forall j, In j positions -> j < List.length (rows obs)) ->
  exists rs,
    iloc obs positions = Return (mkTable rs (dtype_categories obs))
    /\ Forall2 (fun j row => nth_error (rows obs) j = Some row) positions rs.
Proof.
  intros Hvalid. unfold iloc.
  destruct (@mapM_returns _ _
              (fun j => match nth_error (rows obs) j with
                        | Some r => Return r
                        | None => Raise IndexError
                        end) positions) as [rs Hrs].
  { intros j Hj. apply Hvalid, nth_error_Some in Hj.
    destruct (nth_error (rows obs) j); [eauto | congruence]. }
  exists rs. rewrite Hrs. split; [reflexivity|].
  apply mapM_inv in Hrs. eapply Forall2_weaken; [|exact Hrs].
  intros j row H. simpl in H.
  destruct (nth_error (rows obs) j); congruence.
Qed.

(** X16: for a cell whose neighbours all carry the same label at every
    level, the record of [count_unique] is 1 at every level. *)
Theorem calculate_function_locally_identical_labels (i : nat) (obs : Table)
  (neighbors : list (list nat)) (levels : list string) (ps : list nat) :
  nth_error neighbors i = Some ps -> ps <> [] ->
  (forall j, In j ps -> j < List.length (rows obs)) ->
  (forall lv, In lv levels ->
     exists c, forall j row, In j ps -> nth_error (rows obs) j = Some row ->
                             cell row lv = c) ->
  calculate_function_locally i obs neighbors levels (of_count count_unique)
  = Return (map (fun _ => Np.of_nat 1) levels).
Proof.
  intros Hps Hne Hvalid Hsame. unfold calculate_function_locally.
  rewrite Hps. simpl.
  destruct (iloc_rows obs ps Hvalid) as [rs [-> Hrs]]. simpl.
  apply mapM_all_return. intros lv Hlv. unfold of_count. do 2 f_equal.
  set (x := column (mkTable rs (dtype_categories obs)) lv).
  assert (Hx : values x <> []).
  { unfold x, column. simpl. destruct Hrs; [congruence | discriminate]. }
  pose proof (count_unique_pos x Hx) as Hpos.
  assert (Hle : count_unique x <= 1).
  { apply count_unique_le_1. destruct (Hsame lv Hlv) as [c Hc].
    assert (Hall : forall a, In a (values x) -> a = c).
    { unfold x, column. simpl. intros a Ha. apply in_map_iff in Ha.
      destruct Ha as [row [<- Hrow]].
      destruct (In_nth_error _ _ Hrow) as [k Hk].
      assert (Hk' : exists j, nth_error ps k = Some j
                              /\ nth_error (rows obs) j = Some row).
      { clear -Hrs Hk. revert k Hk.
        induction Hrs as [|j r0 ps rs Hj _ IH]; intros [|k] Hk; simpl in *;
          try discriminate.
        - injection Hk as <-. eauto.
        - now apply IH. }
      destruct Hk' as [j [Hj Hrowj]].
      apply (Hc j row); [now apply nth_error_In in Hj | assumption]. }
    intros a b Ha Hb. rewrite (Hall a Ha), (Hall b Hb). reflexivity. }
  lia.
Qed.

(** X17: [calculate_function_locally] raises [IndexError], whatever the
    statistic, when there is no list of neighbours for the cell or when a
    neighbour position lies beyond the last row of the table. *)
Theorem calculate_function_locally_index_error (i : nat) (obs : Table)
  (neighbors : list (list nat)) (levels : list string) (function : statistic) :
  (List.length neighbors <= i
   \/ exists ps j, nth_error neighbors i = Some ps /\ In j ps
                   /\ List.length (rows obs) <= j) ->
  calculate_function_locally i obs neighbors levels function
  = Raise IndexError.
Proof.
  unfold calculate_function_locally. intros [Hi|[ps [j [Hps [Hj Hout]]]]].
  - apply nth_error_None in Hi. now rewrite Hi.
  - rewrite Hps. simpl. unfold iloc.
    rewrite (@mapM_raises_only _ _ _ ps j IndexError); [reflexivity | | exact Hj |].
    + intros k e' Hk. destruct (nth_error (rows obs) k); congruence.
    + apply nth_error_None in Hout. now rewrite Hout.
Qed.

Section LocalEngineMore.

Variable kneighbors : list (list Q) -> nat -> Py.result (list (list nat)).

(** X18: the engine fails as a whole when the record of one cell cannot be
    computed: there is no table with the other cells. *)
Theorem calculate_local_diversity_metric_fails_as_a_whole (obs : Table)
  (function : statistic) (metric_name : string) (n_neighbors : nat)
  (levels : list string) (neighbors : list (list nat)) (i : nat)
  (e : Py.exn) :
  kneighbors (map (fun r => map (coord r) neigh_coords) (rows obs))
             n_neighbors = Return neighbors ->
  i < List.length (rows obs) ->
  calculate_function_locally i obs neighbors levels function = Raise e ->
  fails (calculate_local_diversity_metric kneighbors obs function metric_name
                                          n_neighbors levels).
Proof.
  intros Hk Hi He. unfold calculate_local_diversity_metric. rewrite Hk. simpl.
  destruct (@mapM_fails _ _
              (fun i0 => calculate_function_locally i0 obs neighbors levels
                           function)
              (seq 0 (List.length (rows obs))) i e) as [e' ->];
    [apply in_seq; lia | exact He |].
  simpl. now exists e'.
Qed.

(** X19: when some index label of the observation table is not the name of
    a level, the returned table keeps the index of the observation table
    in its order, has one row per cell, and its columns are named
    ["local_<metric_name>_<level>"], one cell per level in every row. *)
Theorem calculate_local_diversity_metric_shape (obs : Table)
  (function : statistic) (metric_name : string) (n_neighbors : nat)
  (levels : list string) (T : RecordsFrame) (l : label) :
  In l (table_index obs) -> ~ In l levels ->
  calculate_local_diversity_metric kneighbors obs function metric_name
                                   n_neighbors levels = Return T ->
  rec_index T = map Label (table_index obs)
  /\ List.length (rec_data T) = List.length (rows obs)
  /\ rec_columns T
     = map (fun lv => ("local_" ++ metric_name ++ "_" ++ lv)%string) levels
  /\ Forall (fun row => List.length row = List.length levels) (rec_data T).
Proof.
  intros Hl Hn H.
  destruct (@calculate_local_diversity_metric_index_of_labels kneighbors _ _ _
              _ _ _ _ Hl Hn H) as [Hidx [Hlen [neighbors [_ Hrows]]]].
  split; [exact Hidx|]. split; [exact Hlen|]. split.
  - unfold calculate_local_diversity_metric in H.
    destruct (kneighbors _ n_neighbors) as [nb|]; simpl in H; [|discriminate].
    destruct (Py.mapM _ (seq 0 _)) as [results|] eqn:Eres; simpl in H;
      [|discriminate].
    destruct (from_records results (table_index obs) levels) as [records|]
      eqn:Erec; simpl in H; [|discriminate].
    injection H as <-. cbn [rec_columns]. f_equal.
    apply mapM_inv, Forall2_length_eq in Eres. rewrite length_seq in Eres.
    unfold from_records in Erec. cbv zeta in Erec.
    destruct results as [|rec0 results].
    { unfold table_index in Hl. destruct (rows obs); [destruct Hl|].
      simpl in Eres. discriminate. }
    pose proof (field_positions_None _ _ _ Hl Hn) as Hfp.
    destruct (table_index obs) as [|l0 idx]; [destruct Hl|].
    rewrite Hfp in Erec.
    destruct (Nat.eqb _ _); [|discriminate]. now injection Erec as <-.
  - apply Forall_forall. intros row Hrow.
    destruct (In_nth_error _ _ Hrow) as [i Hi].
    specialize (Hrows i row Hi). unfold calculate_function_locally in Hrows.
    destruct (nth_error neighbors i); simpl in Hrows; [|discriminate].
    destruct (iloc obs _); simpl in Hrows; [|discriminate].
    apply mapM_inv, Forall2_length_eq in Hrows. congruence.
Qed.

End LocalEngineMore.

(* ------------------------------------------------------------------ *)
(** * Further properties of the proportion aggregation *)

Lemma select_In {A : Type} (keep : list bool) (l : list A) (x : A) :
  In x (select keep l) -> In x l.
Proof.
  unfold select. intros H. apply in_map_iff in H.
  destruct H as [[k y] [<- Hin]]. apply filter_In in Hin.
  destruct Hin as [Hin _]. now apply in_combine_r in Hin.
Qed.

(** The item at a position of a selection, in the list it was selected
    from; other lists of that length are selected at the same positions. *)
Lemma select_nth_error {A : Type} (keep : list bool) (l : list A) (j : nat)
  (x : A) :
  nth_error (select keep l) j = Some x ->
  exists j0,
    nth_error keep j0 = Some true /\ nth_error l j0 = Some x
    /\ forall (B : Type) (m : list B),
         List.length m = List.length l ->
         nth_error (select keep m) j = nth_error m j0.
Proof.
  unfold select. revert l j.
  induction keep as [|k keep IH]; intros [|a l] j H; simpl in *;
    try (destruct j; discriminate).
  destruct k; simpl in *.
  - destruct j as [|j]; simpl in *.
    + injection H as <-. exists 0. repeat split.
      intros B [|b m] Hm; simpl in *; [discriminate | reflexivity].
    + destruct (IH l j H) as [j0 [Hk [Hl Hm]]]. exists (S j0). repeat split;
        try assumption.
      intros B [|b m] Hlen; simpl in *; [discriminate|].
      apply Hm. lia.
  - destruct (IH l j H) as [j0 [Hk [Hl Hm]]]. exists (S j0). repeat split;
      try assumption.
    intros B [|b m] Hlen; simpl in *; [discriminate|].
    apply Hm. lia.
Qed.

Lemma Zsum_ge (l : list Z) (x : Z) :
  Forall (fun c => (0 <= c)%Z) l -> In x l -> (x <= Zsum l)%Z.
Proof.
  unfold Zsum. induction 1 as [|c l Hc Hl IH]; simpl; [tauto|].
  assert (Hnn : (0 <= fold_right Z.add 0 l)%Z).
  { clear IH. induction Hl; simpl; lia. }
  intros [->|Hin]; [lia|]. specialize (IH Hin). lia.
Qed.

Lemma skipna_sum_nonneg (l : list (option Z)) :
  Forall (fun c => match c with Some n => (0 <= n)%Z | None => True end) l ->
  (0 <= skipna_sum l)%Z.
Proof.
  unfold skipna_sum. induction 1 as [|c l Hc _ IH]; simpl; [lia|].
  destruct c; lia.
Qed.

Lemma masked_row_nonneg (row : list Z) (mask : list bool) :
  Forall (fun c => (0 <= c)%Z) row ->
  Forall (fun c => match c with Some n => (0 <= n)%Z | None => True end)
         (zip_with (fun c m => masked m c) row mask).
Proof.
  intros H. revert mask. induction H as [|c row Hc _ IH]; intros [|m mask];
    simpl; constructor; [destruct m; simpl; auto | apply IH].
Qed.

Lemma consolidate_row_nonneg (row : list Z) (mask : list bool) :
  Forall (fun c => (0 <= c)%Z) row ->
  Forall (fun c => (0 <= c)%Z) (consolidate_row mask row).
Proof.
  intros H. unfold consolidate_row. rewrite map_app. apply Forall_app. split.
  - pose proof (masked_row_nonneg (map negb mask) H) as Hm.
    induction Hm as [|c l Hc _ IH]; simpl; constructor; [|exact IH].
    destruct c; simpl; [assumption | lia].
  - simpl. constructor; [|constructor].
    apply skipna_sum_nonneg, masked_row_nonneg, H.
Qed.

Section ProportionsMore.

Variable leb : label -> label -> bool.

(** The table of counts, cell by cell. *)
Lemma crosstab_explicit (obs : Table) (ccf_label taxonomy_level : string) :
  data (crosstab leb obs ccf_label taxonomy_level)
  = map (fun r => map (fun c => Z.of_nat (pair_count obs ccf_label
                                            taxonomy_level r c))
                      (columns (crosstab leb obs ccf_label taxonomy_level)))
        (index (crosstab leb obs ccf_label taxonomy_level)).
Proof.
  unfold crosstab, unstack. cbn [index columns data].
  apply map_ext. intros r. apply map_ext. intros c.
  unfold groupby2_size.
  set (F := fun k : label * label =>
              Z.of_nat (List.length
                (filter (fun r0 => String.eqb (cell r0 ccf_label) (fst k)
                                   && String.eqb (cell r0 taxonomy_level) (snd k))
                        (rows obs)))).
  set (keys := distinct pair_dec
                 (map (fun r0 => (cell r0 ccf_label, cell r0 taxonomy_level))
                      (rows obs))).
  change (match assoc2 r c (map (fun k => (k, F k)) keys) with
          | Some n => n
          | None => 0%Z
          end = F (r, c)).
  destruct (assoc2 r c (map (fun k => (k, F k)) keys)) as [v|] eqn:Ev.
  - now apply assoc2_map_Some in Ev.
  - destruct (in_dec pair_dec (r, c) keys) as [Hin|Hout].
    + rewrite (assoc2_map_In F _ _ _ Hin) in Ev. discriminate.
    + unfold F. simpl.
      destruct (filter _ (rows obs)) as [|row rs] eqn:Ef; [reflexivity|].
      exfalso. apply Hout. unfold keys. apply distinct_In.
      assert (Hrow : In row (filter
                 (fun r0 => String.eqb (cell r0 ccf_label) r
                            && String.eqb (cell r0 taxonomy_level) c)
                 (rows obs))) by (rewrite Ef; now left).
      apply filter_In in Hrow. destruct Hrow as [Hrow Hb].
      apply andb_prop in Hb. destruct Hb as [H1 H2].
      apply String.eqb_eq in H1, H2. subst r c.
      now apply (in_map (fun r0 => (cell r0 ccf_label, cell r0 taxonomy_level))).
Qed.

Lemma crosstab_columns_iff (obs : Table) (ccf_label taxonomy_level : string)
  (c : label) :
  In c (columns (crosstab leb obs ccf_label taxonomy_level))
  <-> In c (values (column obs taxonomy_level)).
Proof.
  split; [apply crosstab_columns_In|].
  unfold crosstab, unstack, groupby2_size, column. simpl.
  rewrite map_map. simpl. intros H.
  apply (Permutation_in _ (Permutation_sym (sort_perm leb _))).
  apply distinct_In. apply in_map_iff in H. destruct H as [row [<- Hrow]].
  apply in_map_iff. exists (cell row ccf_label, cell row taxonomy_level).
  split; [reflexivity|]. apply distinct_In.
  now apply (in_map (fun r0 => (cell r0 ccf_label, cell r0 taxonomy_level))).
Qed.

Lemma crosstab_row_total (obs : Table) (ccf_label taxonomy_level : string)
  (r : label) :
  Zsum (map (fun c => Z.of_nat (pair_count obs ccf_label taxonomy_level r c))
            (columns (crosstab leb obs ccf_label taxonomy_level)))
  = Z.of_nat (cells_in_region obs ccf_label r).
Proof.
  set (cols := columns (crosstab leb obs ccf_label taxonomy_level)).
  set (l := map (fun row => cell row taxonomy_level)
                (rows (region_rows obs ccf_label r))).
  assert (Hcount : forall c, pair_count obs ccf_label taxonomy_level r c
                             = count_occ label_dec l c).
  { intros c. unfold pair_count, l, region_rows, loc_rows. simpl.
    induction (rows obs) as [|row rs IH]; simpl; [reflexivity|].
    destruct (String.eqb (cell row ccf_label) r); simpl; [|exact IH].
    destruct (label_dec (cell row taxonomy_level) c) as [Heq|Hne].
    - rewrite (proj2 (String.eqb_eq _ _) Heq). simpl. now rewrite IH.
    - rewrite (proj2 (String.eqb_neq _ _) Hne). exact IH. }
  assert (Hsum : list_sum (map (count_occ label_dec l) cols) = List.length l).
  { apply count_occ_sum.
    - unfold cols, crosstab, unstack. cbn [columns].
      apply (Permutation_NoDup (Permutation_sym (sort_perm leb _))).
      apply distinct_NoDup.
    - intros c Hc. apply crosstab_columns_iff. unfold l in Hc.
      apply in_map_iff in Hc. destruct Hc as [row [<- Hrow]].
      unfold region_rows, loc_rows in Hrow. simpl in Hrow.
      apply filter_In in Hrow.
      apply (in_map (fun row0 => cell row0 taxonomy_level)). tauto. }
  unfold cells_in_region. unfold l in Hsum. rewrite length_map in Hsum.
  rewrite <- Hsum. fold l. clear Hsum.
  unfold Zsum. induction cols as [|c cols IH]; simpl; [reflexivity|].
  rewrite IH, Hcount. lia.
Qed.

End ProportionsMore.

Section ProportionsTable.

Variable leb : label -> label -> bool.
Variable obs : Table.
Variables taxonomy_level ccf_label : string.
Variable min_frac : Q.
Variable min_count : option Z.

(** The categories, the counts of a region, and what the thresholding
    makes of them. *)
Let cols : list string := columns (crosstab leb obs ccf_label taxonomy_level).

Let row0 (r : label) : list Z :=
  map (fun c => Z.of_nat (pair_count obs ccf_label taxonomy_level r c)) cols.

Let row2 (r : label) : list Z :=
  consolidate_row (mask_row min_frac min_count (row0 r)) (row0 r).

Lemma row2_length (r : label) : List.length (row2 r) = S (List.length cols).
Proof.
  unfold row2. rewrite consolidate_row_length by apply mask_row_length.
  unfold row0. now rewrite length_map.
Qed.

Lemma row2_sum (r : label) :
  Zsum (row2 r) = Z.of_nat (cells_in_region obs ccf_label r).
Proof.
  unfold row2. rewrite consolidate_row_sum by apply mask_row_length.
  apply crosstab_row_total.
Qed.

Lemma row2_nonneg (r : label) : Forall (fun c => (0 <= c)%Z) (row2 r).
Proof.
  apply consolidate_row_nonneg. unfold row0. apply Forall_forall.
  intros c Hc. apply in_map_iff in Hc. destruct Hc as [c' [<- _]]. lia.
Qed.

(** The returned table, in terms of the counts of the regions. *)
Lemma proportions_table (T : Frame Np.float) :
  calculate_level_proportions leb obs taxonomy_level ccf_label min_frac
                              min_count = Return T ->
  exists keep : list bool,
    ~ In "other"%string cols
    /\ index T = index (crosstab leb obs ccf_label taxonomy_level)
    /\ columns T = select keep (cols ++ ["other"%string])
    /\ List.length keep = S (List.length cols)
    /\ data T
       = map (fun r => map (fun c => Np.div (Np.of_Z c)
                              (Np.of_nat (cells_in_region obs ccf_label r)))
                           (select keep (row2 r)))
             (index T)
    /\ (forall j, nth_error keep j = Some true ->
                  exists r, In r (index T) /\ nth j (row2 r) 0%Z <> 0%Z)
    /\ (forall j r, nth_error keep j = Some false -> In r (index T) ->
                    nth j (row2 r) 0%Z = 0%Z).
Proof.
  intros H. rewrite calculate_level_proportions_unfold in H.
  fold cols in H.
  pose proof (crosstab_explicit leb obs ccf_label taxonomy_level) as Hexp.
  fold cols in Hexp. fold row0 in Hexp.
  remember (crosstab leb obs ccf_label taxonomy_level) as counts eqn:Ecounts.
  destruct (existsb (String.eqb "other") cols) eqn:Eother; [discriminate|].
  injection H as <-. cbn [index columns data].
  set (idx := index counts) in *.
  assert (Hrows2 : map (fun row => consolidate_row
                                     (mask_row min_frac min_count row) row)
                       (data counts)
                   = map row2 idx).
  { rewrite Hexp, map_map. reflexivity. }
  rewrite Hrows2.
  set (counts2 := mkFrame idx (cols ++ ["other"%string]) (map row2 idx)).
  set (keep := any_axis0 (frame_map (fun c => negb (c =? 0)%Z) counts2)).
  assert (Hlenk : List.length keep = S (List.length cols)).
  { unfold keep, any_axis0, frame_map, counts2. cbn [columns].
    rewrite length_map, length_seq, length_app. simpl. lia. }
  assert (Hfalse : forall j r, nth_error keep j = Some false -> In r idx ->
                               nth j (row2 r) 0%Z = 0%Z).
  { intros j r Hj Hr.
    assert (Hjlt : j < List.length keep) by (apply nth_error_Some; congruence).
    apply (any_axis0_false counts2).
    - unfold counts2. cbn [data]. now apply in_map.
    - unfold counts2. cbn [columns]. rewrite length_app. simpl. lia.
    - fold keep. rewrite (nth_error_nth _ _ _ Hj). reflexivity. }
  exists keep. split.
  { intros Hin. apply Bool.not_true_iff_false in Eother. apply Eother.
    apply existsb_exists. exists "other"%string. split; [assumption|].
    apply String.eqb_refl. }
  split; [reflexivity|]. split; [reflexivity|]. split; [exact Hlenk|].
  split; [|split; [|exact Hfalse]].
  - rewrite map_map. apply map_ext_in. intros r Hr.
    assert (Hsel : Zsum (select keep (row2 r))
                   = Z.of_nat (cells_in_region obs ccf_label r)).
    { rewrite <- row2_sum. apply select_sum.
      - now rewrite row2_length.
      - intros j Hj Hk. apply Hfalse; [|assumption].
        rewrite row2_length, <- Hlenk in Hj.
        apply nth_error_Some in Hj.
        destruct (nth_error keep j) as [b|] eqn:Eb; [|congruence].
        rewrite (nth_error_nth _ _ _ Eb) in Hk. now subst b. }
    rewrite Hsel. reflexivity.
  - intros j Hj.
    assert (Hjlt : j < List.length keep) by (apply nth_error_Some; congruence).
    pose proof (nth_error_nth _ _ false Hj) as Hn.
    unfold keep, any_axis0, frame_map, counts2 in Hn.
    cbn [columns data] in Hn.
    set (F := fun j0 => existsb (fun r => nth j0 r false)
                          (map (map (fun c => negb (c =? 0)%Z)) (map row2 idx)))
      in Hn.
    rewrite (nth_indep _ false (F 0)) in Hn
      by (rewrite length_map, length_seq, length_app; simpl; lia).
    rewrite (map_nth F (seq 0 _) 0 j) in Hn.
    rewrite seq_nth in Hn by (rewrite length_app; simpl; lia).
    unfold F in Hn. simpl in Hn. apply existsb_exists in Hn.
    destruct Hn as [brow [Hbrow Hb]].
    rewrite map_map in Hbrow. apply in_map_iff in Hbrow.
    destruct Hbrow as [r [<- Hr]]. exists r. split; [exact Hr|].
    change (nth j (map (fun c => negb (c =? 0)%Z) (row2 r))
                ((fun c => negb (c =? 0)%Z) 0%Z) = true) in Hb.
    rewrite map_nth in Hb. intros Hz. rewrite Hz in Hb. discriminate.
Qed.

Lemma assoc_map_inv {A : Type} (h : label -> A) (idx : list label)
  (r : label) (v : A) :
  assoc r (combine idx (map h idx)) = Some v -> In r idx /\ v = h r.
Proof.
  induction idx as [|k idx IH]; simpl; [discriminate|].
  destruct (String.eqb_spec r k) as [->|Hne].
  - intros [= <-]. auto.
  - intros H. destruct (IH H). auto.
Qed.

Lemma consolidate_row_nth (mask : list bool) (row : list Z) (j : nat) :
  List.length mask = List.length row -> j < List.length row ->
  nth_error (consolidate_row mask row) j
  = Some (if nth j mask false then 0%Z else nth j row 0%Z).
Proof.
  unfold consolidate_row. rewrite map_app. intros Hlen Hj.
  assert (Hcell : forall (mask : list bool) (row : list Z) (j : nat),
             List.length mask = List.length row -> j < List.length row ->
             nth_error (map fill0 (zip_with (fun c m => masked m c) row
                                            (map negb mask))) j
             = Some (if nth j mask false then 0%Z else nth j row 0%Z)).
  { clear. intros mask row. revert mask.
    induction row as [|c row IH]; intros [|m mask] j Hlen Hj; simpl in *;
      try discriminate; try lia.
    destruct j as [|j]; simpl.
    - destruct m; reflexivity.
    - apply IH; lia. }
  rewrite nth_error_app1; [now apply Hcell|].
  apply nth_error_Some. rewrite Hcell by assumption. discriminate.
Qed.

Lemma consolidate_row_last (mask : list bool) (row : list Z) :
  List.length mask = List.length row ->
  nth (List.length row) (consolidate_row mask row) 0%Z
  = skipna_sum (zip_with (fun c m => masked m c) row mask).
Proof.
  unfold consolidate_row. rewrite map_app. intros Hlen.
  assert (Hl : List.length (map fill0 (zip_with (fun c m => masked m c) row
                                                (map negb mask)))
               = List.length row).
  { rewrite length_map. clear -Hlen. revert mask Hlen.
    induction row as [|c row IH]; intros [|m mask] Hlen; simpl in *;
      try discriminate; [reflexivity|]. f_equal. apply IH. lia. }
  rewrite app_nth2 by lia. rewrite Hl, Nat.sub_diag. reflexivity.
Qed.

(** X20: the table of proportions has one row for every region label of
    the observation table, each once. No region is excluded here:
    [unassigned] cells get a row too. *)
Theorem calculate_level_proportions_one_row_per_region (T : Frame Np.float) :
  calculate_level_proportions leb obs taxonomy_level ccf_label min_frac
                              min_count = Return T ->
  NoDup (index T)
  /\ List.length (data T) = List.length (index T)
  /\ forall r, In r (index T) <-> In r (values (column obs ccf_label)).
Proof.
  intros H. destruct (@proportions_table T H)
    as [keep [_ [Hidx [_ [_ [Hdata _]]]]]].
  split; [|split].
  - rewrite Hidx. unfold crosstab, unstack. cbn [index].
    apply (Permutation_NoDup (Permutation_sym (sort_perm leb _))).
    apply distinct_NoDup.
  - rewrite Hdata. apply length_map.
  - intros r. rewrite Hidx. apply crosstab_index_In.
Qed.

(** X21: the aggregation raises [ValueError] exactly when some cell of the
    observation table has the category [other], whose column collides with
    the new bucket; in every other case it returns a table. *)
Theorem calculate_level_proportions_other_category :
  (In "other"%string (values (column obs taxonomy_level)) ->
   calculate_level_proportions leb obs taxonomy_level ccf_label min_frac
                               min_count = Raise ValueError)
  /\ (~ In "other"%string (values (column obs taxonomy_level)) ->
      exists T, calculate_level_proportions leb obs taxonomy_level ccf_label
                  min_frac min_count = Return T).
Proof.
  split; [|apply calculate_level_proportions_returns].
  intros Hin. rewrite calculate_level_proportions_unfold.
  apply crosstab_columns_iff with (leb := leb) (ccf_label := ccf_label) in Hin.
  destruct (existsb _ _) eqn:E; [reflexivity|]. exfalso.
  apply Bool.not_true_iff_false in E. apply E. apply existsb_exists.
  exists "other"%string. split; [exact Hin | apply String.eqb_refl].
Qed.

(** X22: every cell of the table of proportions is a finite number
    between 0 and 1. *)
Theorem calculate_level_proportions_cells_in_unit_interval
  (T : Frame Np.float) (r : label) (row : list Np.float) (v : Np.float) :
  calculate_level_proportions leb obs taxonomy_level ccf_label min_frac
                              min_count = Return T ->
  frame_row T r = Some row -> In v row ->
  exists q : Q, v = Np.Fin q /\ (0 <= q)%Q /\ (q <= 1)%Q.
Proof.
  intros H Hrow Hv. destruct (@proportions_table T H)
    as [keep [_ [Hidx [_ [_ [Hdata _]]]]]].
  unfold frame_row in Hrow. rewrite Hdata in Hrow.
  apply assoc_map_inv in Hrow. destruct Hrow as [Hr ->].
  apply in_map_iff in Hv. destruct Hv as [c [<- Hc]].
  apply select_In in Hc.
  assert (Hpos : 0 < cells_in_region obs ccf_label r).
  { apply cells_in_region_pos. rewrite Hidx in Hr.
    now apply crosstab_index_In in Hr. }
  pose proof (@Zsum_ge _ _ (row2_nonneg r) Hc) as Hle. rewrite row2_sum in Hle.
  pose proof (row2_nonneg r) as Hnn. rewrite Forall_forall in Hnn.
  specialize (Hnn c Hc).
  pose proof (@Qnat_pos _ Hpos) as HT.
  exists (inject_Z c / Qnat (cells_in_region obs ccf_label r))%Q.
  split; [apply div_fin; lra|].
  assert (H0 : (0 <= inject_Z c)%Q).
  { change 0%Q with (inject_Z 0). now rewrite <- Zle_Qle. }
  assert (H1 : (inject_Z c <= Qnat (cells_in_region obs ccf_label r))%Q).
  { unfold Qnat. now rewrite <- Zle_Qle. }
  split.
  - apply Qle_shift_div_l; [assumption | lra].
  - apply Qle_shift_div_r; [assumption | lra].
Qed.

(** X23: no column of the table of proportions is zero in every row: each
    column has a region in which its proportion is not 0. *)
Theorem calculate_level_proportions_no_zero_column (T : Frame Np.float)
  (j : nat) :
  calculate_level_proportions leb obs taxonomy_level ccf_label min_frac
                              min_count = Return T ->
  j < List.length (columns T) ->
  exists (r : label) (row : list Np.float) (q : Q),
    In r (index T) /\ frame_row T r = Some row
    /\ nth_error row j = Some (Np.Fin q) /\ ~ (q == 0)%Q.
Proof.
  intros H Hj. destruct (@proportions_table T H)
    as [keep [_ [Hidx [Hcols [Hlenk [Hdata [Htrue _]]]]]]].
  destruct (nth_error (columns T) j) as [c|] eqn:Ec;
    [|apply nth_error_None in Ec; lia].
  rewrite Hcols in Ec.
  destruct (@select_nth_error _ _ _ _ _ Ec) as [j0 [Hk [_ Hsame]]].
  destruct (Htrue j0 Hk) as [r [Hr Hnz]].
  assert (Hpos : 0 < cells_in_region obs ccf_label r).
  { apply cells_in_region_pos. rewrite Hidx in Hr.
    now apply crosstab_index_In in Hr. }
  pose proof (@Qnat_pos _ Hpos) as HT.
  assert (Hj0 : j0 < List.length (row2 r)).
  { rewrite row2_length, <- Hlenk. apply nth_error_Some. congruence. }
  assert (Hsel : nth_error (select keep (row2 r)) j
                 = Some (nth j0 (row2 r) 0%Z)).
  { rewrite (Hsame Z (row2 r)).
    - now apply nth_error_nth'.
    - rewrite row2_length, length_app. simpl. lia. }
  exists r, (map (fun c0 => Np.div (Np.of_Z c0)
                              (Np.of_nat (cells_in_region obs ccf_label r)))
                 (select keep (row2 r))),
    (inject_Z (nth j0 (row2 r) 0%Z)
     / Qnat (cells_in_region obs ccf_label r))%Q.
  split; [exact Hr|]. split; [|split].
  - unfold frame_row. rewrite Hdata, (@assoc_map _ _ _ _ Hr). reflexivity.
  - rewrite nth_error_map, Hsel. simpl. f_equal. apply div_fin. lra.
  - intros Hq.
    assert (Hz : (inject_Z (nth j0 (row2 r) 0%Z) == 0)%Q).
    { rewrite <- (Qmult_div_r (inject_Z (nth j0 (row2 r) 0%Z))
                    (Qnat (cells_in_region obs ccf_label r))) by lra.
      rewrite Hq. ring. }
    apply Hnz. unfold Qeq in Hz. simpl in Hz. lia.
Qed.

(** X24: with an absolute threshold [min_count = m], the cell of a
    category [c] in the row of region [r] is 0 when the count of [c] in [r]
    is at most [m] (the category is collapsed in that region), and
    otherwise the count of [c] in [r] divided by the number of cells of
    [r]. *)
Theorem calculate_level_proportions_cell (T : Frame Np.float) (r c : label)
  (m : Z) :
  min_count = Some m ->
  calculate_level_proportions leb obs taxonomy_level ccf_label min_frac
                              min_count = Return T ->
  In r (index T) -> In c (columns T) -> c <> "other"%string ->
  exists q : Q,
    frame_at T r c = Some (Np.Fin q)
    /\ (q == if (Z.of_nat (pair_count obs ccf_label taxonomy_level r c)
                 <=? m)%Z
             then 0
             else Qnat (pair_count obs ccf_label taxonomy_level r c)
                  / Qnat (cells_in_region obs ccf_label r))%Q.
Proof.
  intros Hm H Hr Hc Hno. destruct (@proportions_table T H)
    as [keep [_ [Hidx [Hcols [Hlenk [Hdata _]]]]]].
  assert (Hpos : 0 < cells_in_region obs ccf_label r).
  { apply cells_in_region_pos. rewrite Hidx in Hr.
    now apply crosstab_index_In in Hr. }
  pose proof (@Qnat_pos _ Hpos) as HT.
  destruct (@position_In _ _ Hc) as [j Hj].
  pose proof (@position_nth_error _ _ _ Hj) as Ej. rewrite Hcols in Ej.
  destruct (@select_nth_error _ _ _ _ _ Ej) as [j0 [Hk [Hc0 Hsame]]].
  assert (Hj0 : j0 < List.length cols).
  { destruct (Nat.lt_ge_cases j0 (List.length cols)) as [Hlt|Hge];
      [assumption|]. exfalso.
    rewrite nth_error_app2 in Hc0 by assumption.
    destruct (j0 - List.length cols) as [|k]; simpl in Hc0;
      [congruence | destruct k; discriminate]. }
  rewrite nth_error_app1 in Hc0 by assumption.
  set (n := pair_count obs ccf_label taxonomy_level r c).
  set (total := cells_in_region obs ccf_label r) in *.
  assert (Hrow0 : nth j0 (row0 r) 0%Z = Z.of_nat n).
  { apply nth_error_nth. unfold row0.
    exact (map_nth_error
             (fun c => Z.of_nat (pair_count obs ccf_label taxonomy_level r c))
             j0 cols Hc0). }
  assert (Hl0 : List.length (row0 r) = List.length cols)
    by (unfold row0; apply length_map).
  assert (Hmask : nth j0 (mask_row min_frac min_count (row0 r)) false
                  = (Z.of_nat n <=? m)%Z).
  { apply nth_error_nth. unfold mask_row. rewrite Hm.
    assert (E0 : nth_error (row0 r) j0 = Some (Z.of_nat n)).
    { unfold row0.
      exact (map_nth_error
               (fun c => Z.of_nat (pair_count obs ccf_label taxonomy_level r c))
               j0 cols Hc0). }
    rewrite nth_error_map, E0. reflexivity. }
  assert (Hsel : nth_error (select keep (row2 r)) j
                 = Some (if (Z.of_nat n <=? m)%Z
                         then 0%Z else Z.of_nat n)).
  { rewrite (Hsame Z (row2 r))
      by (rewrite row2_length, length_app; simpl; lia).
    unfold row2. rewrite consolidate_row_nth;
      [| apply mask_row_length | lia].
    now rewrite Hmask, Hrow0. }
  exists (inject_Z (if (Z.of_nat n <=? m)%Z
                    then 0%Z else Z.of_nat n) / Qnat total)%Q.
  split.
  - unfold frame_at, frame_row. rewrite Hj, Hdata.
    rewrite (@assoc_map _ _ _ _ Hr), nth_error_map, Hsel. simpl. f_equal.
    apply div_fin. lra.
  - destruct (Z.of_nat n <=? m)%Z.
    + simpl. field. lra.
    + reflexivity.
Qed.

(** X25: with an absolute threshold that is not positive, no cell that
    occurs is collapsed, and the returned table has no column [other]. *)
Theorem calculate_level_proportions_without_other (T : Frame Np.float)
  (m : Z) :
  min_count = Some m -> (m <= 0)%Z ->
  calculate_level_proportions leb obs taxonomy_level ccf_label min_frac
                              min_count = Return T ->
  ~ In "other"%string (columns T).
Proof.
  intros Hm Hle H Hin. destruct (@proportions_table T H)
    as [keep [Hno [Hidx [Hcols [Hlenk [Hdata [Htrue _]]]]]]].
  destruct (@In_nth_error _ _ _ Hin) as [j Hj]. rewrite Hcols in Hj.
  destruct (@select_nth_error _ _ _ _ _ Hj) as [j0 [Hk [Hc0 _]]].
  assert (Hj0 : j0 = List.length cols).
  { destruct (Nat.lt_ge_cases j0 (List.length cols)) as [Hlt|Hge].
    - rewrite nth_error_app1 in Hc0 by assumption.
      apply nth_error_In in Hc0. contradiction.
    - assert (j0 < List.length keep) by (apply nth_error_Some; congruence).
      lia. }
  destruct (Htrue j0 Hk) as [r [_ Hnz]]. apply Hnz. subst j0.
  unfold row2.
  replace (List.length cols) with (List.length (row0 r))
    by (unfold row0; apply length_map).
  rewrite consolidate_row_last by apply mask_row_length.
  unfold mask_row. rewrite Hm.
  assert (Hnn : Forall (fun c => (0 <= c)%Z) (row0 r)).
  { unfold row0. apply Forall_forall. intros c Hc. apply in_map_iff in Hc.
    destruct Hc as [c' [<- _]]. lia. }
  induction Hnn as [|c l Hc _ IH]; simpl; [reflexivity|].
  destruct (Z.leb_spec c m); simpl; [lia | exact IH].
Qed.

End ProportionsTable.

(** ** The palette of the stacked bar plot, further *)

Section PaletteMore.

Variable get_taxonomy_palette : string -> Py.result palette.
Variable glasbey_colors : list string.

Lemma setitem_dict (d : list (string * string)) (k v : string) :
  exists d', setitem (PaletteDict d) k v = Return (PaletteDict d')
             /\ assoc k d' = Some v
             /\ forall k', k' <> k -> assoc k' d' = assoc k' d.
Proof.
  unfold setitem. eexists. split; [reflexivity|].
  induction d as [|[k0 v0] d [IH1 IH2]]; simpl.
  - rewrite String.eqb_refl. split; [reflexivity|].
    intros k' Hk'. now destruct (String.eqb_spec k' k).
  - destruct (String.eqb_spec k k0) as [->|Hne]; simpl.
    + rewrite String.eqb_refl. split; [reflexivity|].
      intros k' Hk'. destruct (String.eqb_spec k' k0); [contradiction|].
      clear IH1 IH2. induction d as [|[k1 v1] d IH]; simpl; [reflexivity|].
      destruct (String.eqb_spec k0 k1) as [<-|Hne1]; simpl.
      * destruct (String.eqb_spec k' k0); [contradiction | exact IH].
      * destruct (String.eqb_spec k' k1); [reflexivity | exact IH].
    + destruct (existsb (fun kv => String.eqb k (fst kv)) d) eqn:E; simpl.
      * destruct (String.eqb_spec k k0); [contradiction|]. split.
        { exact IH1. }
        intros k' Hk'. destruct (String.eqb_spec k' k0); [reflexivity|].
        now apply IH2.
      * destruct (String.eqb_spec k k0); [contradiction|]. split.
        { exact IH1. }
        intros k' Hk'. destruct (String.eqb_spec k' k0); [reflexivity|].
        now apply IH2.
Qed.

(** X26: with a palette passed as a dict the provider of the atlas is not
    consulted: whatever it would answer, the plot is drawn with the given
    dict in which [other] is light grey and every other category keeps its
    colour. *)
Theorem barplot_palette_given_dict (taxonomy_level : string)
  (d : list (string * string)) :
  exists d',
    barplot_stacked_proportions_palette get_taxonomy_palette glasbey_colors
      taxonomy_level (Some (PaletteDict d))
    = Return (PaletteDict d')
    /\ assoc "other"%string d' = Some "lightgrey"%string
    /\ forall k, k <> "other"%string -> assoc k d' = assoc k d.
Proof.
  unfold barplot_stacked_proportions_palette. cbn [Py.bind].
  apply setitem_dict.
Qed.

(** X27: the choice of the palette never lets a [ValueError] out: the one
    of the provider is caught, and the assignment of [other] can only raise
    [TypeError]. *)
Theorem barplot_palette_never_value_error (taxonomy_level : string)
  (palette_arg : option palette) :
  barplot_stacked_proportions_palette get_taxonomy_palette glasbey_colors
    taxonomy_level palette_arg
  <> Raise ValueError.
Proof.
  unfold barplot_stacked_proportions_palette.
  destruct palette_arg as [[d|l]|]; simpl; try discriminate.
  destruct (get_taxonomy_palette taxonomy_level) as [[d|l]|[]]; simpl;
    discriminate.
Qed.

End PaletteMore.

(** ** The columns that the plots read *)

Lemma metrics_columns_In (metric lv : string) :
  In metric ["count"; "frac"; "count_norm2cells"; "count_gt5"; "frac_gt5";
             "inverse_simpsons"; "shannon_index"]%string ->
  In lv default_levels ->
  In (String.concat "_" [metric; lv]) metrics_columns.
Proof.
  unfold default_levels. simpl In at 1 2. intros Hm Hl.
  repeat (destruct Hm as [<-|Hm]; [|]); try contradiction;
    repeat (destruct Hl as [<-|Hl]; [|]); try contradiction;
    vm_compute; repeat (try (left; reflexivity); right).
Qed.

Section PlotColumns.

Variable leb : label -> label -> bool.
Variable log2 : Np.float -> Np.float.

(** X28: for each of the three levels, with or without the threshold of
    more than 5 cells, the two columns that [barplot_dual_y_count_frac]
    reads are columns of every table that [calculate_diversity_metrics]
    returns, and they differ. *)
Theorem barplot_dual_y_count_frac_columns_exist (obs : Table)
  (ccf_label taxonomy_level : string) (gt5_only : bool)
  (T : Frame Np.float) :
  calculate_diversity_metrics leb log2 obs ccf_label = Return T ->
  In taxonomy_level default_levels ->
  In (fst (barplot_dual_y_count_frac_columns taxonomy_level gt5_only))
     (columns T)
  /\ In (snd (barplot_dual_y_count_frac_columns taxonomy_level gt5_only))
        (columns T)
  /\ fst (barplot_dual_y_count_frac_columns taxonomy_level gt5_only)
     <> snd (barplot_dual_y_count_frac_columns taxonomy_level gt5_only).
Proof.
  intros HT Hl.
  rewrite (@diversity_metrics_columns leb log2 _ _ _ HT).
  unfold barplot_dual_y_count_frac_columns. cbn [fst snd].
  destruct gt5_only.
  - split; [|split].
    + apply (@metrics_columns_In "count_gt5" taxonomy_level); simpl; tauto.
    + apply (@metrics_columns_In "frac_gt5" taxonomy_level); simpl; tauto.
    + discriminate.
  - split; [|split].
    + apply (@metrics_columns_In "count" taxonomy_level); simpl; tauto.
    + apply (@metrics_columns_In "frac" taxonomy_level); simpl; tauto.
    + discriminate.
Qed.

(** X29: for each of the seven metrics and each non-empty list of levels
    among the three, the column by which [plot_metric_multiple_levels]
    sorts and the columns that it draws are columns of every table that
    [calculate_diversity_metrics] returns. *)
Theorem plot_metric_multiple_levels_columns_exist (obs : Table)
  (ccf_label metric : string) (levels : list string) (T : Frame Np.float) :
  calculate_diversity_metrics leb log2 obs ccf_label = Return T ->
  In metric (map (fun spec => fst (fst spec)) (region_metrics log2)) ->
  levels <> [] -> incl levels default_levels ->
  exists sort_col drawn,
    plot_metric_multiple_levels_columns metric (Some levels)
    = Return (sort_col, drawn)
    /\ In sort_col (columns T)
    /\ incl drawn (columns T).
Proof.
  intros HT Hm Hne Hincl.
  pose proof (@diversity_metrics_columns leb log2 _ _ _ HT) as Hc.
  destruct levels as [|l0 levels]; [contradiction|].
  eexists. eexists. split; [reflexivity|]. rewrite Hc. split.
  - apply metrics_columns_In; [exact Hm|]. apply Hincl. now left.
  - intros c Hin. apply in_map_iff in Hin. destruct Hin as [lv [<- Hlv]].
    apply metrics_columns_In; [exact Hm|]. apply Hincl.
    now apply in_rev in Hlv.
Qed.

End PlotColumns.

(** X30: [plot_metric_multiple_levels] raises [IndexError] on an empty
    list of levels, and on no other list. On a list that starts with the
    level [l0] it sorts by the column ["<metric>_<l0>"] and draws the
    columns ["<metric>_<level>"] of the levels in reversed order, so the
    column it sorts by is drawn last. *)
Theorem plot_metric_multiple_levels_sort_column (metric : string)
  (levels : list string) :
  match plot_metric_multiple_levels_columns metric (Some levels) with
  | Return (sort_col, drawn) =>
      exists l0 rest,
        levels = l0 :: rest
        /\ sort_col = (metric ++ "_" ++ l0)%string
        /\ drawn = rev (map (fun level => (metric ++ "_" ++ level)%string)
                            levels)
        /\ last drawn ""%string = sort_col
  | Raise e => e = IndexError /\ levels = []
  end.
Proof.
  destruct levels as [|l0 levels]; cbn [plot_metric_multiple_levels_columns
                                         getitem0 Py.bind]; [auto|].
  exists l0, levels. split; [reflexivity|]. split; [reflexivity|]. split.
  - rewrite map_rev. reflexivity.
  - cbn [rev]. rewrite map_app. cbn [map]. apply last_last.
Qed.

(** ** Concrete runs of the further properties *)

Local Open Scope string_scope.

Lemma get_region_metric_never_aggregates_empty_group_witness :
  returns_on_samples count_unique_norm
  /\ exists T, get_region_metric String.leb example_obs count_unique_norm
                 "count_norm2cells" default_ccf_label default_exclude None
                 default_levels = Return T.
Proof.
  split; [exact count_unique_norm_returns|].
  apply (@get_region_metric_never_aggregates_empty_group String.leb
           example_obs count_unique_norm "count_norm2cells" default_ccf_label
           default_exclude default_levels).
  exact count_unique_norm_returns.
Defined.

Lemma get_region_metric_shape_witness :
  get_region_metric String.leb example_obs (of_count count_unique) "count"
                    default_ccf_label default_exclude None default_levels
  = Return example_count
  /\ (columns example_count
      = map (fun lv => "count" ++ "_" ++ lv) default_levels
      /\ List.length (data example_count) = List.length (index example_count)
      /\ Forall (fun row => List.length row = List.length default_levels)
                (data example_count)).
Proof.
  split; [vm_compute; reflexivity|].
  apply (@get_region_metric_shape String.leb example_obs
           (of_count count_unique) "count" default_ccf_label default_exclude
           None default_levels example_count).
  vm_compute. reflexivity.
Defined.

Lemma get_region_metric_cell_witness :
  (get_region_metric String.leb example_obs (of_count count_unique) "count"
                     default_ccf_label default_exclude None default_levels
   = Return example_count
   /\ In "A" (index example_count) /\ In "cluster" default_levels)
  /\ exists m,
       of_count count_unique
         (column (region_rows example_obs default_ccf_label "A") "cluster")
       = Return m
       /\ frame_at example_count "A" ("count" ++ "_" ++ "cluster") = Some m.
Proof.
  split; [split; [vm_compute; reflexivity | simpl; auto]|].
  apply (@get_region_metric_cell String.leb example_obs
           (of_count count_unique) "count" default_ccf_label default_exclude
           default_levels example_count "A" "cluster").
  - vm_compute. reflexivity.
  - simpl. auto.
  - simpl. auto.
Defined.

Lemma get_region_metric_propagates_exception_witness :
  (In "A" (values (column example_obs default_ccf_label))
   /\ ~ In "A" default_exclude /\ In "cluster" default_levels
   /\ (fun _ : Series => @Raise Np.float ValueError)
        (column (region_rows example_obs default_ccf_label "A") "cluster")
      = Raise ValueError)
  /\ fails (get_region_metric String.leb example_obs
              (fun _ : Series => @Raise Np.float ValueError) "broken"
              default_ccf_label default_exclude None default_levels).
Proof.
  assert (Hex : ~ In "A" default_exclude)
    by (simpl; intros [H|[H|[]]]; discriminate).
  split; [split; [simpl; auto | split; [exact Hex | simpl; auto]]|].
  apply (@get_region_metric_propagates_exception String.leb example_obs
           (fun _ : Series => @Raise Np.float ValueError) "broken"
           default_ccf_label default_exclude None default_levels "A"
           "cluster" ValueError).
  - simpl. auto.
  - exact Hex.
  - simpl. auto.
  - reflexivity.
Defined.

Lemma calculate_diversity_metrics_table_witness :
  (exists r, In r (values (column example_obs default_ccf_label))
             /\ r <> "unassigned" /\ r <> "TH-unassigned")
  /\ exists T,
       calculate_diversity_metrics String.leb (fun v => v) example_obs
                                   default_ccf_label = Return T
       /\ columns T = metrics_columns
       /\ NoDup (index T)
       /\ List.length (data T) = List.length (index T)
       /\ forall r, In r (index T)
                    <-> In r (values (column example_obs default_ccf_label))
                        /\ r <> "unassigned" /\ r <> "TH-unassigned".
Proof.
  assert (H : exists r, In r (values (column example_obs default_ccf_label))
                        /\ r <> "unassigned" /\ r <> "TH-unassigned").
  { exists "A". split; [simpl; auto | split; discriminate]. }
  split; [exact H|].
  apply (@calculate_diversity_metrics_table String.leb (fun v => v)
           example_obs default_ccf_label H).
Defined.

Lemma calculate_diversity_metrics_cell_witness :
  (calculate_diversity_metrics String.leb (fun v => v) example_obs
                               default_ccf_label = Return example_metrics
   /\ In "A" (values (column example_obs default_ccf_label))
   /\ ~ In "A" default_exclude
   /\ In ("frac", of_count count_unique, Some (of_count count_unique))
         (region_metrics (fun v => v))
   /\ In "cluster" default_levels)
  /\ exists m,
       of_count count_unique
         (column (region_rows example_obs default_ccf_label "A") "cluster")
       = Return m
       /\ exists n,
            of_count count_unique (column example_obs "cluster") = Return n
            /\ frame_at example_metrics "A" ("frac" ++ "_" ++ "cluster")
               = Some (Np.div m n).
Proof.
  assert (Hex : ~ In "A" default_exclude)
    by (simpl; intros [H|[H|[]]]; discriminate).
  split; [split; [vm_compute; reflexivity
                 | split; [simpl; auto
                          | split; [exact Hex | simpl; auto]]]|].
  apply (@calculate_diversity_metrics_cell String.leb (fun v => v)
           example_obs default_ccf_label example_metrics "A" "cluster" "frac"
           (of_count count_unique) (Some (of_count count_unique))).
  - vm_compute. reflexivity.
  - simpl. auto.
  - exact Hex.
  - simpl. auto.
  - simpl. auto.
Defined.

Lemma calculate_diversity_metrics_counts_witness :
  (calculate_diversity_metrics String.leb (fun v => v) example_obs
                               default_ccf_label = Return example_metrics
   /\ In "A" (values (column example_obs default_ccf_label))
   /\ ~ In "A" default_exclude /\ In "cluster" default_levels)
  /\ exists (u g : nat) (q : Q),
       frame_at example_metrics "A" "count_cells"
       = Some (Np.of_nat (cells_in_region example_obs default_ccf_label "A"))
       /\ 1 <= cells_in_region example_obs default_ccf_label "A"
       /\ frame_at example_metrics "A" ("count_" ++ "cluster")
          = Some (Np.of_nat u)
       /\ 1 <= u /\ u <= cells_in_region example_obs default_ccf_label "A"
       /\ frame_at example_metrics "A" ("count_gt5_" ++ "cluster")
          = Some (Np.of_nat g)
       /\ 6 * g <= cells_in_region example_obs default_ccf_label "A"
       /\ frame_at example_metrics "A" ("count_norm2cells_" ++ "cluster")
          = Some (Np.Fin q)
       /\ (q == Qnat u
                / Qnat (cells_in_region example_obs default_ccf_label "A"))%Q.
Proof.
  assert (Hex : ~ In "A" default_exclude)
    by (simpl; intros [H|[H|[]]]; discriminate).
  split; [split; [vm_compute; reflexivity
                 | split; [simpl; auto
                          | split; [exact Hex | simpl; auto]]]|].
  apply (@calculate_diversity_metrics_counts String.leb (fun v => v)
           example_obs default_ccf_label example_metrics "A" "cluster").
  - vm_compute. reflexivity.
  - simpl. auto.
  - exact Hex.
  - simpl. auto.
Defined.

Lemma calculate_diversity_metrics_frac_bounds_witness :
  (calculate_diversity_metrics String.leb (fun v => v) example_obs
                               default_ccf_label = Return example_metrics
   /\ In "A" (values (column example_obs default_ccf_label))
   /\ ~ In "A" default_exclude /\ In "cluster" default_levels)
  /\ ((forall x y : Series,
          incl (values x) (values y) -> count_unique x <= count_unique y)
      /\ exists q1 q2 : Q,
           frame_at example_metrics "A" ("frac_" ++ "cluster")
           = Some (Np.Fin q1)
           /\ (0 <= q1)%Q /\ (q1 <= 1)%Q
           /\ frame_at example_metrics "A" ("frac_gt5_" ++ "cluster")
              = Some (Np.Fin q2)
           /\ (0 <= q2)%Q /\ (q2 <= 1)%Q).
Proof.
  assert (Hex : ~ In "A" default_exclude)
    by (simpl; intros [H|[H|[]]]; discriminate).
  split; [split; [vm_compute; reflexivity
                 | split; [simpl; auto
                          | split; [exact Hex | simpl; auto]]]|].
  apply (@calculate_diversity_metrics_frac_bounds String.leb (fun v => v)
           example_obs default_ccf_label example_metrics "A" "cluster").
  - vm_compute. reflexivity.
  - simpl. auto.
  - exact Hex.
  - simpl. auto.
Defined.

Lemma calculate_diversity_metrics_type_error_witness :
  ((forall r, In r (values (column categorical_obs default_ccf_label)) ->
              In r default_exclude)
   /\ (forall lv, In lv default_levels ->
                  is_categorical categorical_obs lv = true))
  /\ calculate_diversity_metrics String.leb (fun v => v) categorical_obs
                                 default_ccf_label
     = Raise TypeError.
Proof.
  assert (Hall : forall r,
             In r (values (column categorical_obs default_ccf_label)) ->
             In r default_exclude).
  { simpl. intros r [<-|[<-|[]]]; auto. }
  assert (Hcat : forall lv, In lv default_levels ->
                            is_categorical categorical_obs lv = true).
  { simpl. intros lv [<-|[<-|[<-|[]]]]; reflexivity. }
  split; [split; [exact Hall | exact Hcat]|].
  apply (@calculate_diversity_metrics_type_error String.leb (fun v => v)
           categorical_obs default_ccf_label Hall Hcat).
Defined.

Lemma calculate_function_locally_identical_labels_witness :
  nth_error [[0; 1]] 0 = Some [0; 1]
  /\ calculate_function_locally 0 example_obs [[0; 1]] default_levels
       (of_count count_unique)
     = Return (map (fun _ => Np.of_nat 1) default_levels).
Proof.
  split; [reflexivity|].
  apply (@calculate_function_locally_identical_labels 0 example_obs [[0; 1]]
           default_levels [0; 1]).
  - reflexivity.
  - discriminate.
  - simpl. intros j [<-|[<-|[]]]; lia.
  - intros lv Hlv. exists "c1". intros j row Hj Hrow.
    simpl in Hlv. destruct Hlv as [<-|[<-|[<-|[]]]];
      destruct Hj as [<-|[<-|[]]]; simpl in Hrow; injection Hrow as <-;
      reflexivity.
Defined.

Lemma calculate_function_locally_index_error_witness :
  List.length [[0; 1]] <= 1
  /\ calculate_function_locally 1 example_obs [[0; 1]] default_levels
       (of_count count_unique)
     = Raise IndexError.
Proof.
  split; [simpl; lia|].
  apply (@calculate_function_locally_index_error 1 example_obs [[0; 1]]
           default_levels (of_count count_unique)).
  left. simpl. lia.
Defined.

Lemma calculate_local_diversity_metric_fails_as_a_whole_witness :
  (first_positions
     (map (fun r => map (coord r) neigh_coords) (rows example_obs)) 2
   = Return (map (fun _ => [0; 1]) (rows example_obs))
   /\ 3 < List.length (rows example_obs)
   /\ calculate_function_locally 3 example_obs
        (map (fun _ => [0; 1]) (rows example_obs)) default_levels
        (fun _ : Series => @Raise Np.float ValueError)
      = Raise ValueError)
  /\ fails (calculate_local_diversity_metric first_positions example_obs
              (fun _ : Series => @Raise Np.float ValueError) "broken" 2
              default_levels).
Proof.
  split; [split; [reflexivity | split; [simpl; lia | reflexivity]]|].
  apply (@calculate_local_diversity_metric_fails_as_a_whole first_positions
           example_obs (fun _ : Series => @Raise Np.float ValueError)
           "broken" 2 default_levels
           (map (fun _ => [0; 1]) (rows example_obs)) 3 ValueError).
  - reflexivity.
  - simpl. lia.
  - reflexivity.
Defined.

Lemma calculate_local_diversity_metric_shape_witness :
  (In "cell0" (table_index example_obs) /\ ~ In "cell0" default_levels
   /\ calculate_local_diversity_metric first_positions example_obs
        (of_count count_unique) "count" 2 default_levels
      = Return example_local)
  /\ (rec_index example_local = map Label (table_index example_obs)
      /\ List.length (rec_data example_local)
         = List.length (rows example_obs)
      /\ rec_columns example_local
         = map (fun lv => "local_" ++ "count" ++ "_" ++ lv) default_levels
      /\ Forall (fun row => List.length row = List.length default_levels)
                (rec_data example_local)).
Proof.
  assert (Hno : ~ In "cell0" default_levels)
    by (simpl; intros [H|[H|[H|[]]]]; discriminate).
  split; [split; [simpl; auto | split; [exact Hno | vm_compute; reflexivity]]|].
  apply (@calculate_local_diversity_metric_shape first_positions example_obs
           (of_count count_unique) "count" 2 default_levels example_local
           "cell0").
  - simpl. auto.
  - exact Hno.
  - vm_compute. reflexivity.
Defined.

Lemma calculate_level_proportions_one_row_per_region_witness :
  calculate_level_proportions String.leb example_obs "cluster"
                              default_ccf_label (1 # 100) None
  = Return example_proportions
  /\ (NoDup (index example_proportions)
      /\ List.length (data example_proportions)
         = List.length (index example_proportions)
      /\ forall r, In r (index example_proportions)
                   <-> In r (values (column example_obs default_ccf_label))).
Proof.
  split; [vm_compute; reflexivity|].
  apply (@calculate_level_proportions_one_row_per_region String.leb example_obs "cluster"
           default_ccf_label (1 # 100) None example_proportions).
  vm_compute. reflexivity.
Defined.

Lemma calculate_level_proportions_cells_in_unit_interval_witness :
  (calculate_level_proportions String.leb example_obs "cluster"
                               default_ccf_label (1 # 100) None
   = Return example_proportions
   /\ frame_row example_proportions "A"
      = Some [Np.Fin (2 # 3); Np.Fin (1 # 3); Np.Fin (0 # 3); Np.Fin (0 # 3)]
   /\ In (Np.Fin (1 # 3))
         [Np.Fin (2 # 3); Np.Fin (1 # 3); Np.Fin (0 # 3); Np.Fin (0 # 3)])
  /\ exists q : Q, Np.Fin (1 # 3) = Np.Fin q /\ (0 <= q)%Q /\ (q <= 1)%Q.
Proof.
  split; [split; [vm_compute; reflexivity
                 | split; [vm_compute; reflexivity | simpl; auto]]|].
  apply (@calculate_level_proportions_cells_in_unit_interval String.leb
           example_obs "cluster" default_ccf_label (1 # 100) None
           example_proportions "A"
           [Np.Fin (2 # 3); Np.Fin (1 # 3); Np.Fin (0 # 3); Np.Fin (0 # 3)]
           (Np.Fin (1 # 3))).
  - vm_compute. reflexivity.
  - vm_compute. reflexivity.
  - simpl. auto.
Defined.

Lemma calculate_level_proportions_no_zero_column_witness :
  (calculate_level_proportions String.leb example_obs "cluster"
                               default_ccf_label (1 # 100) None
   = Return example_proportions
   /\ 0 < List.length (columns example_proportions))
  /\ exists (r : label) (row : list Np.float) (q : Q),
       In r (index example_proportions)
       /\ frame_row example_proportions r = Some row
       /\ nth_error row 0 = Some (Np.Fin q) /\ ~ (q == 0)%Q.
Proof.
  split; [split; [vm_compute; reflexivity | simpl; lia]|].
  apply (@calculate_level_proportions_no_zero_column String.leb example_obs
           "cluster" default_ccf_label (1 # 100) None example_proportions 0).
  - vm_compute. reflexivity.
  - simpl. lia.
Defined.

Lemma calculate_level_proportions_cell_witness :
  (In "B" (index (frame_of (calculate_level_proportions String.leb
                              example_obs "cluster" default_ccf_label
                              (1 # 100) (Some 1%Z))))
   /\ In "c1" (columns (frame_of (calculate_level_proportions String.leb
                                    example_obs "cluster" default_ccf_label
                                    (1 # 100) (Some 1%Z))))
   /\ "c1" <> "other")
  /\ exists q : Q,
       frame_at (frame_of (calculate_level_proportions String.leb example_obs
                             "cluster" default_ccf_label (1 # 100)
                             (Some 1%Z))) "B" "c1"
       = Some (Np.Fin q)
       /\ (q == if (Z.of_nat (pair_count example_obs default_ccf_label
                                         "cluster" "B" "c1") <=? 1)%Z
                then 0
                else Qnat (pair_count example_obs default_ccf_label "cluster"
                                      "B" "c1")
                     / Qnat (cells_in_region example_obs default_ccf_label
                                             "B"))%Q.
Proof.
  split; [split; [vm_compute; auto
                 | split; [vm_compute; auto | discriminate]]|].
  apply (@calculate_level_proportions_cell String.leb example_obs "cluster"
           default_ccf_label (1 # 100) (Some 1%Z)
           (frame_of (calculate_level_proportions String.leb example_obs
                        "cluster" default_ccf_label (1 # 100) (Some 1%Z)))
           "B" "c1" 1%Z).
  - reflexivity.
  - vm_compute. reflexivity.
  - vm_compute. auto.
  - vm_compute. auto.
  - discriminate.
Defined.

Lemma calculate_level_proportions_without_other_witness :
  (0 <= 0)%Z
  /\ ~ In "other"
       (columns (frame_of (calculate_level_proportions String.leb example_obs
                             "cluster" default_ccf_label (1 # 100)
                             (Some 0%Z)))).
Proof.
  split; [lia|].
  apply (@calculate_level_proportions_without_other String.leb example_obs
           "cluster" default_ccf_label (1 # 100) (Some 0%Z)
           (frame_of (calculate_level_proportions String.leb example_obs
                        "cluster" default_ccf_label (1 # 100) (Some 0%Z)))
           0%Z).
  - reflexivity.
  - lia.
  - vm_compute. reflexivity.
Defined.

Lemma barplot_dual_y_count_frac_columns_exist_witness :
  (calculate_diversity_metrics String.leb (fun v => v) example_obs
                               default_ccf_label = Return example_metrics
   /\ In "cluster" default_levels)
  /\ (In (fst (barplot_dual_y_count_frac_columns "cluster" true))
         (columns example_metrics)
      /\ In (snd (barplot_dual_y_count_frac_columns "cluster" true))
            (columns example_metrics)
      /\ fst (barplot_dual_y_count_frac_columns "cluster" true)
         <> snd (barplot_dual_y_count_frac_columns "cluster" true)).
Proof.
  split; [split; [vm_compute; reflexivity | simpl; auto]|].
  apply (@barplot_dual_y_count_frac_columns_exist String.leb (fun v => v)
           example_obs default_ccf_label "cluster" true example_metrics).
  - vm_compute. reflexivity.
  - simpl. auto.
Defined.

Lemma plot_metric_multiple_levels_columns_exist_witness :
  (calculate_diversity_metrics String.leb (fun v => v) example_obs
                               default_ccf_label = Return example_metrics
   /\ In "count" (map (fun spec => fst (fst spec))
                      (region_metrics (fun v => v)))
   /\ ["cluster"; "subclass"] <> []
   /\ incl ["cluster"; "subclass"] default_levels)
  /\ exists sort_col drawn,
       plot_metric_multiple_levels_columns "count"
         (Some ["cluster"; "subclass"])
       = Return (sort_col, drawn)
       /\ In sort_col (columns example_metrics)
       /\ incl drawn (columns example_metrics).
Proof.
  assert (Hincl : incl ["cluster"; "subclass"] default_levels).
  { intros lv [<-|[<-|[]]]; simpl; auto. }
  split; [split; [vm_compute; reflexivity
                 | split; [simpl; auto
                          | split; [discriminate | exact Hincl]]]|].
  apply (@plot_metric_multiple_levels_columns_exist String.leb (fun v => v)
           example_obs default_ccf_label "count" ["cluster"; "subclass"]
           example_metrics).
  - vm_compute. reflexivity.
  - simpl. auto.
  - discriminate.
  - exact Hincl.
Defined.

Local Close Scope string_scope.
